(** * FIREDpy-NRT, [scripts/optical_scenes.py]: a shallow embedding

    The script looks a fire event up in a shapefile, derives a footprint and
    a buffered date window, and hands both to one of two imagery-provider
    adapters.  Everything the script does to the outside world (printing,
    sleeping, the file system, the provider SDKs) is kept as an explicit
    request in a small free monad; a run folds a program over an answer
    function and yields the outcome together with the list of requests
    made, in order. *)

From Stdlib Require Import ZArith String Ascii List DecimalString DecimalZ
  DecimalPos Lia Bool.
From stdpp Require Import gmap strings list.

Set Warnings "-register-all".
Local Open Scope string_scope.
Local Open Scope Z_scope.
Local Open Scope list_scope.

(** ** Python runtime pieces *)

Module Py.

(** The exceptions the script can meet.  [SystemExit] is kept apart, as
    an outcome of its own, since nothing in the script catches it. *)
Inductive exn : Type :=
| LTATriggered
| KeyError (key : string)
| IndexError
| TypeError
| ValueError
| OverflowError
| OSError (what : string).

(** What an external request answers: a value, or a raised exception. *)
Inductive answer (A : Type) : Type :=
| Ok (a : A)
| Raise (e : exn).
Arguments Ok {A} a.
Arguments Raise {A} e.

Definition answer_bind {A B} (x : answer A) (f : A -> answer B) : answer B :=
  match x with
  | Ok a => f a
  | Raise e => Raise e
  end.

(** Numbers.  The footprint helpers are duck-typed: they use [-], [+],
    [<] and [str] of whatever they are given (int, float, Fraction).
    The class collects these operations with the order facts the proofs
    use; [py_parse] is the reading back of [str] ([int(s)], [float(s)]).
    Exact types such as [int] satisfy every law; binary floats satisfy
    them away from NaN and signed zeros. *)
Class Number (num : Type) : Type := {
  py_add : num -> num -> num;
  py_sub : num -> num -> num;
  py_lt : num -> num -> bool;
  py_zero : num;
  py_str : num -> string;
  py_parse : string -> option num;
  py_lt_irrefl : forall x, py_lt x x = false;
  py_lt_asym : forall x y, py_lt x y = true -> py_lt y x = false;
  py_lt_total : forall x y, py_lt x y = false -> py_lt y x = false -> x = y;
  py_sub_le_add : forall x d,
      py_lt py_zero d = true -> py_lt (py_add x d) (py_sub x d) = false;
  py_str_plain : forall x c,
      In c (list_ascii_of_string (py_str x)) ->
      c <> ","%char /\ c <> " "%char /\ c <> ")"%char;
  py_parse_str : forall x, py_parse (py_str x) = Some x
}.

(** [min(xs)] and [max(xs)] of the builtins: the first element is the
    candidate, a later one replaces it when it is strictly smaller
    (resp. strictly larger); an empty argument raises [ValueError]. *)
Section MinMax.
Context {num : Type} `{Number num}.

Definition min_step (cur item : num) : num :=
  if py_lt item cur then item else cur.
Definition max_step (cur item : num) : num :=
  if py_lt cur item then item else cur.

Definition py_min (xs : list num) : answer num :=
  match xs with
  | [] => Raise ValueError
  | x :: rest => Ok (fold_left min_step rest x)
  end.

Definition py_max (xs : list num) : answer num :=
  match xs with
  | [] => Raise ValueError
  | x :: rest => Ok (fold_left max_step rest x)
  end.
End MinMax.

(** The exit status the interpreter reports for [sys.exit(arg)]:
    no argument (or [None]) is a clean exit, status zero. *)
Definition exit_code (arg : option Z) : Z :=
  match arg with
  | None => 0
  | Some n => Z.land n 255
  end.

End Py.
Export Py.

(** ** Text helpers *)

Module Text.

(** [s.split(sep)] for a one-character separator. *)
Fixpoint split_on (sep : ascii) (s : string) : list string :=
  match s with
  | EmptyString => [EmptyString]
  | String c s' =>
      if Ascii.eqb c sep then EmptyString :: split_on sep s'
      else match split_on sep s' with
           | [] => [String c EmptyString]
           | w :: ws => String c w :: ws
           end
  end.

Fixpoint strip_prefix (p s : string) : option string :=
  match p, s with
  | EmptyString, _ => Some s
  | String a p', String b s' =>
      if Ascii.eqb a b then strip_prefix p' s' else None
  | String _ _, EmptyString => None
  end.

Fixpoint span_until (stop : ascii) (s : string) : string * string :=
  match s with
  | EmptyString => (EmptyString, EmptyString)
  | String c s' =>
      if Ascii.eqb c stop then (EmptyString, s)
      else let '(w, rest) := span_until stop s' in (String c w, rest)
  end.

Fixpoint join_with (sep : string) (parts : list string) : string :=
  match parts with
  | [] => ""
  | [p] => p
  | p :: rest => p +:+ sep +:+ join_with sep rest
  end.

Definition is_digit (c : ascii) : bool :=
  let n := Z.of_N (N_of_ascii c) in (48 <=? n) && (n <=? 57).

Definition digit_value (c : ascii) : Z := Z.of_N (N_of_ascii c) - 48.

(** Value of a run of ASCII digits read in base ten; [None] when some
    character is not a digit. *)
Fixpoint digits_value_from (acc : Z) (s : string) : option Z :=
  match s with
  | EmptyString => Some acc
  | String c s' =>
      if is_digit c then digits_value_from (acc * 10 + digit_value c) s'
      else None
  end.

Definition digits_value (s : string) : option Z := digits_value_from 0 s.

(** Every character of [s] is an ASCII character.  A string holds the
    characters of a Python [str] one by one when they are ASCII; a
    character outside ASCII takes several places, none of them below 128. *)
Fixpoint is_ascii (s : string) : bool :=
  match s with
  | EmptyString => true
  | String c s' => (N_of_ascii c <? 128)%N && is_ascii s'
  end.

End Text.
Export Text.

(** ** [datetime] and [timedelta]

    The script builds its datetimes with [strptime(s, "%Y-%m-%d")], so the
    time of day is always midnight, and it shifts them by whole days only;
    a datetime is therefore kept as its calendar date.  The day arithmetic
    follows CPython's [_pydatetime]: through proleptic Gregorian ordinals. *)

Module Datetime.

Record datetime : Type := mk_datetime { year : Z; month : Z; day : Z }.

Definition MAXORDINAL : Z := 3652059.
Definition DAYS_IN_MONTH : list Z :=
  [-1; 31; 28; 31; 30; 31; 30; 31; 31; 30; 31; 30; 31].
Definition DAYS_BEFORE_MONTH : list Z :=
  [-1; 0; 31; 59; 90; 120; 151; 181; 212; 243; 273; 304; 334].

Definition table (t : list Z) (i : Z) : Z := nth (Z.to_nat i) t 0.

Definition is_leap (y : Z) : bool :=
  (y mod 4 =? 0) && (negb (y mod 100 =? 0) || (y mod 400 =? 0)).

Definition days_before_year (y : Z) : Z :=
  let y := y - 1 in y * 365 + y / 4 - y / 100 + y / 400.

Definition days_in_month (y m : Z) : Z :=
  if (m =? 2) && is_leap y then 29 else table DAYS_IN_MONTH m.

Definition days_before_month (y m : Z) : Z :=
  table DAYS_BEFORE_MONTH m + (if (2 <? m) && is_leap y then 1 else 0).

Definition ymd2ord (y m d : Z) : Z :=
  days_before_year y + days_before_month y m + d.

Definition ord2ymd (n : Z) : Z * Z * Z :=
  let n := n - 1 in
  let n400 := n / 146097 in
  let n := n mod 146097 in
  let y := n400 * 400 + 1 in
  let n100 := n / 36524 in
  let n := n mod 36524 in
  let n4 := n / 1461 in
  let n := n mod 1461 in
  let n1 := n / 365 in
  let n := n mod 365 in
  let y := y + n100 * 100 + n4 * 4 + n1 in
  if (n1 =? 4) || (n100 =? 4) then (y - 1, 12, 31)
  else
    let leapyear := (n1 =? 3) && (negb (n4 =? 24) || (n100 =? 3)) in
    let m := Z.shiftr (n + 50) 5 in
    let preceding :=
      table DAYS_BEFORE_MONTH m + (if (2 <? m) && leapyear then 1 else 0) in
    if n <? preceding then
      let m := m - 1 in
      let preceding :=
        preceding
        - (table DAYS_IN_MONTH m + (if (m =? 2) && leapyear then 1 else 0)) in
      (y, m, n - preceding + 1)
    else (y, m, n - preceding + 1).

(** The checks of the [datetime(year, month, day)] constructor. *)
Definition valid_ymd (y m d : Z) : bool :=
  (1 <=? y) && (y <=? 9999) && (1 <=? m) && (m <=? 12)
  && (1 <=? d) && (d <=? days_in_month y m).

Definition valid (dt : datetime) : bool :=
  valid_ymd (year dt) (month dt) (day dt).

Definition datetime_new (y m d : Z) : answer datetime :=
  if valid_ymd y m d then Ok (mk_datetime y m d) else Raise ValueError.

Definition toordinal (dt : datetime) : Z :=
  ymd2ord (year dt) (month dt) (day dt).

Definition fromordinal (n : Z) : datetime :=
  let '(y, m, d) := ord2ymd n in mk_datetime y m d.

(** [timedelta(days=n)]: a number of days, bounded in magnitude. *)
Definition timedelta (days : Z) : answer Z :=
  if Z.abs days <=? 999999999 then Ok days else Raise OverflowError.

(** [dt + delta] and [dt - delta] for a delta of whole days. *)
Definition datetime_add (dt : datetime) (delta : Z) : answer datetime :=
  let o := toordinal dt + delta in
  if (0 <? o) && (o <=? MAXORDINAL) then Ok (fromordinal o)
  else Raise OverflowError.

Definition datetime_sub (dt : datetime) (delta : Z) : answer datetime :=
  datetime_add dt (- delta).

(** Comparison is field by field, most significant first. *)
Definition datetime_lt (a b : datetime) : bool :=
  (year a <? year b)
  || ((year a =? year b)
      && ((month a <? month b)
          || ((month a =? month b) && (day a <? day b)))).

Definition datetime_le (a b : datetime) : bool := negb (datetime_lt b a).

(** [strptime(s, "%Y-%m-%d")].  The directive patterns are
    [%Y = \d\d\d\d], [%m = 1[0-2]|0[1-9]|[1-9]] and
    [%d = 3[0-1]|[1-2]\d|0[1-9]|[1-9]| [1-9]]; the whole string has to be
    consumed, and the fields have to make a date.  [\d] is read as
    [0-9]: so it is on a string of ASCII characters ([is_ascii]).  In a
    [str] pattern [\d] also takes the decimal digits of other scripts,
    which are not read here: a date that [strptime_ymd] accepts is
    accepted by [strptime] with the same result, and a date of ASCII
    characters that [strptime_ymd] refuses is refused by [strptime]. *)
Definition field_Y (s : string) : option Z :=
  if (String.length s =? 4)%nat then digits_value s else None.

Definition field_m (s : string) : option Z :=
  match digits_value s with
  | Some v =>
      if (1 <=? Z.of_nat (String.length s)) && (Z.of_nat (String.length s) <=? 2)
         && (1 <=? v) && (v <=? 12)
      then Some v else None
  | None => None
  end.

Definition field_d (s : string) : option Z :=
  match s with
  | String " " (String c EmptyString) =>
      if is_digit c && (1 <=? digit_value c) then Some (digit_value c)
      else None
  | _ =>
      match digits_value s with
      | Some v =>
          if (1 <=? Z.of_nat (String.length s))
             && (Z.of_nat (String.length s) <=? 2)
             && (1 <=? v) && (v <=? 31)
          then Some v else None
      | None => None
      end
  end.

Definition strptime_ymd (s : string) : answer datetime :=
  match split_on "-" s with
  | [ys; ms; ds] =>
      match field_Y ys, field_m ms, field_d ds with
      | Some y, Some m, Some d => datetime_new y m d
      | _, _, _ => Raise ValueError
      end
  | _ => Raise ValueError
  end.

(** [dt.strftime("%Y-%m-%d")], zero padded. *)
Definition digit_char (v : Z) : ascii := ascii_of_N (Z.to_N (48 + v mod 10)).

Definition pad2 (v : Z) : string :=
  String (digit_char (v / 10)) (String (digit_char v) EmptyString).

Definition pad4 (v : Z) : string := pad2 (v / 100) +:+ pad2 v.

Definition strftime_ymd (dt : datetime) : string :=
  pad4 (year dt) +:+ "-" +:+ pad2 (month dt) +:+ "-" +:+ pad2 (day dt).

End Datetime.
Export Datetime.

(** ** Footprints *)

Module Footprint.
Section WithNumber.
Context {num : Type} `{Number num}.

Definition vertex : Type := (num * num)%type.
Definition ring : Type := list vertex.

(** The GeoJSON object given to sentinelsat's [geojson_to_wkt]. *)
Record geojson : Type := GeoJSON {
  gj_type : string;
  gj_coordinates : list ring
}.

(** [get_footprint_point]: the dict it builds, and the call of
    sentinelsat's [geojson_to_wkt] on it.  [geojson_to_wkt] is not part of
    the repository; it is taken as an argument, and it may raise. *)
Definition footprint_point_geojson
    (latitude longitude delta_lat delta_lon : num) : geojson :=
  {| gj_type := "Polygon";
     gj_coordinates := [[
       (py_sub longitude delta_lon, py_sub latitude delta_lat);
       (py_add longitude delta_lon, py_sub latitude delta_lat);
       (py_add longitude delta_lon, py_add latitude delta_lat);
       (py_sub longitude delta_lon, py_add latitude delta_lat);
       (py_sub longitude delta_lon, py_sub latitude delta_lat)
     ]] |}.

Definition get_footprint_point (geojson_to_wkt : geojson -> answer string)
    (latitude longitude delta_lat delta_lon : num) : answer string :=
  let footprint :=
    geojson_to_wkt
      (footprint_point_geojson latitude longitude delta_lat delta_lon) in
  footprint.

Definition get_footprint_poly (minlon minlat maxlon maxlat : num) : string :=
  let footprint :=
    "polygon((" +:+ py_str maxlon +:+ " " +:+ py_str maxlat +:+ ","
      +:+ py_str maxlon +:+ " " +:+ py_str minlat +:+ ","
      +:+ py_str minlon +:+ " " +:+ py_str minlat +:+ ","
      +:+ py_str minlon +:+ " " +:+ py_str maxlat +:+ ","
      +:+ py_str maxlon +:+ " " +:+ py_str maxlat +:+ "))" in
  footprint.

Definition get_bbox (minlon minlat maxlon maxlat : num)
  : num * num * num * num :=
  (minlon, minlat, maxlon, maxlat).

(** *** Reading a ring: its bounds, and its WKT text *)

(** The four corners of the rectangle a bounds tuple
    [(minx, miny, maxx, maxy)] stands for, going round it from the upper
    right corner: each corner shares one coordinate with the next. *)
Definition corners (b : num * num * num * num) : list vertex :=
  let '(minx, miny, maxx, maxy) := b in
  [(maxx, maxy); (maxx, miny); (minx, miny); (minx, maxy)].

(** [r] goes once round the rectangle of [b]: through its four corners in
    turn and back to the first. *)
Definition rectangle_ring (b : num * num * num * num) (r : ring) : Prop :=
  r = corners b ++ firstn 1 (corners b) /\ NoDup (corners b).

(** Bounds in shapely's layout [(minx, miny, maxx, maxy)]. *)
Definition ring_bounds (r : ring) : answer (num * num * num * num) :=
  answer_bind (py_min (map fst r)) (fun minx =>
  answer_bind (py_min (map snd r)) (fun miny =>
  answer_bind (py_max (map fst r)) (fun maxx =>
  answer_bind (py_max (map snd r)) (fun maxy =>
  Ok (minx, miny, maxx, maxy))))).

Definition ring_closed (r : ring) : Prop :=
  exists v, head r = Some v /\ last r = Some v.

(** Text of one vertex and of a whole polygon, in the layout
    [get_footprint_poly] writes. *)
Definition vertex_text (v : vertex) : string :=
  py_str (fst v) +:+ " " +:+ py_str (snd v).

Definition wkt_of_ring (r : ring) : string :=
  "polygon((" +:+ join_with "," (map vertex_text r) +:+ "))".

(** A reader for that layout. *)
Definition parse_vertex (s : string) : option vertex :=
  match split_on " " s with
  | [xs; ys] =>
      match py_parse xs, py_parse ys with
      | Some x, Some y => Some (x, y)
      | _, _ => None
      end
  | _ => None
  end.

Fixpoint parse_vertices (parts : list string) : option ring :=
  match parts with
  | [] => Some []
  | p :: rest =>
      match parse_vertex p, parse_vertices rest with
      | Some v, Some vs => Some (v :: vs)
      | _, _ => None
      end
  end.

Definition parse_wkt_polygon (s : string) : option ring :=
  match strip_prefix "polygon((" s with
  | None => None
  | Some body =>
      let '(inner, tail) := span_until ")" body in
      if String.eqb tail "))" then parse_vertices (split_on "," inner)
      else None
  end.

End WithNumber.
End Footprint.

(** ** JSON documents, as [json.load] returns them *)

Module Json.

Inductive json (num : Type) : Type :=
| JNull
| JBool (b : bool)
| JNum (n : num)
| JStr (s : string)
| JArr (items : list (json num))
| JObj (fields : gmap string (json num)).
Arguments JNull {num}.
Arguments JBool {num} b.
Arguments JNum {num} n.
Arguments JStr {num} s.
Arguments JArr {num} items.
Arguments JObj {num} fields.

Section Subscripts.
Context {num : Type}.

(** [v[key]] for a string key. *)
Definition getitem (v : json num) (key : string) : answer (json num) :=
  match v with
  | JObj fields =>
      match fields !! key with
      | Some x => Ok x
      | None => Raise (KeyError key)
      end
  | _ => Raise TypeError
  end.

(** [v[i]] for a literal index [i >= 0]: lists and strings are
    indexable, a dict is searched for the integer key and has none
    (its keys are strings). *)
Definition getindex (v : json num) (i : nat) : answer (json num) :=
  match v with
  | JArr items =>
      match items !! i with
      | Some x => Ok x
      | None => Raise IndexError
      end
  | JStr s =>
      match String.get i s with
      | Some c => Ok (JStr (String c EmptyString))
      | None => Raise IndexError
      end
  | JObj _ => Raise (KeyError (NilZero.string_of_uint (Nat.to_uint i)))
  | _ => Raise TypeError
  end.

(** [v[:]]: a copy of a list or of a string. *)
Definition getslice_all (v : json num) : answer (json num) :=
  match v with
  | JArr items => Ok (JArr items)
  | JStr s => Ok (JStr s)
  | _ => Raise TypeError
  end.

(** [len(v)] and the elements a [range(len(v))] loop visits. *)
Definition items_of (v : json num) : answer (list (json num)) :=
  match v with
  | JArr items => Ok items
  | JStr s =>
      Ok (map (fun c => JStr (String c EmptyString)) (list_ascii_of_string s))
  | JObj _ => Raise (KeyError "0")
  | _ => Raise TypeError
  end.

(** [v[key] = x]: only a dict takes a string key. *)
Definition setitem (v : json num) (key : string) (x : json num)
  : answer (json num) :=
  match v with
  | JObj fields => Ok (JObj (<[key := x]> fields))
  | _ => Raise TypeError
  end.

(** [data['features'][0][key] = x], with the change seen through
    [data], as the objects are shared. *)
Definition set_in_first_feature (data : json num) (key : string)
    (x : json num) : answer (json num) :=
  answer_bind (getitem data "features") (fun features =>
  answer_bind (getindex features 0) (fun feature =>
  answer_bind (setitem feature key x) (fun feature' =>
  match data, features with
  | JObj fields, JArr (_ :: rest) =>
      Ok (JObj (<["features" := JArr (feature' :: rest)]> fields))
  | _, _ => Raise TypeError
  end))).

(** [data['features'][0][key].append(x)]. *)
Definition append_in_first_feature (data : json num) (key : string)
    (x : json num) : answer (json num) :=
  answer_bind (getitem data "features") (fun features =>
  answer_bind (getindex features 0) (fun feature =>
  answer_bind (getitem feature key) (fun senes =>
  match senes with
  | JArr items => set_in_first_feature data key (JArr (items ++ [x]))
  | _ => Raise TypeError
  end))).

End Subscripts.
End Json.
Export Json.

(** ** Paths *)

Module Path.

Definition starts_with_slash (s : string) : bool :=
  match s with
  | String "/" _ => true
  | _ => false
  end.

Fixpoint ends_with_slash (s : string) : bool :=
  match s with
  | EmptyString => false
  | String c EmptyString => Ascii.eqb c "/"
  | String _ s' => ends_with_slash s'
  end.

(** [os.path.join(a, b)] of [posixpath]. *)
Definition join (a b : string) : string :=
  if starts_with_slash b then b
  else if String.eqb a "" || ends_with_slash a then a +:+ b
  else a +:+ "/" +:+ b.

Definition join3 (a b c : string) : string := join (join a b) c.

End Path.

(** ** The script *)

(** How a procedure ends: it returns, an exception leaves it, or
    [sys.exit] was called. *)
Inductive outcome (A : Type) : Type :=
| Returned (a : A)
| Raised (e : exn)
| Exited (arg : option Z).
Arguments Returned {A} a.
Arguments Raised {A} e.
Arguments Exited {A} arg.

(** The exit status the interpreter reports for an outcome of the whole
    script. *)
Definition exit_status {A} (o : outcome A) : Z :=
  match o with
  | Returned _ => 0
  | Raised _ => 1
  | Exited arg => exit_code arg
  end.

(** Python values returned by the procedures below. *)
Inductive value : Type :=
| VNone
| VBool (b : bool).

Section OpticalScenes.

Context {num : Type} `{Number num}.

(** shapely geometries and the pyproj transformer are used through a few
    attributes only; they are taken as given. *)
Context {geometry : Type}.
Variable bounds : geometry -> num * num * num * num.
Variable box : num * num * num * num -> geometry.
Variable wkt : geometry -> string.
Variable geo_interface : geometry -> json num.
Variable transform_3395_4326 : num -> num -> num * num.

(** *** [config.Config] *)

Record Config : Type := {
  username_sentinel : string;
  password_sentinel : string;
  username_landsat : string;
  password_landsat : string;
  data_dir : string;
  max_cloud_cover : num;
  download_scenes : bool;
  save_footprints : bool;
  update_json : bool;
  delta_days_sentinel : Z;
  delta_days_landsat : Z;
  producttype_sentinel : string
}.

Variable config : Config.

(** *** Provider records *)

(** The ordered dict [api.query] returns: product id to metadata. *)
Definition products : Type := list (string * json num).

(** What [api.get_product_odata] returns, by the keys the script reads. *)
Record odata : Type := {
  od_title : string;
  od_date : datetime;
  od_ingestion_date : datetime;
  od_url : string;
  od_quicklook_url : string;
  od_footprint : string
}.

(** A landsatxplore scene, by the keys the script reads. *)
Record scene : Type := {
  display_id : string;
  landsat_product_id : string;
  acquisition_date : datetime;
  date_product_generated : datetime;
  data_type : string;
  spatial_bounds : num * num * num * num;
  spatial_coverage : geometry;
  temporal_coverage : list datetime;
  land_cloud_cover : num;
  scene_cloud_cover : num
}.

(** A row of the Landsat footprint frame once [temporal_coverage] is
    split in two columns and [spatial_bounds] is dropped. *)
Record footprint_row : Type := {
  fr_scene : scene;
  temporal_coverage_start : datetime;
  temporal_coverage_end : datetime
}.

Inductive geoframe : Type :=
| SentinelFrame (found : products)
| LandsatFrame (rows : list footprint_row) (geometry_column crs : string).

(** A row of the fire-events shapefile. *)
Record fire_row : Type := {
  row_id : string;
  ig_date : string;
  last_date : string;
  row_geometry : geometry
}.

(** *** Requests to the outside, and what they return *)

Inductive request : Type :=
| SentinelQuery (footprint : string) (date : datetime * datetime)
    (cloudcoverpercentage : num * num) (producttype platformname : string)
| SentinelToGeodataframe (found : products)
| SentinelDownload (product_id directory_path : string)
| SentinelDownloadAll (found : products) (directory_path : string)
| SentinelProductOdata (product_id : string)
| LandsatLogin (username password : string)
| LandsatSearch (dataset : string) (bbox : num * num * num * num)
    (start_date end_date : string) (cloud : num)
| LandsatLogout
| EarthExplorerLogin (username password : string)
| EarthExplorerDownload (scene_id output_dir : string)
| EarthExplorerLogout
| PathExists (path : string)
| Mkdir (path : string)
| GdfToFile (frame : geoframe) (fname driver : string)
| JsonLoad (fname : string)
| JsonDump (fname : string) (data : json num)
| ReadShapefile (fname : string).

Definition reply (r : request) : Type :=
  match r with
  | SentinelQuery _ _ _ _ _ => products
  | SentinelToGeodataframe _ => geoframe
  | SentinelProductOdata _ => odata
  | LandsatSearch _ _ _ _ _ => list scene
  | PathExists _ => bool
  | JsonLoad _ => json num
  | ReadShapefile _ => list fire_row
  | _ => unit
  end.

(** The lines the script prints, by print statement. *)
Inductive message : Type :=
| MsgDownloadOk (product_id : string)
| MsgNotAvailable (product_id : string) (retry_wait : Z)
| MsgDownloadFailed (product_id : string) (num_retries : Z)
| MsgSearchingSentinel (event_id : string)
| MsgSentinelFound (count : nat) (event_id : string)
| MsgSavingSentinelFootprints (event_id output_directory : string)
| MsgDownloadingSentinel (event_id output_directory : string)
| MsgNoSentinelScenes (event_id : string)
| MsgSearchingLandsat (event_id : string)
| MsgLandsatFound (count : nat) (event_id : string)
| MsgSavingLandsatFootprints (event_id output_directory : string)
| MsgDownloadingLandsat (event_id output_directory : string)
| MsgNoLandsatScenes (event_id : string)
| MsgInvalidFireID
| MsgSearchingFor (satellite fid : string)
| MsgSettings (downloading saving : bool)
| MsgWindow (adjusted_start_date adjusted_end_date : datetime)
| MsgWrongSatellite.

(** What a run leaves behind, in order. *)
Inductive event : Type :=
| Said (m : message)
| Slept (seconds : Z)
| Asked (r : request).

(** *** Programs *)

Inductive prog (A : Type) : Type :=
| Ret (a : A)
| Throw (e : exn)
| SysExit (arg : option Z)
| Do (ev : event) (k : prog A)
| Ask (r : request) (k : answer (reply r) -> prog A).
Arguments Ret {A} a.
Arguments Throw {A} e.
Arguments SysExit {A} arg.
Arguments Do {A} ev k.
Arguments Ask {A} r k.

Fixpoint bind {A B} (p : prog A) (f : A -> prog B) : prog B :=
  match p with
  | Ret a => f a
  | Throw e => Throw e
  | SysExit arg => SysExit arg
  | Do ev k => Do ev (bind k f)
  | Ask r k => Ask r (fun x => bind (k x) f)
  end.

(** [try: p except e: handler]; [handles] picks the exceptions the
    clause names.  [SystemExit] passes through. *)
Fixpoint try_except {A} (p : prog A) (handles : exn -> bool)
    (handler : prog A) : prog A :=
  match p with
  | Ret a => Ret a
  | Throw e => if handles e then handler else Throw e
  | SysExit arg => SysExit arg
  | Do ev k => Do ev (try_except k handles handler)
  | Ask r k => Ask r (fun x => try_except (k x) handles handler)
  end.

Definition call (r : request) : prog (reply r) :=
  Ask r (fun x => match x with Ok v => Ret v | Raise e => Throw e end).

Definition print (m : message) : prog unit := Do (Said m) (Ret tt).

(** [time.sleep(s)] refuses a negative length.  It also refuses, with an
    [OverflowError] or an [OSError], a length beyond what the platform's
    clock takes; that limit depends on the platform and is not part of
    [sleep]: a theorem that says a run goes on after a sleep takes the
    length to be at most [sleep_max]. *)
Definition sleep (seconds : Z) : prog unit :=
  if seconds <? 0 then Throw ValueError else Do (Slept seconds) (Ret tt).

(** A length in seconds that every implementation of [time.sleep] takes:
    the smallest of their limits, [ULONG_MAX] milliseconds.  Up to it
    [retry_wait/60], which the waiting line prints, is a float as well. *)
Definition sleep_max : Z := 4294967.

Definition sys_exit {A} : prog A := SysExit None.

Definition lift {A} (x : answer A) : prog A :=
  match x with
  | Ok a => Ret a
  | Raise e => Throw e
  end.

Notation "x <- p ;; k" := (bind p (fun x => k))
  (at level 100, p at next level, right associativity).
Notation "p ;; k" := (bind p (fun _ => k))
  (at level 100, right associativity).

(** [if cond: body], for a body run for its effects. *)
Definition when (cond : bool) (body : prog unit) : prog unit :=
  if cond then body else Ret tt.

(** [for x in xs: body]. *)
Fixpoint for_each {X} (xs : list X) (body : X -> prog unit) : prog unit :=
  match xs with
  | [] => Ret tt
  | x :: rest => body x ;; for_each rest body
  end.

(** *** Runs *)

(** The outside world: what each request answers, given what has
    happened so far. *)
Definition world : Type := forall r : request, list event -> answer (reply r).

Fixpoint run {A} (w : world) (p : prog A) (past : list event)
  : outcome A * list event :=
  match p with
  | Ret a => (Returned a, past)
  | Throw e => (Raised e, past)
  | SysExit arg => (Exited arg, past)
  | Do ev k => run w k (past ++ [ev])
  | Ask r k => run w (k (w r past)) (past ++ [Asked r])
  end.


(** *** [download_product] *)

Definition is_LTATriggered (e : exn) : bool :=
  match e with
  | LTATriggered => true
  | _ => false
  end.

Section DownloadProduct.
Variables (product_id output_directory : string).
Variables (num_retries retry_wait : Z).

(** One turn of the loop body; [Some v] stands for [return v]. *)
Definition download_attempt : prog (option value) :=
  try_except
    (call (SentinelDownload product_id output_directory) ;;
     print (MsgDownloadOk product_id) ;;
     Ret (Some VNone))
    is_LTATriggered
    (print (MsgNotAvailable product_id retry_wait) ;;
     sleep retry_wait ;;
     Ret None).

Fixpoint download_loop (turns : nat) : prog value :=
  match turns with
  | O =>
      print (MsgDownloadFailed product_id num_retries) ;;
      Ret VNone
  | S turns' =>
      r <- download_attempt ;;
      match r with
      | Some v => Ret v
      | None => download_loop turns'
      end
  end.

Definition download_product : prog value :=
  download_loop (Z.to_nat num_retries).
End DownloadProduct.

(** *** [get_sentinel] *)

Definition ensure_dir (path : string) : prog unit :=
  there <- call (PathExists path) ;;
  when (negb there) (call (Mkdir path)).

Definition sentinel_element (product_info : odata) : json num :=
  JObj (list_to_map [
    ("Scene_ID", JStr (od_title product_info));
    ("acquisition_date", JStr (strftime_ymd (od_date product_info)));
    ("ingestion_date", JStr (strftime_ymd (od_ingestion_date product_info)));
    ("URL", JStr (od_url product_info));
    ("Quicklook_URL", JStr (od_quicklook_url product_info));
    ("footprint", JStr (od_footprint product_info))
  ]).

Fixpoint sentinel_senes (ids : list string) (data : json num)
  : prog (json num) :=
  match ids with
  | [] => Ret data
  | product_id :: rest =>
      product_info <- call (SentinelProductOdata product_id) ;;
      data' <- lift (append_in_first_feature data "sentinel_senes"
                       (sentinel_element product_info)) ;;
      sentinel_senes rest data'
  end.

Definition get_sentinel (event_id footprint : string)
    (start_date end_date : datetime) (json_file_name producttype : string)
    (platform : string) : prog value :=
  print (MsgSearchingSentinel event_id) ;;
  found <- call (SentinelQuery footprint (start_date, end_date)
                   (py_zero, max_cloud_cover config) producttype platform) ;;
  match found with
  | _ :: _ =>
      print (MsgSentinelFound (length found) event_id) ;;
      let out_dir := Path.join3 (data_dir config) "Fire_events" event_id in
      ensure_dir out_dir ;;
      let output_directory := Path.join out_dir "Sentinel" in
      ensure_dir output_directory ;;
      when (save_footprints config)
        (print (MsgSavingSentinelFootprints event_id output_directory) ;;
         gdf <- call (SentinelToGeodataframe found) ;;
         let fname := output_directory +:+ "/Sentinel_footprints.geojson" in
         call (GdfToFile gdf fname "GeoJSON")) ;;
      when (download_scenes config)
        (print (MsgDownloadingSentinel event_id output_directory) ;;
         call (SentinelDownloadAll found output_directory)) ;;
      when (update_json config)
        (data <- call (JsonLoad json_file_name) ;;
         data <- lift (set_in_first_feature data "sentinel_senes" (JArr [])) ;;
         data <- sentinel_senes (map fst found) data ;;
         call (JsonDump json_file_name data)) ;;
      Ret VNone
  | [] =>
      print (MsgNoSentinelScenes event_id) ;;
      Ret VNone
  end.

(** *** [get_landsat] *)

Definition bbox_json (b : num * num * num * num) : json num :=
  let '(x0, y0, x1, y1) := b in JArr [JNum x0; JNum y0; JNum x1; JNum y1].

Definition landsat_element (s : scene) : json num :=
  JObj (list_to_map [
    ("Scene_ID", JStr (display_id s));
    ("acquisition_date", JStr (strftime_ymd (acquisition_date s)));
    ("ingestion_date", JStr (strftime_ymd (date_product_generated s)));
    ("data_type", JStr (data_type s));
    ("footprint", bbox_json (spatial_bounds s));
    ("land_cloud_cover", JNum (land_cloud_cover s));
    ("scene_cloud_cover", JNum (scene_cloud_cover s))
  ]).

(** [row.temporal_coverage[i]] over every row, one column at a time. *)
Fixpoint coverage_column (i : nat) (scenes : list scene)
  : answer (list datetime) :=
  match scenes with
  | [] => Ok []
  | s :: rest =>
      match temporal_coverage s !! i with
      | Some d => answer_bind (coverage_column i rest) (fun ds => Ok (d :: ds))
      | None => Raise IndexError
      end
  end.

Fixpoint zip_rows (scenes : list scene) (starts ends : list datetime)
  : list footprint_row :=
  match scenes, starts, ends with
  | s :: scenes', a :: starts', b :: ends' =>
      {| fr_scene := s;
         temporal_coverage_start := a;
         temporal_coverage_end := b |} :: zip_rows scenes' starts' ends'
  | _, _, _ => []
  end.

Definition landsat_frame (scenes : list scene) : answer geoframe :=
  answer_bind (coverage_column 0 scenes) (fun starts =>
  answer_bind (coverage_column 1 scenes) (fun ends =>
  Ok (LandsatFrame (zip_rows scenes starts ends)
        "spatial_coverage" "EPSG:4326"))).

Fixpoint landsat_senes (event_id : string) (scenes : list scene)
    (data : json num) : prog (json num) :=
  match scenes with
  | [] => Ret data
  | s :: rest =>
      data' <- lift (append_in_first_feature data "landsat_senes"
                       (landsat_element s)) ;;
      let fname :=
        event_id +:+ "_" +:+ landsat_product_id s +:+ ".geojson" in
      call (JsonDump fname (geo_interface (spatial_coverage s))) ;;
      landsat_senes event_id rest data'
  end.

Definition get_landsat (event_id : string)
    (footprint : num * num * num * num)
    (start_date end_date : datetime) (json_file_name : string)
    (platform : string) : prog value :=
  print (MsgSearchingLandsat event_id) ;;
  call (LandsatLogin (username_landsat config) (password_landsat config)) ;;
  scenes <- call (LandsatSearch "landsat_ot_c2_l1" footprint
                    (strftime_ymd start_date) (strftime_ymd end_date)
                    (max_cloud_cover config)) ;;
  match scenes with
  | _ :: _ =>
      print (MsgLandsatFound (length scenes) event_id) ;;
      let out_dir := Path.join3 (data_dir config) "Fire_events" event_id in
      ensure_dir out_dir ;;
      let output_directory := Path.join out_dir "Landsat" in
      ensure_dir output_directory ;;
      when (save_footprints config)
        (print (MsgSavingLandsatFootprints event_id output_directory) ;;
         gdf <- lift (landsat_frame scenes) ;;
         let fname := output_directory +:+ "/Landsat_footprints.geojson" in
         call (GdfToFile gdf fname "GeoJSON")) ;;
      when (download_scenes config)
        (print (MsgDownloadingLandsat event_id output_directory) ;;
         call (EarthExplorerLogin (username_landsat config)
                 (password_landsat config)) ;;
         for_each scenes (fun s =>
           call (EarthExplorerDownload (display_id s) output_directory)) ;;
         call EarthExplorerLogout) ;;
      when (update_json config)
        (data <- call (JsonLoad json_file_name) ;;
         data <- lift (set_in_first_feature data "landsat_senes" (JArr [])) ;;
         data <- landsat_senes event_id scenes data ;;
         call (JsonDump json_file_name data))
  | [] =>
      print (MsgNoLandsatScenes event_id)
  end ;;
  call LandsatLogout ;;
  Ret VNone.

(** *** [parse_jsons] *)

(** A value used where the script needs a string, resp. a number. *)
Definition as_str (v : json num) : answer string :=
  match v with
  | JStr s => Ok s
  | _ => Raise TypeError
  end.

Definition as_num (v : json num) : answer num :=
  match v with
  | JNum n => Ok n
  | _ => Raise TypeError
  end.

(** [data['features'][0]['properties'][key]]. *)
Definition property (data : json num) (key : string) : answer (json num) :=
  answer_bind (getitem data "features") (fun features =>
  answer_bind (getindex features 0) (fun feature =>
  answer_bind (getitem feature "properties") (fun properties =>
  getitem properties key))).

(** [data['features'][0]['geometry']['coordinates'][0][0][:]]. *)
Definition coordinates (data : json num) : answer (json num) :=
  answer_bind (getitem data "features") (fun features =>
  answer_bind (getindex features 0) (fun feature =>
  answer_bind (getitem feature "geometry") (fun geom =>
  answer_bind (getitem geom "coordinates") (fun coords =>
  answer_bind (getindex coords 0) (fun c0 =>
  answer_bind (getindex c0 0) getslice_all))))).

(** The loop filling [x_arr] and [y_arr]. *)
Fixpoint split_xy (points : list (json num))
    (x_arr y_arr : list (json num))
  : answer (list (json num) * list (json num)) :=
  match points with
  | [] => Ok (x_arr, y_arr)
  | pt :: rest =>
      answer_bind (getindex pt 0) (fun x =>
      answer_bind (getindex pt 1) (fun y =>
      split_xy rest (x_arr ++ [x]) (y_arr ++ [y])))
  end.

Fixpoint all_nums (vs : list (json num)) : answer (list num) :=
  match vs with
  | [] => Ok []
  | v :: rest =>
      answer_bind (as_num v) (fun n =>
      answer_bind (all_nums rest) (fun ns => Ok (n :: ns)))
  end.

Definition event_tuple : Type :=
  (json num * datetime * datetime * num * num * num * num)%type.

(** The body of the [with] block, on the loaded document.  Coordinates
    are taken to be numbers when the extents are compared. *)
Definition parse_jsons_data (data : json num) : answer event_tuple :=
  answer_bind (property data "first_date_7") (fun start_date =>
  answer_bind (property data "last_date_7") (fun end_date =>
  answer_bind (property data "fid") (fun fid =>
  answer_bind (property data "main_clim") (fun climate =>
  answer_bind (answer_bind (as_str start_date) strptime_ymd) (fun start_date =>
  answer_bind (answer_bind (as_str end_date) strptime_ymd) (fun end_date =>
  answer_bind (coordinates data) (fun coord_list =>
  answer_bind (items_of coord_list) (fun points =>
  answer_bind (split_xy points [] []) (fun '(x_arr, y_arr) =>
  answer_bind (all_nums x_arr) (fun xs =>
  answer_bind (all_nums y_arr) (fun ys =>
  answer_bind (py_min xs) (fun minx =>
  answer_bind (py_max xs) (fun maxx =>
  answer_bind (py_min ys) (fun miny =>
  answer_bind (py_max ys) (fun maxy =>
  let '(minlat, minlon) := transform_3395_4326 minx miny in
  let '(maxlat, maxlon) := transform_3395_4326 maxx maxy in
  Ok (fid, start_date, end_date, minlat, minlon, maxlat, maxlon)
  ))))))))))))))).

Definition parse_jsons (filename : string) : prog event_tuple :=
  data <- call (JsonLoad filename) ;;
  lift (parse_jsons_data data).

(** *** [parse_shp] *)

Definition has_id (fid : string) (row : fire_row) : bool :=
  String.eqb (row_id row) fid.

Definition parse_shp (filename fid : string)
  : prog (string * datetime * datetime * geometry) :=
  fires <- call (ReadShapefile filename) ;;
  (if negb (existsb (has_id fid) fires)
   then print MsgInvalidFireID ;; sys_exit
   else Ret tt) ;;
  let fire_event := List.filter (has_id fid) fires in
  match fire_event with
  | [] => Throw IndexError
  | row :: _ =>
      start_date <- lift (strptime_ymd (ig_date row)) ;;
      end_date <- lift (strptime_ymd (last_date row)) ;;
      let footprint := row_geometry row in
      Ret (fid, start_date, end_date, footprint)
  end.

(** *** [main] *)

(** [d - timedelta(days=n)] and [d + timedelta(days=n)]. *)
Definition minus_days (d : datetime) (n : Z) : answer datetime :=
  answer_bind (timedelta n) (datetime_sub d).

Definition plus_days (d : datetime) (n : Z) : answer datetime :=
  answer_bind (timedelta n) (datetime_add d).

Definition main (event_id satellite : string) : prog value :=
  let file_dir := Path.join (data_dir config) "Fire_events" in
  let file_name := Path.join file_dir "selected_events.shp" in
  parsed <- parse_shp file_name event_id ;;
  let '(fid, start_date, end_date, footprint) := parsed in
  print (MsgSearchingFor satellite fid) ;;
  print (MsgSettings (download_scenes config) (save_footprints config)) ;;
  let polygon := box (bounds footprint) in
  if String.eqb satellite "sentinel" then
    let time_delta := delta_days_sentinel config in
    adjusted_start_date <- lift (minus_days start_date time_delta) ;;
    adjusted_end_date <- lift (plus_days end_date time_delta) ;;
    print (MsgWindow adjusted_start_date adjusted_end_date) ;;
    get_sentinel fid (wkt polygon) adjusted_start_date adjusted_end_date
      "json_file_name" (producttype_sentinel config) "Sentinel-2" ;;
    Ret VNone
  else if String.eqb satellite "landsat" then
    let time_delta := delta_days_landsat config in
    adjusted_start_date <- lift (minus_days start_date time_delta) ;;
    adjusted_end_date <- lift (plus_days end_date time_delta) ;;
    print (MsgWindow adjusted_start_date adjusted_end_date) ;;
    get_landsat fid (bounds polygon) adjusted_start_date adjusted_end_date
      "json_file_name" "Landsat-8" ;;
    Ret VNone
  else
    print MsgWrongSatellite ;;
    sys_exit.

(** *** Reading a run *)

Definition is_download_request (ev : event) : bool :=
  match ev with
  | Asked (SentinelDownload _ _) => true
  | _ => false
  end.

Definition is_sleep (ev : event) : bool :=
  match ev with
  | Slept _ => true
  | _ => false
  end.

(** How many times the single-product download has been invoked, and how
    many sleeps were taken. *)
Definition attempts (past : list event) : nat :=
  length (List.filter is_download_request past).

Definition sleeps (past : list event) : nat :=
  length (List.filter is_sleep past).

(** The events of one failed turn of [download_product], and of [n] of
    them in a row. *)
Definition failed_turn (product_id output_directory : string)
    (retry_wait : Z) : list event :=
  [Asked (SentinelDownload product_id output_directory);
   Said (MsgNotAvailable product_id retry_wait);
   Slept retry_wait].

Fixpoint failed_turns (n : nat) (product_id output_directory : string)
    (retry_wait : Z) : list event :=
  match n with
  | O => []
  | S n' =>
      failed_turn product_id output_directory retry_wait
      ++ failed_turns n' product_id output_directory retry_wait
  end.

(** File-system changes: directory creation and file writes. *)
Definition is_write (ev : event) : bool :=
  match ev with
  | Asked (Mkdir _) => true
  | Asked (GdfToFile _ _ _) => true
  | Asked (JsonDump _ _) => true
  | Asked (SentinelDownload _ _) => true
  | Asked (SentinelDownloadAll _ _) => true
  | Asked (EarthExplorerDownload _ _) => true
  | _ => false
  end.

(** Closing a provider session. *)
Definition is_logout (ev : event) : bool :=
  match ev with
  | Asked LandsatLogout => true
  | Asked EarthExplorerLogout => true
  | _ => false
  end.

(** ** Facts about runs *)

Lemma run_bind {A B} (w : world) (p : prog A) (f : A -> prog B) past :
  run w (bind p f) past =
  match run w p past with
  | (Returned a, past') => run w (f a) past'
  | (Raised e, past') => (Raised e, past')
  | (Exited arg, past') => (Exited arg, past')
  end.
Proof.
  revert past. induction p as [a | e | arg | ev k IH | r k IH]; intros past;
    simpl; auto.
Qed.

Lemma run_call (w : world) (r : request) past :
  run w (call r) past =
  match w r past with
  | Ok v => (Returned v, past ++ [Asked r])
  | Raise e => (Raised e, past ++ [Asked r])
  end.
Proof. simpl. destruct (w r past); reflexivity. Qed.

Lemma run_print (w : world) (m : message) past :
  run w (print m) past = (Returned tt, past ++ [Said m]).
Proof. reflexivity. Qed.

Lemma run_sleep (w : world) (seconds : Z) past :
  0 <= seconds ->
  run w (sleep seconds) past = (Returned tt, past ++ [Slept seconds]).
Proof.
  intros Hs. unfold sleep.
  destruct (Z.ltb_spec seconds 0) as [Hneg | _]; [lia | reflexivity].
Qed.

(** A run only ever extends the past. *)
Lemma run_extends {A} (w : world) (p : prog A) past :
  exists new, snd (run w p past) = past ++ new.
Proof.
  revert past. induction p as [a | e | arg | ev k IH | r k IH]; intros past;
    simpl; try (exists []; rewrite app_nil_r; reflexivity).
  - destruct (IH (past ++ [ev])) as [new Hnew].
    exists (ev :: new). rewrite Hnew, <- app_assoc. reflexivity.
  - destruct (IH (w r past) (past ++ [Asked r])) as [new Hnew].
    exists (Asked r :: new). rewrite Hnew, <- app_assoc. reflexivity.
Qed.

Lemma attempts_app past new :
  attempts (past ++ new) = (attempts past + attempts new)%nat.
Proof. unfold attempts. rewrite List.filter_app, length_app. reflexivity. Qed.

Lemma attempts_failed_turn past pid dir wait :
  attempts (past ++ failed_turn pid dir wait) = S (attempts past).
Proof. rewrite attempts_app. unfold attempts, failed_turn. simpl. lia. Qed.

(** *** [download_product] *)

Section RetryFacts.
Variable w : world.
Variables (pid dir : string) (num_retries wait : Z).
Hypothesis wait_nonneg : 0 <= wait.

(** A turn whose download is answered by the triggered signal. *)
Lemma run_attempt_triggered past :
  w (SentinelDownload pid dir) past = Raise LTATriggered ->
  run w (download_attempt pid dir wait) past =
  (Returned None, past ++ failed_turn pid dir wait).
Proof.
  intros Hw. unfold download_attempt. simpl. rewrite Hw. simpl.
  unfold sleep. destruct (Z.ltb_spec wait 0) as [Hneg | _]; [lia |].
  simpl. rewrite <- !app_assoc. reflexivity.
Qed.

(** A turn whose download succeeds: no sleep follows. *)
Lemma run_attempt_ok past :
  w (SentinelDownload pid dir) past = Ok tt ->
  run w (download_attempt pid dir wait) past =
  (Returned (Some VNone),
   past ++ [Asked (SentinelDownload pid dir); Said (MsgDownloadOk pid)]).
Proof.
  intros Hw. unfold download_attempt. simpl. rewrite Hw. simpl.
  rewrite <- !app_assoc. reflexivity.
Qed.

Lemma run_loop_always_triggered turns past :
  (forall past', w (SentinelDownload pid dir) past' = Raise LTATriggered) ->
  run w (download_loop pid dir num_retries wait turns) past =
  (Returned VNone,
   past ++ failed_turns turns pid dir wait
        ++ [Said (MsgDownloadFailed pid num_retries)]).
Proof.
  intros Hw. revert past. induction turns as [| turns IH]; intros past.
  - reflexivity.
  - cbn [download_loop]. rewrite run_bind, run_attempt_triggered by apply Hw.
    rewrite IH. cbn [failed_turns]. rewrite <- !app_assoc. reflexivity.
Qed.

Lemma run_loop_triggered_then_ok (c : nat) :
  (forall past', (attempts past' < c)%nat ->
     w (SentinelDownload pid dir) past' = Raise LTATriggered) ->
  (forall past', attempts past' = c ->
     w (SentinelDownload pid dir) past' = Ok tt) ->
  forall j turns past,
    (attempts past + j)%nat = c -> (j < turns)%nat ->
    run w (download_loop pid dir num_retries wait turns) past =
    (Returned VNone,
     past ++ failed_turns j pid dir wait
          ++ [Asked (SentinelDownload pid dir); Said (MsgDownloadOk pid)]).
Proof.
  intros Htrig Hok. induction j as [| j IH]; intros turns past Hc Hlt.
  - destruct turns as [| turns]; [lia |].
    cbn [download_loop]. rewrite run_bind, run_attempt_ok by (apply Hok; lia).
    reflexivity.
  - destruct turns as [| turns]; [lia |].
    cbn [download_loop].
    rewrite run_bind, run_attempt_triggered by (apply Htrig; lia).
    rewrite IH by (rewrite ?attempts_failed_turn; lia).
    cbn [failed_turns]. rewrite <- !app_assoc. reflexivity.
Qed.

End RetryFacts.

(** *** Requests a program can make at all *)

(** [never P p]: no event satisfying [P] occurs anywhere in [p], whatever
    the requests are answered. *)
Fixpoint never {A} (P : event -> bool) (p : prog A) : Prop :=
  match p with
  | Ret _ | Throw _ | SysExit _ => True
  | Do ev k => P ev = false /\ never P k
  | Ask r k => P (Asked r) = false /\ forall x, never P (k x)
  end.

Lemma never_bind {A B} P (p : prog A) (f : A -> prog B) :
  never P p -> (forall a, never P (f a)) -> never P (bind p f).
Proof.
  intros Hp Hf. induction p as [a | e | arg | ev k IH | r k IH]; simpl in *;
    auto.
  - destruct Hp; split; auto.
  - destruct Hp as [Hr Hk]; split; auto.
Qed.

Lemma never_call P (r : request) : P (Asked r) = false -> never P (call r).
Proof. intros Hr. simpl. split; [exact Hr |]. intros [v | e]; exact I. Qed.

Lemma never_lift {A} P (x : answer A) : never P (lift x).
Proof. destruct x; exact I. Qed.

Lemma never_when P (c : bool) (body : prog unit) :
  never P body -> never P (when c body).
Proof. intros Hb. destruct c; [exact Hb | exact I]. Qed.

Lemma never_run {A} P (w : world) (p : prog A) past new :
  never P p -> snd (run w p past) = past ++ new ->
  Forall (fun ev => P ev = false) new.
Proof.
  revert past new.
  induction p as [a | e | arg | ev k IH | r k IH]; intros past new Hn Hrun;
    simpl in *;
    try (assert (new = []) as ->
           by (apply (app_inv_head past); rewrite app_nil_r; symmetry; exact Hrun);
         constructor).
  - destruct Hn as [Hev Hk].
    destruct (run_extends w k (past ++ [ev])) as [new' Hnew'].
    rewrite Hnew', <- app_assoc in Hrun. apply app_inv_head in Hrun.
    subst new. constructor; [exact Hev |].
    apply (IH (past ++ [ev])); [exact Hk | exact Hnew'].
  - destruct Hn as [Hr Hk].
    destruct (run_extends w (k (w r past)) (past ++ [Asked r])) as [new' Hnew'].
    rewrite Hnew', <- app_assoc in Hrun. apply app_inv_head in Hrun.
    subst new. constructor; [exact Hr |].
    apply (IH (w r past) (past ++ [Asked r])); [apply Hk | exact Hnew'].
Qed.

Lemma never_sentinel_senes P ids data :
  (forall pid, P (Asked (SentinelProductOdata pid)) = false) ->
  never P (sentinel_senes ids data).
Proof.
  intros Hod. revert data. induction ids as [| pid ids IH]; intros data.
  - exact I.
  - cbn [sentinel_senes]. apply never_bind; [apply never_call, Hod |].
    intros info. apply never_bind; [apply never_lift |]. intros d. apply IH.
Qed.

(** [get_sentinel] makes no session-closing request on any path. *)
Lemma get_sentinel_never_logout eid fp s e jf pt plat :
  never is_logout (get_sentinel eid fp s e jf pt plat).
Proof.
  unfold get_sentinel, ensure_dir.
  repeat first
    [ exact I
    | reflexivity
    | apply never_sentinel_senes; intros; reflexivity
    | apply never_lift
    | apply never_call
    | apply never_when
    | apply never_bind; [| intros]
    | split
    | match goal with |- never _ (match ?x with _ => _ end) => destruct x end ].
Qed.

Lemma run_bind_returned {A B} (w : world) (p : prog A) (f : A -> prog B)
    past v trace :
  run w (bind p f) past = (Returned v, trace) ->
  exists a past',
    run w p past = (Returned a, past') /\ run w (f a) past' = (Returned v, trace).
Proof.
  rewrite run_bind. destruct (run w p past) as [[a | e | arg] past'];
    intros Hrun; try discriminate.
  exists a, past'. split; [reflexivity | exact Hrun].
Qed.

(** ** The claims on the retry helper and on the adapters *)

(** C3, as the code has it: when every download is answered by the
    "triggered" signal, and [retry_wait] is a length [time.sleep] takes
    (between 0 and [sleep_max]), [download_product] with [num_retries = 3] invokes
    the download exactly three times, sleeps [retry_wait] after each of the
    three failures (the last one included), prints the failure line and
    returns [None] without raising; [None] is also what it returns after a
    successful download, so the caller gets no success flag. *)
Theorem download_product_exhausts_retries (w : world)
    (product_id output_directory : string) (retry_wait : Z) past :
  0 <= retry_wait <= sleep_max ->
  (forall past',
     w (SentinelDownload product_id output_directory) past'
     = Raise LTATriggered) ->
  let dl := Asked (SentinelDownload product_id output_directory) in
  let na := Said (MsgNotAvailable product_id retry_wait) in
  let result := run w (download_product product_id output_directory 3 retry_wait) past in
  result =
    (Returned VNone,
     past ++ [dl; na; Slept retry_wait;
              dl; na; Slept retry_wait;
              dl; na; Slept retry_wait;
              Said (MsgDownloadFailed product_id 3)])
  /\ attempts (snd result) = (attempts past + 3)%nat
  /\ sleeps (snd result) = (sleeps past + 3)%nat
  /\ (forall (w' : world) past',
        w' (SentinelDownload product_id output_directory) past' = Ok tt ->
        fst (run w' (download_product product_id output_directory 3 retry_wait) past')
        = fst result).
Proof.
  intros [Hwait _] Hw dl na result.
  assert (Hres : result =
    (Returned VNone,
     past ++ [dl; na; Slept retry_wait; dl; na; Slept retry_wait;
              dl; na; Slept retry_wait;
              Said (MsgDownloadFailed product_id 3)])).
  { unfold result, download_product.
    rewrite (run_loop_always_triggered w product_id output_directory 3
               retry_wait Hwait (Z.to_nat 3) past Hw).
    reflexivity. }
  split; [exact Hres |]. rewrite Hres. cbn [fst snd].
  split; [| split].
  - rewrite attempts_app. unfold attempts. simpl. lia.
  - unfold sleeps. rewrite List.filter_app, length_app. simpl. lia.
  - intros w' past' Hok. unfold download_product.
    change (Z.to_nat 3) with 3%nat. cbn [download_loop].
    rewrite run_bind, (run_attempt_ok w' product_id output_directory retry_wait past' Hok).
    reflexivity.
Qed.

(** C4: when the download is answered by the "triggered" signal on its
    first two invocations and succeeds on the third, and [retry_wait] is a
    length [time.sleep] takes (between 0 and [sleep_max], as the default
    of 120 seconds is), [download_product]
    with [num_retries = 10] returns after exactly three invocations and two
    sleeps; the success line is the last thing it does, no sleep follows. *)
Theorem download_product_third_attempt (w : world)
    (product_id output_directory : string) (retry_wait : Z) past :
  0 <= retry_wait <= sleep_max ->
  attempts past = 0%nat ->
  (forall past', (attempts past' < 2)%nat ->
     w (SentinelDownload product_id output_directory) past'
     = Raise LTATriggered) ->
  (forall past', attempts past' = 2%nat ->
     w (SentinelDownload product_id output_directory) past' = Ok tt) ->
  let dl := Asked (SentinelDownload product_id output_directory) in
  let na := Said (MsgNotAvailable product_id retry_wait) in
  let result := run w (download_product product_id output_directory 10 retry_wait) past in
  result =
    (Returned VNone,
     past ++ [dl; na; Slept retry_wait;
              dl; na; Slept retry_wait;
              dl; Said (MsgDownloadOk product_id)])
  /\ attempts (snd result) = 3%nat
  /\ sleeps (snd result) = (sleeps past + 2)%nat
  /\ last (snd result) = Some (Said (MsgDownloadOk product_id)).
Proof.
  intros [Hwait _] Hfresh Htrig Hok dl na result.
  assert (Hres : result =
    (Returned VNone,
     past ++ [dl; na; Slept retry_wait; dl; na; Slept retry_wait;
              dl; Said (MsgDownloadOk product_id)])).
  { unfold result, download_product.
    rewrite (run_loop_triggered_then_ok w product_id output_directory 10
               retry_wait Hwait 2 Htrig Hok 2 (Z.to_nat 10) past);
      [reflexivity | lia | change (Z.to_nat 10) with 10%nat; lia]. }
  split; [exact Hres |]. rewrite Hres. cbn [fst snd].
  split; [| split].
  - rewrite attempts_app, Hfresh. reflexivity.
  - unfold sleeps. rewrite List.filter_app, length_app. simpl. lia.
  - rewrite last_app. reflexivity.
Qed.

(** C5: when the catalog query returns no scene, either adapter logs the
    "no scenes found" line, makes no directory and writes no file, and
    returns normally.  (For Landsat the login before the search and the
    logout after it are answered without an exception.) *)
Theorem adapters_without_scenes (w : world) (event_id : string)
    (start_date end_date : datetime) (json_file_name : string) past :
  (forall wkt_footprint producttype platform,
     (forall past',
        w (SentinelQuery wkt_footprint (start_date, end_date)
             (py_zero, max_cloud_cover config) producttype platform) past'
        = Ok []) ->
     let result :=
       run w (get_sentinel event_id wkt_footprint start_date end_date
                json_file_name producttype platform) past in
     exists new,
       result = (Returned VNone, past ++ new)
       /\ In (Said (MsgNoSentinelScenes event_id)) new
       /\ Forall (fun ev => is_write ev = false) new)
  /\
  (forall bbox platform,
     (forall past',
        w (LandsatLogin (username_landsat config) (password_landsat config))
          past' = Ok tt) ->
     (forall past',
        w (LandsatSearch "landsat_ot_c2_l1" bbox (strftime_ymd start_date)
             (strftime_ymd end_date) (max_cloud_cover config)) past'
        = Ok []) ->
     (forall past', w LandsatLogout past' = Ok tt) ->
     let result :=
       run w (get_landsat event_id bbox start_date end_date json_file_name
                platform) past in
     exists new,
       result = (Returned VNone, past ++ new)
       /\ In (Said (MsgNoLandsatScenes event_id)) new
       /\ Forall (fun ev => is_write ev = false) new).
Proof.
  split.
  - intros fp pt plat Hq result. unfold result, get_sentinel. simpl.
    rewrite Hq. simpl.
    eexists. split; [rewrite <- !app_assoc; reflexivity |].
    split; [simpl; auto |]. repeat constructor.
  - intros bbox plat Hlogin Hsearch Hlogout result.
    unfold result, get_landsat. simpl.
    rewrite Hlogin. simpl. rewrite Hsearch. simpl. rewrite Hlogout. simpl.
    eexists. split; [rewrite <- !app_assoc; reflexivity |].
    split; [simpl; auto |]. repeat constructor.
Qed.

(** C2, as the code has it: whenever [get_landsat] returns, on whichever
    path (no scene found included), logging out of the API session is the
    last thing it did; [get_sentinel] never closes or logs out of anything,
    on any path. *)
Theorem session_release (w : world) (event_id : string)
    (start_date end_date : datetime) (json_file_name : string) past :
  (forall bbox platform v trace,
     run w (get_landsat event_id bbox start_date end_date json_file_name
              platform) past = (Returned v, trace) ->
     exists before, trace = before ++ [Asked LandsatLogout])
  /\
  (forall wkt_footprint producttype platform new,
     snd (run w (get_sentinel event_id wkt_footprint start_date end_date
                   json_file_name producttype platform) past) = past ++ new ->
     Forall (fun ev => is_logout ev = false) new).
Proof.
  split.
  - intros bbox plat v trace Hrun. unfold get_landsat in Hrun.
    apply run_bind_returned in Hrun as (? & past1 & _ & Hrun).
    apply run_bind_returned in Hrun as (? & past2 & _ & Hrun).
    apply run_bind_returned in Hrun as (scenes & past3 & _ & Hrun).
    apply run_bind_returned in Hrun as (? & past4 & _ & Hrun).
    apply run_bind_returned in Hrun as (? & past5 & Hout & Hrun).
    rewrite run_call in Hout. destruct (w LandsatLogout past4); [| discriminate].
    injection Hout as _ <-. simpl in Hrun. injection Hrun as _ <-.
    exists past4. reflexivity.
  - intros fp pt plat new Hrun.
    eapply never_run; [apply get_sentinel_never_logout | exact Hrun].
Qed.

(** ** Calendar facts *)

(** The month and day-of-month part of [ord2ymd], from the index of the
    day in its year. *)
Definition month_day (leapyear : bool) (n : Z) : Z * Z :=
    let m := Z.shiftr (n + 50) 5 in
    let preceding :=
      table DAYS_BEFORE_MONTH m + (if (2 <? m) && leapyear then 1 else 0) in
    if n <? preceding then
      let m := m - 1 in
      let preceding :=
        preceding
        - (table DAYS_IN_MONTH m + (if (m =? 2) && leapyear then 1 else 0)) in
      (m, n - preceding + 1)
    else (m, n - preceding + 1).

Definition month_day_ok (leapyear : bool) (n : Z) : bool :=
  let '(m, d) := month_day leapyear n in
  (1 <=? m) && (m <=? 12) && (1 <=? d)
  && (d <=? (if (m =? 2) && leapyear then 29 else table DAYS_IN_MONTH m))
  && (table DAYS_BEFORE_MONTH m + (if (2 <? m) && leapyear then 1 else 0) + d =? n + 1).

Fixpoint all_below (k : nat) (f : Z -> bool) : bool :=
  match k with
  | O => true
  | S k' => f (Z.of_nat k') && all_below k' f
  end.

Lemma all_below_spec k f : all_below k f = true -> forall n, 0 <= n < Z.of_nat k -> f n = true.
Proof.
  induction k as [|k IH]; intros Hall n Hn; [lia|].
  simpl in Hall. apply andb_prop in Hall as [Hk Hall].
  destruct (Z.eq_dec n (Z.of_nat k)) as [->|Hne]; [exact Hk|].
  apply IH; [exact Hall | lia].
Qed.

Lemma month_day_table leapyear n : 0 <= n < 365 -> month_day_ok leapyear n = true.
Proof.
  intros Hn. 
  assert (Hall : all_below 365 (month_day_ok leapyear) = true) by (destruct leapyear; vm_compute; reflexivity).
  apply (all_below_spec 365 _ Hall). lia.
Qed.

Lemma ord2ymd_unfold n :
  ord2ymd n =
  let n0 := n - 1 in
  let q400 := n0 / 146097 in
  let r400 := n0 mod 146097 in
  let q100 := r400 / 36524 in
  let r100 := r400 mod 36524 in
  let q4 := r100 / 1461 in
  let r4 := r100 mod 1461 in
  let q1 := r4 / 365 in
  let r1 := r4 mod 365 in
  let y := q400 * 400 + 1 + q100 * 100 + q4 * 4 + q1 in
  if (q1 =? 4) || (q100 =? 4) then (y - 1, 12, 31)
  else let '(m, d) := month_day ((q1 =? 3) && (negb (q4 =? 24) || (q100 =? 3))) r1 in (y, m, d).
Proof.
  unfold ord2ymd, month_day. cbv zeta.
  destruct ((_ =? 4) || (_ =? 4)); [reflexivity|].
  match goal with |- context [if ?c then _ else _] => destruct c end; reflexivity.
Qed.

Lemma ord2ymd_ok n : 1 <= n <= MAXORDINAL ->
  let '(y, m, d) := ord2ymd n in valid_ymd y m d = true /\ ymd2ord y m d = n.
Proof.
  unfold MAXORDINAL. intros Hn. rewrite ord2ymd_unfold. cbv zeta.
  set (n0 := n - 1).
  set (q400 := n0 / 146097). set (r400 := n0 mod 146097).
  set (q100 := r400 / 36524). set (r100 := r400 mod 36524).
  set (q4 := r100 / 1461). set (r4 := r100 mod 1461).
  set (q1 := r4 / 365). set (r1 := r4 mod 365).
  assert (H400 : n0 = 146097 * q400 + r400 /\ 0 <= r400 < 146097)
    by (split; [apply Z.div_mod; lia | apply Z.mod_pos_bound; lia]).
  assert (H100 : r400 = 36524 * q100 + r100 /\ 0 <= r100 < 36524)
    by (split; [apply Z.div_mod; lia | apply Z.mod_pos_bound; lia]).
  assert (H4 : r100 = 1461 * q4 + r4 /\ 0 <= r4 < 1461)
    by (split; [apply Z.div_mod; lia | apply Z.mod_pos_bound; lia]).
  assert (H1 : r4 = 365 * q1 + r1 /\ 0 <= r1 < 365)
    by (split; [apply Z.div_mod; lia | apply Z.mod_pos_bound; lia]).
  clearbody q400 r400 q100 r100 q4 r4 q1 r1. 
  assert (Hn0 : 0 <= n0 <= 3652058) by (unfold n0; lia).
  destruct ((q1 =? 4) || (q100 =? 4)) eqn:Hsp.
  - unfold valid_ymd, ymd2ord, days_in_month, days_before_month, days_before_year, is_leap.
    change (table DAYS_IN_MONTH 12) with 31. change (table DAYS_BEFORE_MONTH 12) with 334.
    change (12 =? 2) with false. change (2 <? 12) with true. cbn [andb].
    apply orb_prop in Hsp.
    split.
    + repeat (apply andb_true_intro; split); try reflexivity; apply Z.leb_le; destruct Hsp as [Hsp|Hsp]; apply Z.eqb_eq in Hsp; lia.
    + destruct Hsp as [Hsp|Hsp]; apply Z.eqb_eq in Hsp;
      repeat match goal with |- context [?a =? ?b] => destruct (Z.eqb_spec a b) end; cbn [negb orb andb];
      Z.div_mod_to_equations; lia.
  - apply orb_false_elim in Hsp as [Hq1 Hq100].
    apply Z.eqb_neq in Hq1, Hq100.
    set (leapyear := (q1 =? 3) && (negb (q4 =? 24) || (q100 =? 3))).
    pose proof (month_day_table leapyear r1 (proj2 H1)) as Hmd.
    unfold month_day_ok in Hmd.
    destruct (month_day leapyear r1) as [m d].
    apply andb_prop in Hmd as [Hmd Hsum].
    repeat (apply andb_prop in Hmd as [Hmd ?]).
    set (y := q400 * 400 + 1 + q100 * 100 + q4 * 4 + q1).
    assert (Hleap : is_leap y = leapyear).
    { unfold is_leap, leapyear, y.
      repeat match goal with |- context [?a =? ?b] => destruct (Z.eqb_spec a b) end; cbn [negb orb andb]; try reflexivity;
      exfalso; Z.div_mod_to_equations; lia. }
    assert (Hdby : days_before_year y = n0 - r1).
    { unfold days_before_year, y. Z.div_mod_to_equations. lia. }
    unfold valid_ymd, ymd2ord, days_in_month, days_before_month.
    rewrite Hleap, Hdby.
    split.
    + repeat (apply andb_true_intro; split); try assumption; apply Z.leb_le; unfold y; lia.
    + apply Z.eqb_eq in Hsum. unfold n0 in *. lia.
Qed.

Lemma days_before_year_succ y :
  days_before_year (y + 1) = days_before_year y + 365 + (if is_leap y then 1 else 0).
Proof.
  unfold days_before_year, is_leap.
  repeat match goal with |- context [?a =? ?b] => destruct (Z.eqb_spec a b) end;
    cbn [negb orb andb]; Z.div_mod_to_equations; lia.
Qed.

Lemma days_before_year_mono y y' : y <= y' -> days_before_year y <= days_before_year y'.
Proof. unfold days_before_year. intros Hy. Z.div_mod_to_equations. lia. Qed.

Lemma month_cases m : 1 <= m <= 12 ->
  m = 1 \/ m = 2 \/ m = 3 \/ m = 4 \/ m = 5 \/ m = 6 \/ m = 7 \/ m = 8 \/ m = 9 \/ m = 10 \/ m = 11 \/ m = 12.
Proof. lia. Qed.


Ltac calc_closed t :=
  let v := eval vm_compute in t in change t with v in *.

Ltac calc_tables :=
  repeat match goal with
         | |- context [table ?t (Zpos ?k)] => calc_closed (table t (Zpos k))
         | H : context [table ?t (Zpos ?k)] |- _ => calc_closed (table t (Zpos k))
         | |- context [Zpos ?a =? Zpos ?b] => calc_closed (Zpos a =? Zpos b)
         | H : context [Zpos ?a =? Zpos ?b] |- _ => calc_closed (Zpos a =? Zpos b)
         | |- context [Zpos ?a <? Zpos ?b] => calc_closed (Zpos a <? Zpos b)
         | H : context [Zpos ?a <? Zpos ?b] |- _ => calc_closed (Zpos a <? Zpos b)
         | |- context [Zpos ?a + Zpos ?b] => calc_closed (Zpos a + Zpos b)
         end;
  cbn [andb] in *.

Ltac each_month m Hm :=
  destruct (month_cases m Hm)
    as [->|[->|[->|[->|[->|[->|[->|[->|[->|[->|[->| ->]]]]]]]]]]].

Lemma day_of_year_bounds y m d :
  1 <= m <= 12 -> 1 <= d <= days_in_month y m ->
  1 <= days_before_month y m + d <= 365 + (if is_leap y then 1 else 0).
Proof.
  intros Hm Hd. unfold days_in_month, days_before_month in *.
  destruct (is_leap y); each_month m Hm; calc_tables; lia.
Qed.

Lemma days_before_month_next y m :
  1 <= m < 12 -> days_before_month y (m + 1) = days_before_month y m + days_in_month y m.
Proof.
  intros Hm. unfold days_in_month, days_before_month.
  assert (Hm' : 1 <= m <= 12) by lia.
  destruct (is_leap y); each_month m Hm'; try (exfalso; lia); calc_tables; lia.
Qed.

Lemma days_before_month_mono y m m' :
  1 <= m -> m <= m' -> m' <= 12 -> days_before_month y m <= days_before_month y m'.
Proof.
  intros H1 H2 H3. unfold days_before_month.
  assert (Hm : 1 <= m <= 12) by lia. assert (Hm' : 1 <= m' <= 12) by lia.
  destruct (is_leap y); each_month m Hm; each_month m' Hm';
    try (exfalso; lia); calc_tables; lia.
Qed.

Lemma valid_ymd_spec y m d : valid_ymd y m d = true ->
  1 <= y <= 9999 /\ 1 <= m <= 12 /\ 1 <= d <= days_in_month y m.
Proof.
  unfold valid_ymd. intros Hv.
  repeat (apply andb_prop in Hv as [Hv ?]).
  repeat match goal with H : (_ <=? _) = true |- _ => apply Z.leb_le in H end. lia.
Qed.

Lemma ymd2ord_lt y1 m1 d1 y2 m2 d2 :
  valid_ymd y1 m1 d1 = true -> valid_ymd y2 m2 d2 = true ->
  y1 < y2 \/ (y1 = y2 /\ (m1 < m2 \/ (m1 = m2 /\ d1 < d2))) ->
  ymd2ord y1 m1 d1 < ymd2ord y2 m2 d2.
Proof.
  intros Hv1 Hv2 Hlt.
  apply valid_ymd_spec in Hv1 as (Hy1 & Hm1 & Hd1).
  apply valid_ymd_spec in Hv2 as (Hy2 & Hm2 & Hd2).
  pose proof (day_of_year_bounds y1 m1 d1 Hm1 Hd1) as Hb1.
  pose proof (day_of_year_bounds y2 m2 d2 Hm2 Hd2) as Hb2.
  unfold ymd2ord.
  destruct Hlt as [Hy | [-> [Hm | [-> Hd]]]].
  - pose proof (days_before_year_succ y1) as Hs.
    pose proof (days_before_year_mono (y1 + 1) y2 ltac:(lia)) as Hmono. lia.
  - pose proof (days_before_month_next y2 m1 ltac:(lia)) as Hn.
    pose proof (days_before_month_mono y2 (m1 + 1) m2 ltac:(lia) ltac:(lia) ltac:(lia)). lia.
  - lia.
Qed.

Lemma strptime_valid s d : strptime_ymd s = Ok d -> valid d = true.
Proof.
  unfold strptime_ymd, datetime_new, valid.
  destruct (split_on "-" s) as [| ys [| ms [| ds [| ? ?]]]]; try discriminate.
  destruct (field_Y ys) as [y |]; [| discriminate].
  destruct (field_m ms) as [m |]; [| discriminate].
  destruct (field_d ds) as [dd |]; [| discriminate].
  destruct (valid_ymd y m dd) eqn:Hv; [| discriminate].
  intros Hd. injection Hd as <-. exact Hv.
Qed.

Lemma fromordinal_ok n :
  1 <= n <= MAXORDINAL ->
  valid (fromordinal n) = true /\ toordinal (fromordinal n) = n.
Proof.
  intros Hn. pose proof (ord2ymd_ok n Hn) as Hok.
  unfold fromordinal, valid, toordinal.
  destruct (ord2ymd n) as [[y m] d]. exact Hok.
Qed.

Lemma datetime_add_ok dt delta dt' :
  datetime_add dt delta = Ok dt' ->
  valid dt' = true /\ toordinal dt' = toordinal dt + delta.
Proof.
  unfold datetime_add.
  destruct ((0 <? toordinal dt + delta) && (toordinal dt + delta <=? MAXORDINAL))
    eqn:Hrange; [| discriminate].
  apply andb_prop in Hrange as [Hlo Hhi].
  apply Z.ltb_lt in Hlo. apply Z.leb_le in Hhi.
  intros Hd. injection Hd as <-. apply fromordinal_ok. lia.
Qed.

Lemma datetime_lt_spec a b :
  datetime_lt a b = true <->
  year a < year b
  \/ (year a = year b
      /\ (month a < month b \/ (month a = month b /\ day a < day b))).
Proof.
  unfold datetime_lt.
  rewrite orb_true_iff, andb_true_iff, orb_true_iff, andb_true_iff.
  rewrite !Z.ltb_lt, !Z.eqb_eq. reflexivity.
Qed.

Lemma toordinal_lt a b :
  valid a = true -> valid b = true -> datetime_lt a b = true ->
  toordinal a < toordinal b.
Proof.
  intros Ha Hb Hlt. apply datetime_lt_spec in Hlt.
  apply ymd2ord_lt; assumption.
Qed.

Lemma datetime_le_of_ordinal a b :
  valid a = true -> valid b = true -> toordinal a <= toordinal b ->
  datetime_le a b = true.
Proof.
  intros Ha Hb Hle. unfold datetime_le.
  destruct (datetime_lt b a) eqn:Hlt; [| reflexivity].
  pose proof (toordinal_lt b a Hb Ha Hlt). lia.
Qed.

Lemma minus_days_ok d n d' :
  valid d = true -> minus_days d n = Ok d' ->
  valid d' = true /\ toordinal d' = toordinal d - n
  /\ (0 <= n -> datetime_le d' d = true).
Proof.
  unfold minus_days, timedelta, datetime_sub. intros Hd.
  destruct (Z.abs n <=? 999999999); [| discriminate]. cbn [answer_bind].
  intros Hsub. apply datetime_add_ok in Hsub as [Hv Hord].
  split; [exact Hv |]. split; [lia |].
  intros Hn. apply datetime_le_of_ordinal; [exact Hv | exact Hd | lia].
Qed.

Lemma plus_days_ok d n d' :
  valid d = true -> plus_days d n = Ok d' ->
  valid d' = true /\ toordinal d' = toordinal d + n
  /\ (0 <= n -> datetime_le d d' = true).
Proof.
  unfold plus_days, timedelta. intros Hd.
  destruct (Z.abs n <=? 999999999); [| discriminate]. cbn [answer_bind].
  intros Hadd. apply datetime_add_ok in Hadd as [Hv Hord].
  split; [exact Hv |]. split; [lia |].
  intros Hn. apply datetime_le_of_ordinal; [exact Hd | exact Hv | lia].
Qed.

(** ** The claims on the event lookup and on [main] *)

Definition events_file : string :=
  Path.join (Path.join (data_dir config) "Fire_events") "selected_events.shp".

Lemma run_parse_shp_missing (w : world) filename fid past fires :
  w (ReadShapefile filename) past = Ok fires ->
  existsb (has_id fid) fires = false ->
  run w (parse_shp filename fid) past =
  (Exited None, past ++ [Asked (ReadShapefile filename); Said MsgInvalidFireID]).
Proof.
  intros Hread Hmiss. unfold parse_shp. simpl. rewrite Hread. simpl.
  rewrite Hmiss. simpl. rewrite <- app_assoc. reflexivity.
Qed.

(** C1, as the code has it: an event id with no row in the shapefile makes
    [parse_shp] (and so [main]) print the invalid-id line and leave through
    [sys.exit()], and a satellite other than "sentinel" and "landsat" makes
    [main], once the event is loaded, print the wrong-satellite line and
    leave through [sys.exit()]; [sys.exit()] is called without a status, so
    the exit status is zero in both cases. *)
Theorem invalid_input_exits_with_status_zero (w : world) past :
  (forall filename fid fires,
     w (ReadShapefile filename) past = Ok fires ->
     existsb (has_id fid) fires = false ->
     let result := run w (parse_shp filename fid) past in
     result =
       (Exited None,
        past ++ [Asked (ReadShapefile filename); Said MsgInvalidFireID])
     /\ exit_status (fst result) = 0)
  /\
  (forall event_id satellite fires,
     w (ReadShapefile events_file) past = Ok fires ->
     existsb (has_id event_id) fires = false ->
     let result := run w (main event_id satellite) past in
     result =
       (Exited None,
        past ++ [Asked (ReadShapefile events_file); Said MsgInvalidFireID])
     /\ exit_status (fst result) = 0)
  /\
  (forall event_id satellite fid start_date end_date footprint past',
     satellite <> "sentinel" -> satellite <> "landsat" ->
     run w (parse_shp events_file event_id) past
     = (Returned (fid, start_date, end_date, footprint), past') ->
     let result := run w (main event_id satellite) past in
     result =
       (Exited None,
        past' ++ [Said (MsgSearchingFor satellite fid);
                  Said (MsgSettings (download_scenes config)
                          (save_footprints config));
                  Said MsgWrongSatellite])
     /\ exit_status (fst result) = 0).
Proof.
  split; [| split].
  - intros filename fid fires Hread Hmiss result. unfold result.
    rewrite (run_parse_shp_missing w filename fid past fires Hread Hmiss).
    split; reflexivity.
  - intros event_id satellite fires Hread Hmiss result. unfold result, main.
    fold events_file. rewrite run_bind.
    rewrite (run_parse_shp_missing w events_file event_id past fires Hread Hmiss).
    split; reflexivity.
  - intros event_id satellite fid s e fp past' Hs Hl Hparsed result.
    unfold result, main. fold events_file. rewrite run_bind, Hparsed.
    apply String.eqb_neq in Hs, Hl. simpl. rewrite Hs, Hl. simpl.
    rewrite <- !app_assoc. split; reflexivity.
Qed.

(** C6, as the code has it: once the event is loaded with native dates
    [start_date] and [end_date], [main] hands the adapter the window
    [start_date - timedelta(days=buffer)], [end_date + timedelta(days=buffer)]
    for the buffer of the chosen provider; the two ends lie exactly
    [buffer] days before the native start and after the native end; for a
    non-negative buffer the window start is not after the native start and
    the window end is not before the native end.  (That the native start is
    not after the native end is a property of the shapefile row, which the
    script does not check.)  For 2020-06-01 to 2020-06-10 and a buffer of
    10 days the window is 2020-05-22 to 2020-06-20. *)
Theorem date_window (w : world) (event_id fid : string)
    (start_date end_date : datetime) (footprint : geometry) past past' :
  run w (parse_shp events_file event_id) past
  = (Returned (fid, start_date, end_date, footprint), past') ->
  let polygon := box (bounds footprint) in
  let said satellite a b :=
    [Said (MsgSearchingFor satellite fid);
     Said (MsgSettings (download_scenes config) (save_footprints config));
     Said (MsgWindow a b)] in
  (forall a b,
     minus_days start_date (delta_days_sentinel config) = Ok a ->
     plus_days end_date (delta_days_sentinel config) = Ok b ->
     run w (main event_id "sentinel") past
     = run w (get_sentinel fid (wkt polygon) a b "json_file_name"
                (producttype_sentinel config) "Sentinel-2" ;; Ret VNone)
         (past' ++ said "sentinel" a b)
     /\ toordinal a = toordinal start_date - delta_days_sentinel config
     /\ toordinal b = toordinal end_date + delta_days_sentinel config
     /\ (0 <= delta_days_sentinel config ->
         datetime_le a start_date = true /\ datetime_le end_date b = true))
  /\
  (forall a b,
     minus_days start_date (delta_days_landsat config) = Ok a ->
     plus_days end_date (delta_days_landsat config) = Ok b ->
     run w (main event_id "landsat") past
     = run w (get_landsat fid (bounds polygon) a b "json_file_name"
                "Landsat-8" ;; Ret VNone)
         (past' ++ said "landsat" a b)
     /\ toordinal a = toordinal start_date - delta_days_landsat config
     /\ toordinal b = toordinal end_date + delta_days_landsat config
     /\ (0 <= delta_days_landsat config ->
         datetime_le a start_date = true /\ datetime_le end_date b = true))
  /\
  (minus_days (mk_datetime 2020 6 1) 10 = Ok (mk_datetime 2020 5 22)
   /\ plus_days (mk_datetime 2020 6 10) 10 = Ok (mk_datetime 2020 6 20)).
Proof.
  intros Hparsed polygon said.
  assert (Hvalid : valid start_date = true /\ valid end_date = true).
  { unfold parse_shp in Hparsed.
    apply run_bind_returned in Hparsed as (fires & p1 & _ & Hparsed).
    apply run_bind_returned in Hparsed as (? & p2 & _ & Hparsed).
    destruct (List.filter (has_id event_id) fires) as [| row rows];
      [discriminate |].
    apply run_bind_returned in Hparsed as (s0 & p3 & Hs & Hparsed).
    apply run_bind_returned in Hparsed as (e0 & p4 & He & Hparsed).
    simpl in Hparsed. injection Hparsed as _ <- <- _ _.
    destruct (strptime_ymd (ig_date row)) as [s1 |] eqn:Hs1; [| discriminate].
    destruct (strptime_ymd (last_date row)) as [e1 |] eqn:He1; [| discriminate].
    simpl in Hs, He. injection Hs as <- _. injection He as <- _.
    split; eapply strptime_valid; eassumption. }
  destruct Hvalid as [Hvs Hve].
  split; [| split].
  - intros a b Ha Hb.
    destruct (minus_days_ok _ _ _ Hvs Ha) as (_ & Hoa & Hla).
    destruct (plus_days_ok _ _ _ Hve Hb) as (_ & Hob & Hlb).
    split; [| auto].
    unfold main. fold events_file. rewrite run_bind, Hparsed.
    simpl. rewrite Ha, Hb. simpl. rewrite <- !app_assoc. reflexivity.
  - intros a b Ha Hb.
    destruct (minus_days_ok _ _ _ Hvs Ha) as (_ & Hoa & Hla).
    destruct (plus_days_ok _ _ _ Hve Hb) as (_ & Hob & Hlb).
    split; [| auto].
    unfold main. fold events_file. rewrite run_bind, Hparsed.
    simpl. rewrite Ha, Hb. simpl. rewrite <- !app_assoc. reflexivity.
  - split; reflexivity.
Qed.

(** ** The claim on the legacy loader *)

(** A legacy document whose first feature carries the properties [props];
    everything else in it is arbitrary. *)
Definition legacy_document (fields feature : gmap string (json num))
    (others : list (json num)) (props : gmap string (json num)) : json num :=
  JObj (<["features" :=
          JArr (JObj (<["properties" := JObj props]> feature) :: others)]>
          fields).

Lemma property_legacy_document fields feature others props key :
  property (legacy_document fields feature others props) key =
  match props !! key with
  | Some v => Ok v
  | None => Raise (KeyError key)
  end.
Proof.
  unfold property, legacy_document. cbn [getitem answer_bind].
  rewrite lookup_insert_eq. cbn [getindex answer_bind lookup list_lookup getitem].
  rewrite lookup_insert_eq. reflexivity.
Qed.

Lemma coordinates_legacy_document fields feature others props props' :
  coordinates (legacy_document fields feature others props) =
  coordinates (legacy_document fields feature others props').
Proof.
  unfold coordinates, legacy_document. cbn [getitem answer_bind].
  rewrite !lookup_insert_eq. cbn [getindex answer_bind lookup list_lookup getitem].
  rewrite !lookup_insert_ne by discriminate. reflexivity.
Qed.

(** C10: [parse_jsons] reads [properties.main_clim] whatever the document
    is for.  A document that has the three properties of the legacy
    interface ([first_date_7], [last_date_7], [fid]) but no [main_clim]
    fails with [KeyError('main_clim')], whatever its geometry; and when the
    key is there, its value has no influence on what is returned. *)
Theorem parse_jsons_needs_main_clim (w : world) (filename : string)
    (fields feature : gmap string (json num)) (others : list (json num))
    (props : gmap string (json num)) past :
  is_Some (props !! "first_date_7") ->
  is_Some (props !! "last_date_7") ->
  is_Some (props !! "fid") ->
  props !! "main_clim" = None ->
  let document := legacy_document fields feature others in
  (w (JsonLoad filename) past = Ok (document props) ->
   run w (parse_jsons filename) past
   = (Raised (KeyError "main_clim"), past ++ [Asked (JsonLoad filename)]))
  /\ parse_jsons_data (document props) = Raise (KeyError "main_clim")
  /\ (forall climate climate',
        parse_jsons_data (document (<["main_clim" := climate]> props))
        = parse_jsons_data (document (<["main_clim" := climate']> props))).
Proof.
  intros [v1 H1] [v2 H2] [v3 H3] Hnone document.
  assert (Hdata : parse_jsons_data (document props) = Raise (KeyError "main_clim")).
  { unfold parse_jsons_data, document.
    rewrite !property_legacy_document, H1, H2, H3, Hnone. reflexivity. }
  split; [| split].
  - intros Hload. unfold parse_jsons. simpl. rewrite Hload. simpl.
    rewrite Hdata. reflexivity.
  - exact Hdata.
  - intros c c'. unfold parse_jsons_data, document.
    rewrite !property_legacy_document.
    rewrite !lookup_insert_eq.
    rewrite !lookup_insert_ne by discriminate.
    rewrite H1, H2, H3. cbn [answer_bind].
    rewrite (coordinates_legacy_document fields feature others
               (<["main_clim" := c]> props) (<["main_clim" := c']> props)).
    reflexivity.
Qed.

(** ** The claims on the footprint helpers *)

Import Footprint.

Lemma fold_min_same (x : num) (xs : list num) :
  Forall (fun y => py_lt y x = false) xs -> fold_left min_step xs x = x.
Proof.
  induction 1 as [| y ys Hy _ IH]; [reflexivity |].
  cbn [fold_left]. unfold min_step at 2. rewrite Hy. exact IH.
Qed.

Lemma fold_max_same (x : num) (xs : list num) :
  Forall (fun y => py_lt x y = false) xs -> fold_left max_step xs x = x.
Proof.
  induction 1 as [| y ys Hy _ IH]; [reflexivity |].
  cbn [fold_left]. unfold max_step at 2. rewrite Hy. exact IH.
Qed.

(** Bounds of a rectangle's ring given in either of the two vertex orders
    the helpers use, for [lo] not above [hi] on each axis. *)
Lemma ring_bounds_rectangle (x0 y0 x1 y1 : num) :
  py_lt x1 x0 = false -> py_lt y1 y0 = false ->
  ring_bounds [(x0, y0); (x1, y0); (x1, y1); (x0, y1); (x0, y0)]
  = Ok (x0, y0, x1, y1)
  /\ ring_bounds [(x1, y1); (x1, y0); (x0, y0); (x0, y1); (x1, y1)]
     = Ok (x0, y0, x1, y1).
Proof.
  intros Hx Hy. unfold ring_bounds. cbn [map fst snd py_min py_max answer_bind fold_left].
  pose proof (py_lt_irrefl x0) as Ix0. pose proof (py_lt_irrefl x1) as Ix1.
  pose proof (py_lt_irrefl y0) as Iy0. pose proof (py_lt_irrefl y1) as Iy1.
  assert (Hmin : forall a b : num, py_lt b a = false ->
            min_step a b = a /\ min_step b a = a /\ max_step a b = b
            /\ max_step b a = b /\ min_step a a = a /\ max_step a a = a
            /\ min_step b b = b /\ max_step b b = b).
  { intros a b Hba. unfold min_step, max_step.
    rewrite Hba, (py_lt_irrefl a), (py_lt_irrefl b).
    destruct (py_lt a b) eqn:Hab; [repeat split; reflexivity |].
    rewrite (py_lt_total a b Hab Hba). repeat split; reflexivity. }
  destruct (Hmin x0 x1 Hx) as (X1 & X2 & X3 & X4 & X5 & X6 & X7 & X8).
  destruct (Hmin y0 y1 Hy) as (Y1 & Y2 & Y3 & Y4 & Y5 & Y6 & Y7 & Y8).
  split.
  - rewrite ?X1, ?X2, ?X3, ?X4, ?X5, ?X6, ?X7, ?X8,
            ?Y1, ?Y2, ?Y3, ?Y4, ?Y5, ?Y6, ?Y7, ?Y8.
    repeat (rewrite ?X1, ?X2, ?X3, ?X4, ?X5, ?X6, ?X7, ?X8,
            ?Y1, ?Y2, ?Y3, ?Y4, ?Y5, ?Y6, ?Y7, ?Y8). reflexivity.
  - repeat (rewrite ?X1, ?X2, ?X3, ?X4, ?X5, ?X6, ?X7, ?X8,
            ?Y1, ?Y2, ?Y3, ?Y4, ?Y5, ?Y6, ?Y7, ?Y8). reflexivity.
Qed.

(** C7, as the code has it: for positive deltas the polygon
    [get_footprint_point] hands to sentinelsat's [geojson_to_wkt] has one
    ring, of five vertices, which ends on the vertex it starts from and has
    the bounds
    [(lon - delta_lon, lat - delta_lat, lon + delta_lon, lat + delta_lat)];
    what [get_footprint_point] returns, or raises, is what [geojson_to_wkt]
    returns, or raises, for that polygon. *)
Theorem footprint_point_ring (geojson_to_wkt : geojson -> answer string)
    (latitude longitude delta_lat delta_lon : num) :
  py_lt py_zero delta_lat = true ->
  py_lt py_zero delta_lon = true ->
  exists r,
    get_footprint_point geojson_to_wkt latitude longitude delta_lat delta_lon
    = geojson_to_wkt (GeoJSON "Polygon" [r])
    /\ length r = 5%nat
    /\ ring_closed r
    /\ ring_bounds r
       = Ok (py_sub longitude delta_lon, py_sub latitude delta_lat,
             py_add longitude delta_lon, py_add latitude delta_lat).
Proof.
  intros Hlat Hlon. eexists. split; [reflexivity |].
  split; [reflexivity |]. split.
  - eexists. split; reflexivity.
  - apply ring_bounds_rectangle; apply py_sub_le_add; assumption.
Qed.

(** *** Reading back the text [get_footprint_poly] writes *)

Definition chars (s : string) : list ascii := list_ascii_of_string s.

Lemma append_nil (s : string) : "" +:+ s = s.
Proof. reflexivity. Qed.

Lemma append_cons (c : ascii) (a b : string) :
  String c a +:+ b = String c (a +:+ b).
Proof. reflexivity. Qed.

Lemma append_assoc (a b c : string) : (a +:+ b) +:+ c = a +:+ (b +:+ c).
Proof.
  induction a as [| x a IH]; [reflexivity |].
  rewrite !append_cons, IH. reflexivity.
Qed.

Lemma join_with_cons sep (p q : string) (rest : list string) :
  join_with sep (p :: q :: rest) = p +:+ sep +:+ join_with sep (q :: rest).
Proof. reflexivity. Qed.

Lemma chars_app a b : chars (a +:+ b) = chars a ++ chars b.
Proof. induction a as [| c a IH]; [reflexivity |]. simpl. rewrite <- IH. reflexivity. Qed.

Lemma split_on_plain sep s : ~ In sep (chars s) -> split_on sep s = [s].
Proof.
  induction s as [| c s IH]; intros Hno; [reflexivity |].
  cbn [split_on]. destruct (Ascii.eqb_spec c sep) as [-> | Hne].
  - exfalso. apply Hno. left. reflexivity.
  - rewrite IH; [reflexivity |]. intros Hin. apply Hno. right. exact Hin.
Qed.

Lemma split_on_app sep w rest :
  ~ In sep (chars w) ->
  split_on sep (w +:+ String sep rest) = w :: split_on sep rest.
Proof.
  induction w as [| c w IH]; intros Hno.
  - rewrite append_nil. cbn [split_on]. rewrite Ascii.eqb_refl. reflexivity.
  - rewrite append_cons. cbn [split_on]. destruct (Ascii.eqb_spec c sep) as [-> | Hne].
    + exfalso. apply Hno. left. reflexivity.
    + rewrite IH; [reflexivity |]. intros Hin. apply Hno. right. exact Hin.
Qed.

Lemma strip_prefix_app p s : strip_prefix p (p +:+ s) = Some s.
Proof.
  induction p as [| c p IH]; [destruct s; reflexivity |].
  rewrite append_cons. cbn [strip_prefix]. rewrite Ascii.eqb_refl. exact IH.
Qed.

Lemma span_until_app stop w rest :
  ~ In stop (chars w) ->
  span_until stop (w +:+ String stop rest) = (w, String stop rest).
Proof.
  induction w as [| c w IH]; intros Hno.
  - rewrite append_nil. cbn [span_until]. rewrite Ascii.eqb_refl. reflexivity.
  - rewrite append_cons. cbn [span_until]. destruct (Ascii.eqb_spec c stop) as [-> | Hne].
    + exfalso. apply Hno. left. reflexivity.
    + rewrite IH; [reflexivity |]. intros Hin. apply Hno. right. exact Hin.
Qed.

Lemma str_no_comma (x : num) : ~ In ","%char (chars (py_str x)).
Proof. intros Hin. destruct (py_str_plain x _ Hin) as (Hc & _ & _). congruence. Qed.

Lemma str_no_space (x : num) : ~ In " "%char (chars (py_str x)).
Proof. intros Hin. destruct (py_str_plain x _ Hin) as (_ & Hc & _). congruence. Qed.

Lemma str_no_paren (x : num) : ~ In ")"%char (chars (py_str x)).
Proof. intros Hin. destruct (py_str_plain x _ Hin) as (_ & _ & Hc). congruence. Qed.

Lemma vertex_text_chars (v : vertex) c :
  In c (chars (vertex_text v)) -> c <> ","%char /\ c <> ")"%char.
Proof.
  unfold vertex_text. rewrite !chars_app. rewrite !in_app_iff.
  intros [Hin | [Hin | Hin]].
  - destruct (py_str_plain _ _ Hin) as (? & ? & ?). auto.
  - destruct Hin as [<- | []]. split; discriminate.
  - destruct (py_str_plain _ _ Hin) as (? & ? & ?). auto.
Qed.

Lemma parse_vertex_text (v : vertex) : parse_vertex (vertex_text v) = Some v.
Proof.
  destruct v as [x y]. unfold parse_vertex, vertex_text. cbn [fst snd].
  rewrite append_cons, append_nil.
  rewrite split_on_app by apply str_no_space.
  rewrite split_on_plain by apply str_no_space.
  rewrite !py_parse_str. reflexivity.
Qed.

Lemma join_vertices_chars (r : ring) c :
  In c (chars (join_with "," (map vertex_text r))) -> c <> ")"%char.
Proof.
  induction r as [| v [| v' r] IH]; cbn [map join_with].
  - intros [].
  - intros Hin. apply (vertex_text_chars v c Hin).
  - rewrite !chars_app, !in_app_iff. intros [Hin | [Hin | Hin]].
    + apply (vertex_text_chars v c Hin).
    + destruct Hin as [<- | []]. discriminate.
    + apply IH. exact Hin.
Qed.

Lemma parse_joined_vertices (r : ring) :
  r <> [] ->
  parse_vertices (split_on "," (join_with "," (map vertex_text r))) = Some r.
Proof.
  induction r as [| v [| v' r] IH]; intros Hne; [congruence | |].
  - cbn [map join_with]. rewrite split_on_plain.
    + cbn [parse_vertices]. rewrite parse_vertex_text. reflexivity.
    + intros Hin. destruct (vertex_text_chars v _ Hin) as [Hc _]. congruence.
  - cbn [map]. rewrite join_with_cons, append_cons, append_nil.
    change (vertex_text v' :: map vertex_text r)
      with (map vertex_text (v' :: r)).
    rewrite split_on_app.
    + cbn [parse_vertices]. rewrite parse_vertex_text, IH by discriminate.
      reflexivity.
    + intros Hin. destruct (vertex_text_chars v _ Hin) as [Hc _]. congruence.
Qed.

(** Reading back what [wkt_of_ring] writes gives the ring again. *)
Lemma parse_wkt_of_ring (r : ring) :
  r <> [] -> parse_wkt_polygon (wkt_of_ring r) = Some r.
Proof.
  intros Hne. unfold parse_wkt_polygon, wkt_of_ring.
  rewrite strip_prefix_app.
  rewrite span_until_app.
  - cbn [String.eqb Ascii.eqb Bool.eqb]. apply parse_joined_vertices, Hne.
  - intros Hin. apply (join_vertices_chars r _ Hin). reflexivity.
Qed.

Lemma parse_footprint_poly (minlon minlat maxlon maxlat : num) :
  exists r : ring,
    parse_wkt_polygon (get_footprint_poly minlon minlat maxlon maxlat) = Some r
    /\ r = [(maxlon, maxlat); (maxlon, minlat); (minlon, minlat);
            (minlon, maxlat); (maxlon, maxlat)].
Proof.
  eexists. split; [| reflexivity].
  replace (get_footprint_poly minlon minlat maxlon maxlat)
    with (wkt_of_ring [(maxlon, maxlat); (maxlon, minlat); (minlon, minlat);
                       (minlon, maxlat); (maxlon, maxlat)]).
  - apply parse_wkt_of_ring. discriminate.
  - unfold get_footprint_poly, wkt_of_ring, vertex_text.
    cbn [map join_with fst snd].
    rewrite !append_assoc. reflexivity.
Qed.


(** C8: [get_footprint_poly] writes the five vertices
    (maxlon maxlat), (maxlon minlat), (minlon minlat), (minlon maxlat),
    (maxlon maxlat), in this order, the first one again at the end. *)
Theorem footprint_poly_vertex_order (minlon minlat maxlon maxlat : num) :
  let r : ring :=
    [(maxlon, maxlat); (maxlon, minlat); (minlon, minlat);
     (minlon, maxlat); (maxlon, maxlat)] in
  get_footprint_poly minlon minlat maxlon maxlat = wkt_of_ring r
  /\ parse_wkt_polygon (get_footprint_poly minlon minlat maxlon maxlat)
     = Some r
  /\ head r = Some (maxlon, maxlat)
  /\ last r = Some (maxlon, maxlat).
Proof.
  intros r.
  assert (Htext : get_footprint_poly minlon minlat maxlon maxlat = wkt_of_ring r).
  { unfold get_footprint_poly, wkt_of_ring, r, vertex_text.
    cbn [map join_with fst snd].
    rewrite !append_assoc. reflexivity. }
  split; [exact Htext |]. split; [| split; reflexivity].
  rewrite Htext. apply parse_wkt_of_ring. discriminate.
Qed.

(** C9: for [minlon < maxlon] and [minlat < maxlat], the polygon
    [get_footprint_poly] writes, read back, is the rectangle of the tuple
    [get_bbox] returns for the same arguments: its ring goes through the
    four corners of that tuple, which are four different points, in turn
    and back to the first, and its bounds are that tuple; and the tuple is
    the four arguments as given. *)
Theorem footprint_poly_matches_bbox (minlon minlat maxlon maxlat : num) :
  py_lt minlon maxlon = true ->
  py_lt minlat maxlat = true ->
  get_bbox minlon minlat maxlon maxlat = (minlon, minlat, maxlon, maxlat)
  /\ exists r,
       parse_wkt_polygon (get_footprint_poly minlon minlat maxlon maxlat)
       = Some r
       /\ rectangle_ring (get_bbox minlon minlat maxlon maxlat) r
       /\ r = [(maxlon, maxlat); (maxlon, minlat); (minlon, minlat);
               (minlon, maxlat); (maxlon, maxlat)]
       /\ ring_bounds r = Ok (get_bbox minlon minlat maxlon maxlat).
Proof.
  intros Hlon Hlat. split; [reflexivity |].
  destruct (parse_footprint_poly minlon minlat maxlon maxlat)
    as [r [Hparse Hr]].
  exists r. split; [exact Hparse |]. subst r.
  assert (Hx : minlon <> maxlon)
    by (intros ->; rewrite py_lt_irrefl in Hlon; discriminate).
  assert (Hy : minlat <> maxlat)
    by (intros ->; rewrite py_lt_irrefl in Hlat; discriminate).
  split; [| split; [reflexivity |]].
  - split; [reflexivity |]. unfold get_bbox, corners.
    repeat (apply NoDup_cons_2;
            [intros Hin;
             repeat (apply elem_of_cons in Hin;
                     destruct Hin as [Hin | Hin]; [congruence |]);
             inversion Hin |]).
    apply NoDup_nil_2.
  - apply ring_bounds_rectangle; apply py_lt_asym; assumption.
Qed.

(** ** More on [download_product] *)

Lemma sleeps_app past new :
  sleeps (past ++ new) = (sleeps past + sleeps new)%nat.
Proof. unfold sleeps. rewrite List.filter_app, length_app. reflexivity. Qed.

(** What one turn of the loop does, by the answer to the download. *)
Lemma run_attempt_cases (w : world) pid dir wait past :
  run w (download_attempt pid dir wait) past =
  match w (SentinelDownload pid dir) past with
  | Ok _ =>
      (Returned (Some VNone),
       past ++ [Asked (SentinelDownload pid dir); Said (MsgDownloadOk pid)])
  | Raise e =>
      if is_LTATriggered e then
        if wait <? 0 then
          (Raised ValueError,
           past ++ [Asked (SentinelDownload pid dir);
                    Said (MsgNotAvailable pid wait)])
        else (Returned None, past ++ failed_turn pid dir wait)
      else (Raised e, past ++ [Asked (SentinelDownload pid dir)])
  end.
Proof.
  unfold download_attempt. simpl.
  destruct (w (SentinelDownload pid dir) past) as [[] | e]; simpl.
  - rewrite <- app_assoc. reflexivity.
  - destruct (is_LTATriggered e); [| reflexivity]. simpl. unfold sleep.
    destruct (wait <? 0); simpl; rewrite <- !app_assoc; reflexivity.
Qed.

Lemma download_loop_bounds (w : world) pid dir n wait turns past :
  exists new,
    snd (run w (download_loop pid dir n wait turns) past) = past ++ new
    /\ (attempts new <= turns)%nat
    /\ (sleeps new <= attempts new)%nat.
Proof.
  revert past. induction turns as [| turns IH]; intros past.
  - exists [Said (MsgDownloadFailed pid n)].
    split; [reflexivity |]. unfold attempts, sleeps. simpl. lia.
  - cbn [download_loop]. rewrite run_bind, run_attempt_cases.
    destruct (w (SentinelDownload pid dir) past) as [[] | e].
    + eexists. split; [reflexivity |]. unfold attempts, sleeps. simpl. lia.
    + destruct (is_LTATriggered e).
      * destruct (wait <? 0).
        -- eexists. split; [reflexivity |]. unfold attempts, sleeps. simpl. lia.
        -- destruct (IH (past ++ failed_turn pid dir wait)) as (new & Hnew & Ha & Hs).
           exists (failed_turn pid dir wait ++ new).
           rewrite Hnew, <- app_assoc. split; [reflexivity |].
           rewrite attempts_app, sleeps_app.
           unfold attempts at 1 3, sleeps at 1, failed_turn. simpl. lia.
      * eexists. split; [reflexivity |]. unfold attempts, sleeps. simpl. lia.
Qed.

(** Whatever the downloads are answered, [download_product] invokes the
    download at most [num_retries] times (never, for [num_retries <= 0]),
    and it never sleeps more often than it has invoked the download. *)
Theorem download_product_attempts_bounded (w : world)
    (product_id output_directory : string) (num_retries retry_wait : Z) past :
  exists new,
    snd (run w (download_product product_id output_directory num_retries
                  retry_wait) past) = past ++ new
    /\ Z.of_nat (attempts new) <= Z.max num_retries 0
    /\ (sleeps new <= attempts new)%nat.
Proof.
  destruct (download_loop_bounds w product_id output_directory num_retries
              retry_wait (Z.to_nat num_retries) past) as (new & Hnew & Ha & Hs).
  exists new. split; [exact Hnew |]. split; [lia | exact Hs].
Qed.

(** An exception of the download other than [LTATriggered] is not
    retried: it leaves [download_product] at once, after that single
    invocation, with nothing printed and no sleep. *)
Theorem download_product_other_exception (w : world)
    (product_id output_directory : string) (num_retries retry_wait : Z)
    (e : exn) past :
  0 < num_retries ->
  is_LTATriggered e = false ->
  w (SentinelDownload product_id output_directory) past = Raise e ->
  run w (download_product product_id output_directory num_retries retry_wait)
    past
  = (Raised e, past ++ [Asked (SentinelDownload product_id output_directory)]).
Proof.
  intros Hn He Hw. unfold download_product.
  destruct (Z.to_nat num_retries) as [| turns] eqn:Hturns; [lia |].
  cbn [download_loop]. rewrite run_bind, run_attempt_cases, Hw, He.
  reflexivity.
Qed.

(** With [num_retries <= 0] the loop body never runs: nothing is
    downloaded, the failure line is printed and [None] is returned. *)
Theorem download_product_without_retries (w : world)
    (product_id output_directory : string) (num_retries retry_wait : Z) past :
  num_retries <= 0 ->
  run w (download_product product_id output_directory num_retries retry_wait)
    past
  = (Returned VNone,
     past ++ [Said (MsgDownloadFailed product_id num_retries)]).
Proof.
  intros Hn. unfold download_product.
  replace (Z.to_nat num_retries) with 0%nat by lia. reflexivity.
Qed.

(** When the download is answered by the triggered signal on its first
    [c] invocations and succeeds on the next one, with [c < num_retries]
    and [retry_wait] a length [time.sleep] takes (between 0 and
    [sleep_max]), [download_product] returns after [c + 1] invocations and
    [c] sleeps, the success line being the last thing it does. *)
Theorem download_product_succeeds_after (w : world)
    (product_id output_directory : string) (num_retries retry_wait : Z)
    (c : nat) past :
  0 <= retry_wait <= sleep_max ->
  Z.of_nat c < num_retries ->
  attempts past = 0%nat ->
  (forall past', (attempts past' < c)%nat ->
     w (SentinelDownload product_id output_directory) past'
     = Raise LTATriggered) ->
  (forall past', attempts past' = c ->
     w (SentinelDownload product_id output_directory) past' = Ok tt) ->
  let result :=
    run w (download_product product_id output_directory num_retries
             retry_wait) past in
  result =
    (Returned VNone,
     past ++ failed_turns c product_id output_directory retry_wait
          ++ [Asked (SentinelDownload product_id output_directory);
              Said (MsgDownloadOk product_id)])
  /\ attempts (snd result) = S c
  /\ sleeps (snd result) = (sleeps past + c)%nat.
Proof.
  intros [Hwait _] Hc Hfresh Htrig Hok result.
  assert (Hres : result =
    (Returned VNone,
     past ++ failed_turns c product_id output_directory retry_wait
          ++ [Asked (SentinelDownload product_id output_directory);
              Said (MsgDownloadOk product_id)])).
  { unfold result, download_product.
    apply (run_loop_triggered_then_ok w product_id output_directory
             num_retries retry_wait Hwait c Htrig Hok c); lia. }
  split; [exact Hres |]. rewrite Hres. cbn [snd].
  assert (Hturns : forall k,
            attempts (failed_turns k product_id output_directory retry_wait) = k
            /\ sleeps (failed_turns k product_id output_directory retry_wait) = k).
  { induction k as [| k [IHa IHs]]; [split; reflexivity |].
    cbn [failed_turns]. rewrite attempts_app, sleeps_app, IHa, IHs.
    split; reflexivity. }
  destruct (Hturns c) as [Ha Hs].
  rewrite !attempts_app, !sleeps_app, Ha, Hs, Hfresh.
  unfold attempts, sleeps. simpl. lia.
Qed.

(** ** More on the adapters *)

Lemma never_for_each {X} P (xs : list X) (body : X -> prog unit) :
  (forall x, never P (body x)) -> never P (for_each xs body).
Proof.
  intros Hbody. induction xs as [| x xs IH]; [exact I |].
  cbn [for_each]. apply never_bind; [apply Hbody | intros; exact IH].
Qed.

Lemma never_landsat_senes P eid scenes data :
  (forall fname d, P (Asked (JsonDump fname d)) = false) ->
  never P (landsat_senes eid scenes data).
Proof.
  intros Hdump. revert data. induction scenes as [| s scenes IH]; intros data.
  - exact I.
  - cbn [landsat_senes]. apply never_bind; [apply never_lift |]. intros d.
    apply never_bind; [apply never_call, Hdump |]. intros _. apply IH.
Qed.

(** The events that belong to the retry helper: a single-product download
    and a sleep. *)
Definition is_retry_event (ev : event) : bool :=
  is_download_request ev || is_sleep ev.

Definition is_sentinel_request (ev : event) : bool :=
  match ev with
  | Asked (SentinelQuery _ _ _ _ _) => true
  | Asked (SentinelToGeodataframe _) => true
  | Asked (SentinelDownload _ _) => true
  | Asked (SentinelDownloadAll _ _) => true
  | Asked (SentinelProductOdata _) => true
  | _ => false
  end.

Definition is_landsat_request (ev : event) : bool :=
  match ev with
  | Asked (LandsatLogin _ _) => true
  | Asked (LandsatSearch _ _ _ _ _) => true
  | Asked LandsatLogout => true
  | Asked (EarthExplorerLogin _ _) => true
  | Asked (EarthExplorerDownload _ _) => true
  | Asked EarthExplorerLogout => true
  | _ => false
  end.

Lemma get_sentinel_never P eid fp s e jf pt plat :
  (forall r, is_landsat_request (Asked r) = false ->
             is_download_request (Asked r) = false -> P (Asked r) = false) ->
  (forall m, P (Said m) = false) ->
  never P (get_sentinel eid fp s e jf pt plat).
Proof.
  intros Hreq Hsaid. unfold get_sentinel, ensure_dir.
  repeat first
    [ exact I
    | apply Hsaid
    | apply Hreq; reflexivity
    | apply never_sentinel_senes; intros; apply Hreq; reflexivity
    | apply never_lift
    | apply never_call
    | apply never_when
    | apply never_bind; [| intros]
    | split
    | match goal with |- never _ (match ?x with _ => _ end) => destruct x end ].
Qed.

Lemma get_landsat_never P eid bb s e jf plat :
  (forall r, is_sentinel_request (Asked r) = false -> P (Asked r) = false) ->
  (forall m, P (Said m) = false) ->
  never P (get_landsat eid bb s e jf plat).
Proof.
  intros Hreq Hsaid. unfold get_landsat, ensure_dir.
  repeat first
    [ exact I
    | apply Hsaid
    | apply Hreq; reflexivity
    | apply never_landsat_senes; intros; apply Hreq; reflexivity
    | apply never_for_each; intros
    | apply never_lift
    | apply never_call
    | apply never_when
    | apply never_bind; [| intros]
    | split
    | match goal with |- never _ (match ?x with _ => _ end) => destruct x end ].
Qed.

Lemma parse_shp_never P filename fid :
  P (Asked (ReadShapefile filename)) = false ->
  P (Said MsgInvalidFireID) = false ->
  never P (parse_shp filename fid).
Proof.
  intros Hread Hsaid. unfold parse_shp.
  apply never_bind; [apply never_call, Hread |]. intros fires.
  apply never_bind.
  - destruct (negb (existsb (has_id fid) fires)); [| exact I].
    split; [exact Hsaid | exact I].
  - intros _. destruct (List.filter (has_id fid) fires); [exact I |].
    repeat (apply never_bind; [apply never_lift | intros]). exact I.
Qed.

Lemma main_never P event_id satellite :
  (forall r, is_download_request (Asked r) = false ->
             (if String.eqb satellite "sentinel"
              then is_landsat_request (Asked r)
              else is_sentinel_request (Asked r)) = false ->
             P (Asked r) = false) ->
  (forall m, P (Said m) = false) ->
  never P (main event_id satellite).
Proof.
  intros Hreq Hsaid. unfold main.
  apply never_bind.
  - apply parse_shp_never; [| apply Hsaid].
    apply Hreq; [reflexivity | destruct (String.eqb satellite "sentinel"); reflexivity].
  - intros [[[fid s] e] fp].
    apply never_bind; [split; [apply Hsaid | exact I] |]. intros _.
    apply never_bind; [split; [apply Hsaid | exact I] |]. intros _.
    destruct (String.eqb satellite "sentinel") eqn:Hsat.
    + apply never_bind; [apply never_lift |]. intros a.
      apply never_bind; [apply never_lift |]. intros b.
      apply never_bind; [split; [apply Hsaid | exact I] |]. intros _.
      apply never_bind; [| intros; exact I].
      apply get_sentinel_never; [| exact Hsaid].
      intros r Hl Hd. apply Hreq; assumption.
    + destruct (String.eqb satellite "landsat").
      * apply never_bind; [apply never_lift |]. intros a.
        apply never_bind; [apply never_lift |]. intros b.
        apply never_bind; [split; [apply Hsaid | exact I] |]. intros _.
        apply never_bind; [| intros; exact I].
        apply get_landsat_never; [| exact Hsaid].
        intros r Hs. apply Hreq; [| exact Hs].
        destruct r; try reflexivity; discriminate Hs.
      * apply never_bind; [split; [apply Hsaid | exact I] |]. intros _. exact I.
Qed.

(** The retry helper is not part of any run of [main]: whatever the event
    and the satellite, [main] never asks for a single-product download and
    never sleeps. *)
Theorem main_never_retries (w : world) (event_id satellite : string) past :
  exists new,
    snd (run w (main event_id satellite) past) = past ++ new
    /\ Forall (fun ev => is_retry_event ev = false) new.
Proof.
  destruct (run_extends w (main event_id satellite) past) as [new Hnew].
  exists new. split; [exact Hnew |].
  eapply never_run; [| exact Hnew].
  apply main_never.
  - intros r Hd _. unfold is_retry_event. rewrite Hd. reflexivity.
  - intros m. reflexivity.
Qed.

(** [main] talks to one provider only: with "sentinel" it makes no Landsat
    or EarthExplorer request, with any other satellite it makes no Sentinel
    request. *)
Theorem main_one_provider (w : world) (event_id satellite : string) past :
  exists new,
    snd (run w (main event_id satellite) past) = past ++ new
    /\ (satellite = "sentinel" ->
        Forall (fun ev => is_landsat_request ev = false) new)
    /\ (satellite <> "sentinel" ->
        Forall (fun ev => is_sentinel_request ev = false) new).
Proof.
  destruct (run_extends w (main event_id satellite) past) as [new Hnew].
  exists new. split; [exact Hnew |]. split.
  - intros ->. eapply never_run; [| exact Hnew].
    apply main_never; [| intros m; reflexivity].
    intros r _ Hl. exact Hl.
  - intros Hne. apply String.eqb_neq in Hne.
    eapply never_run; [| exact Hnew].
    apply main_never; [| intros m; reflexivity].
    intros r _ Hs. rewrite Hne in Hs. exact Hs.
Qed.

Lemma run_ensure_dir (w : world) path past (there : bool) :
  w (PathExists path) past = Ok there ->
  w (Mkdir path) (past ++ [Asked (PathExists path)]) = Ok tt ->
  run w (ensure_dir path) past =
  (Returned tt,
   past ++ Asked (PathExists path)
        :: (if there then [] else [Asked (Mkdir path)])).
Proof.
  intros Hthere Hmk. unfold ensure_dir. simpl. rewrite Hthere. simpl.
  destruct there; simpl; [reflexivity |].
  rewrite Hmk. simpl. rewrite <- app_assoc. reflexivity.
Qed.

Lemma run_for_each_downloads (w : world) dir (scenes : list scene) past :
  (forall scene_id past', w (EarthExplorerDownload scene_id dir) past' = Ok tt) ->
  run w (for_each scenes
           (fun s => call (EarthExplorerDownload (display_id s) dir))) past =
  (Returned tt,
   past ++ map (fun s => Asked (EarthExplorerDownload (display_id s) dir))
             scenes).
Proof.
  intros Hok. revert past. induction scenes as [| s scenes IH]; intros past.
  - simpl. rewrite app_nil_r. reflexivity.
  - cbn [for_each bind call run]. rewrite Hok. cbn [bind]. rewrite IH.
    cbn [map]. rewrite <- app_assoc. reflexivity.
Qed.

(** When scenes are found, [get_sentinel] looks for the two output
    directories and makes the missing ones even if neither footprints, nor
    downloads, nor the JSON update are switched on; with all three off it
    does nothing else and returns. *)
Theorem get_sentinel_makes_directories (w : world)
    (event_id footprint : string) (start_date end_date : datetime)
    (json_file_name producttype platform : string)
    (found : products) (out_there sat_there : bool) past :
  save_footprints config = false ->
  download_scenes config = false ->
  update_json config = false ->
  found <> [] ->
  let out_dir := Path.join3 (data_dir config) "Fire_events" event_id in
  let output_directory := Path.join out_dir "Sentinel" in
  (forall past',
     w (SentinelQuery footprint (start_date, end_date)
          (py_zero, max_cloud_cover config) producttype platform) past'
     = Ok found) ->
  (forall past', w (PathExists out_dir) past' = Ok out_there) ->
  (forall past', w (PathExists output_directory) past' = Ok sat_there) ->
  (forall path past', w (Mkdir path) past' = Ok tt) ->
  run w (get_sentinel event_id footprint start_date end_date json_file_name
           producttype platform) past
  = (Returned VNone,
     past ++ [Said (MsgSearchingSentinel event_id);
              Asked (SentinelQuery footprint (start_date, end_date)
                       (py_zero, max_cloud_cover config) producttype platform);
              Said (MsgSentinelFound (length found) event_id);
              Asked (PathExists out_dir)]
          ++ (if out_there then [] else [Asked (Mkdir out_dir)])
          ++ [Asked (PathExists output_directory)]
          ++ (if sat_there then [] else [Asked (Mkdir output_directory)])).
Proof.
  intros Hsave Hdown Hupd Hfound out_dir output_directory Hq Hout Hsat Hmk.
  unfold get_sentinel. fold out_dir. fold output_directory.
  rewrite Hsave, Hdown, Hupd.
  rewrite run_bind, run_print. rewrite run_bind, run_call, Hq.
  destruct found as [| p found']; [congruence |].
  rewrite run_bind, run_print.
  rewrite run_bind, (run_ensure_dir w out_dir _ out_there) by auto.
  rewrite run_bind, (run_ensure_dir w output_directory _ sat_there) by auto.
  cbn [when bind run]. rewrite <- !app_assoc. cbn [app].
  destruct out_there, sat_there; reflexivity.
Qed.

Lemma run_ensure_dir_there (w : world) path past :
  w (PathExists path) past = Ok true ->
  run w (ensure_dir path) past = (Returned tt, past ++ [Asked (PathExists path)]).
Proof. intros Hthere. unfold ensure_dir. simpl. rewrite Hthere. reflexivity. Qed.

(** What the script asks of the Landsat side, apart from the search, is
    answered without an exception. *)
Definition landsat_answers (w : world) : Prop :=
  (forall u p past', w (LandsatLogin u p) past' = Ok tt)
  /\ (forall past', w LandsatLogout past' = Ok tt)
  /\ (forall u p past', w (EarthExplorerLogin u p) past' = Ok tt)
  /\ (forall past', w EarthExplorerLogout past' = Ok tt).

(** With downloads switched on (footprints and the JSON update off), the
    output directories in place and every provider call answered,
    [get_landsat] logs in to EarthExplorer, downloads every scene found,
    one request per scene and in the order of the search result, logs out
    of EarthExplorer and then of the API. *)
Theorem get_landsat_downloads_every_scene (w : world) (event_id : string)
    (bbox : num * num * num * num) (start_date end_date : datetime)
    (json_file_name platform : string) (scenes : list scene) past :
  save_footprints config = false ->
  download_scenes config = true ->
  update_json config = false ->
  scenes <> [] ->
  let out_dir := Path.join3 (data_dir config) "Fire_events" event_id in
  let output_directory := Path.join out_dir "Landsat" in
  (forall past',
     w (LandsatSearch "landsat_ot_c2_l1" bbox (strftime_ymd start_date)
          (strftime_ymd end_date) (max_cloud_cover config)) past'
     = Ok scenes) ->
  (forall path past', w (PathExists path) past' = Ok true) ->
  landsat_answers w ->
  (forall scene_id dir past',
     w (EarthExplorerDownload scene_id dir) past' = Ok tt) ->
  run w (get_landsat event_id bbox start_date end_date json_file_name
           platform) past
  = (Returned VNone,
     past ++ [Said (MsgSearchingLandsat event_id);
              Asked (LandsatLogin (username_landsat config)
                       (password_landsat config));
              Asked (LandsatSearch "landsat_ot_c2_l1" bbox
                       (strftime_ymd start_date) (strftime_ymd end_date)
                       (max_cloud_cover config));
              Said (MsgLandsatFound (length scenes) event_id);
              Asked (PathExists out_dir);
              Asked (PathExists output_directory);
              Said (MsgDownloadingLandsat event_id output_directory);
              Asked (EarthExplorerLogin (username_landsat config)
                       (password_landsat config))]
          ++ map (fun s => Asked (EarthExplorerDownload (display_id s)
                                    output_directory)) scenes
          ++ [Asked EarthExplorerLogout; Asked LandsatLogout]).
Proof.
  intros Hsave Hdown Hupd Hscenes out_dir output_directory Hsearch Hexists
    (Hlogin & Hlogout & Helogin & Helogout) Hdl.
  unfold get_landsat. fold out_dir. fold output_directory.
  rewrite Hsave, Hdown, Hupd.
  rewrite run_bind, run_print. rewrite run_bind, run_call, Hlogin.
  rewrite run_bind, run_call, Hsearch.
  destruct scenes as [| s0 scenes']; [congruence |].
  set (scenes := s0 :: scenes').
  rewrite run_bind. rewrite run_bind, run_print.
  rewrite run_bind, run_ensure_dir_there by apply Hexists.
  rewrite run_bind, run_ensure_dir_there by apply Hexists.
  cbn [when]. rewrite run_bind. cbn [bind run].
  rewrite run_bind, run_bind, run_print.
  rewrite run_bind, run_call, Helogin.
  rewrite run_bind.
  rewrite run_for_each_downloads by (intros; apply Hdl).
  cbn beta iota. cbn [bind call run]. rewrite Helogout.
  cbn [bind call run]. rewrite Hlogout. cbn [bind run].
  rewrite <- !app_assoc. reflexivity.
Qed.

(** There is no [try]/[finally] around the downloads: when the download of
    the first scene raises, the exception leaves [get_landsat] right there,
    and neither the EarthExplorer session nor the API session is logged
    out. *)
Theorem get_landsat_failed_download (w : world) (event_id : string)
    (bbox : num * num * num * num) (start_date end_date : datetime)
    (json_file_name platform : string) (s : scene) (others : list scene)
    (e : exn) past :
  save_footprints config = false ->
  download_scenes config = true ->
  let out_dir := Path.join3 (data_dir config) "Fire_events" event_id in
  let output_directory := Path.join out_dir "Landsat" in
  (forall past',
     w (LandsatSearch "landsat_ot_c2_l1" bbox (strftime_ymd start_date)
          (strftime_ymd end_date) (max_cloud_cover config)) past'
     = Ok (s :: others)) ->
  (forall path past', w (PathExists path) past' = Ok true) ->
  landsat_answers w ->
  (forall past',
     w (EarthExplorerDownload (display_id s) output_directory) past'
     = Raise e) ->
  let new :=
    [Said (MsgSearchingLandsat event_id);
     Asked (LandsatLogin (username_landsat config) (password_landsat config));
     Asked (LandsatSearch "landsat_ot_c2_l1" bbox (strftime_ymd start_date)
              (strftime_ymd end_date) (max_cloud_cover config));
     Said (MsgLandsatFound (S (length others)) event_id);
     Asked (PathExists out_dir);
     Asked (PathExists output_directory);
     Said (MsgDownloadingLandsat event_id output_directory);
     Asked (EarthExplorerLogin (username_landsat config)
              (password_landsat config));
     Asked (EarthExplorerDownload (display_id s) output_directory)] in
  run w (get_landsat event_id bbox start_date end_date json_file_name
           platform) past
  = (Raised e, past ++ new)
  /\ existsb is_logout new = false.
Proof.
  intros Hsave Hdown out_dir output_directory Hsearch Hexists
    (Hlogin & Hlogout & Helogin & Helogout) Hdl new.
  split; [| reflexivity].
  unfold get_landsat. fold out_dir. fold output_directory.
  rewrite Hsave, Hdown.
  rewrite run_bind, run_print. rewrite run_bind, run_call, Hlogin.
  rewrite run_bind, run_call, Hsearch.
  rewrite run_bind. rewrite run_bind, run_print.
  rewrite run_bind, run_ensure_dir_there by apply Hexists.
  rewrite run_bind, run_ensure_dir_there by apply Hexists.
  cbn [when]. rewrite run_bind. cbn [bind run].
  rewrite run_bind, run_bind, run_print.
  rewrite run_bind, run_call, Helogin.
  rewrite run_bind. cbn [for_each bind call run]. rewrite Hdl.
  cbn [bind run]. unfold new. rewrite <- !app_assoc. reflexivity.
Qed.

(** *** The Landsat footprint frame *)






(** ** The JSON update *)

(** [data['features'][0][key] = x] touches nothing but that one entry: the
    other top-level keys, the other features and the other keys of the
    first feature stay as they were; it needs [data] to be a dict whose
    [features] is a non-empty list starting with a dict. *)
Theorem set_in_first_feature_frame (data : json num) (key : string)
    (x data' : json num) :
  set_in_first_feature data key x = Ok data' ->
  exists fields feature others,
    data = JObj fields
    /\ fields !! "features" = Some (JArr (JObj feature :: others))
    /\ data' = JObj (<["features" :=
                        JArr (JObj (<[key := x]> feature) :: others)]> fields)
    /\ (forall k, k <> "features" -> getitem data' k = getitem data k)
    /\ (forall k, k <> key ->
          answer_bind (answer_bind (getitem data' "features")
                         (fun fs => getindex fs 0))
            (fun f => getitem f k)
          = getitem (JObj feature) k).
Proof.
  unfold set_in_first_feature. intros Hset.
  destruct data as [| | | | | fields]; try discriminate.
  cbn [getitem] in Hset.
  destruct (fields !! "features") as [features |] eqn:Hf; [| discriminate].
  cbn [answer_bind] in Hset.
  destruct features as [| | | s | items |]; try discriminate.
  - cbn [getindex] in Hset. destruct (String.get 0 s); discriminate.
  - destruct items as [| feature others]; [discriminate |].
    cbn [getindex lookup list_lookup answer_bind] in Hset.
    destruct feature as [| | | | | feature]; try discriminate.
    cbn [setitem answer_bind] in Hset. injection Hset as <-.
    exists fields, feature, others.
    split; [reflexivity |]. split; [exact Hf |]. split; [reflexivity |]. split.
    + intros k Hk. cbn [getitem]. rewrite lookup_insert_ne by congruence.
      reflexivity.
    + intros k Hk. cbn [getitem answer_bind]. rewrite lookup_insert_eq.
      cbn [getindex lookup list_lookup answer_bind getitem].
      rewrite lookup_insert_ne by congruence. reflexivity.
Qed.

(** The document whose first feature carries the list [items] under [key]. *)
Definition with_scene_list (fields feature : gmap string (json num))
    (others : list (json num)) (key : string) (items : list (json num))
  : json num :=
  JObj (<["features" :=
          JArr (JObj (<[key := JArr items]> feature) :: others)]> fields).

Lemma set_scene_list fields feature others key :
  fields !! "features" = Some (JArr (JObj feature :: others)) ->
  set_in_first_feature (JObj fields) key (JArr [])
  = Ok (with_scene_list fields feature others key []).
Proof.
  intros Hf. unfold set_in_first_feature. cbn [getitem]. rewrite Hf.
  reflexivity.
Qed.

Lemma append_scene_list fields feature others key items x :
  append_in_first_feature (with_scene_list fields feature others key items)
    key x
  = Ok (with_scene_list fields feature others key (items ++ [x])).
Proof.
  unfold append_in_first_feature, set_in_first_feature, with_scene_list.
  cbn [getitem answer_bind]. rewrite !lookup_insert_eq.
  cbn [getindex lookup list_lookup answer_bind getitem].
  rewrite !lookup_insert_eq. cbn [setitem answer_bind].
  rewrite !insert_insert_eq. reflexivity.
Qed.

Lemma run_sentinel_senes (w : world) (info_of : string -> odata)
    fields feature others ids items past :
  (forall pid past', w (SentinelProductOdata pid) past' = Ok (info_of pid)) ->
  run w (sentinel_senes ids
           (with_scene_list fields feature others "sentinel_senes" items)) past
  = (Returned
       (with_scene_list fields feature others "sentinel_senes"
          (items ++ map (fun pid => sentinel_element (info_of pid)) ids)),
     past ++ map (fun pid => Asked (SentinelProductOdata pid)) ids).
Proof.
  intros Hod. revert items past. induction ids as [| pid ids IH];
    intros items past.
  - simpl. rewrite !app_nil_r. reflexivity.
  - cbn [sentinel_senes bind call run]. rewrite Hod. cbn [bind].
    rewrite append_scene_list. cbn [lift bind]. rewrite IH.
    cbn [map]. rewrite <- !app_assoc. reflexivity.
Qed.

(** The JSON update of [get_sentinel] (footprints and downloads off, the
    directories in place): the file read is [json_file_name] and the file
    written is [json_file_name] again; what is written is the document
    read, with [features[0]['sentinel_senes']] replaced by one element per
    product found, in the order of the query result, and everything else
    as it was. *)
Theorem get_sentinel_updates_json (w : world)
    (event_id footprint : string) (start_date end_date : datetime)
    (json_file_name producttype platform : string)
    (found : products) (info_of : string -> odata)
    (fields feature : gmap string (json num)) (others : list (json num))
    past :
  save_footprints config = false ->
  download_scenes config = false ->
  update_json config = true ->
  found <> [] ->
  fields !! "features" = Some (JArr (JObj feature :: others)) ->
  let out_dir := Path.join3 (data_dir config) "Fire_events" event_id in
  let output_directory := Path.join out_dir "Sentinel" in
  let query :=
    SentinelQuery footprint (start_date, end_date)
      (py_zero, max_cloud_cover config) producttype platform in
  let written :=
    with_scene_list fields feature others "sentinel_senes"
      (map (fun p => sentinel_element (info_of (fst p))) found) in
  (forall past', w query past' = Ok found) ->
  (forall path past', w (PathExists path) past' = Ok true) ->
  (forall past', w (JsonLoad json_file_name) past' = Ok (JObj fields)) ->
  (forall pid past', w (SentinelProductOdata pid) past' = Ok (info_of pid)) ->
  (forall past', w (JsonDump json_file_name written) past' = Ok tt) ->
  run w (get_sentinel event_id footprint start_date end_date json_file_name
           producttype platform) past
  = (Returned VNone,
     past ++ [Said (MsgSearchingSentinel event_id);
              Asked query;
              Said (MsgSentinelFound (length found) event_id);
              Asked (PathExists out_dir);
              Asked (PathExists output_directory);
              Asked (JsonLoad json_file_name)]
          ++ map (fun p => Asked (SentinelProductOdata (fst p))) found
          ++ [Asked (JsonDump json_file_name written)]).
Proof.
  intros Hsave Hdown Hupd Hfound Hfeatures out_dir output_directory query
    written Hq Hexists Hload Hod Hdump.
  unfold get_sentinel. fold out_dir. fold output_directory. fold query.
  rewrite Hsave, Hdown, Hupd.
  rewrite run_bind, run_print. rewrite run_bind, run_call, Hq.
  destruct found as [| p0 found']; [congruence |].
  set (found := p0 :: found') in *.
  rewrite run_bind, run_print.
  rewrite run_bind, run_ensure_dir_there by apply Hexists.
  rewrite run_bind, run_ensure_dir_there by apply Hexists.
  cbn [when]. rewrite run_bind. cbn [bind run].
  rewrite run_bind. cbn [bind run].
  rewrite run_bind, run_call, Hload.
  rewrite run_bind, (set_scene_list fields feature others) by exact Hfeatures.
  cbn [lift run].
  rewrite run_bind, (run_sentinel_senes w info_of) by exact Hod.
  cbn [app]. rewrite !map_map. fold written.
  cbn [call run]. rewrite Hdump. cbn [run].
  rewrite <- !app_assoc. reflexivity.
Qed.

(** ** More on [parse_jsons] *)

(** A point of the coordinate ring, as the JSON list [[x, y]]. *)
Definition point_json (pt : num * num) : json num :=
  JArr [JNum (fst pt); JNum (snd pt)].

Lemma split_xy_points (pts : list (num * num)) x_arr y_arr :
  split_xy (map point_json pts) x_arr y_arr
  = Ok (x_arr ++ map (fun pt => JNum (fst pt)) pts,
        y_arr ++ map (fun pt => JNum (snd pt)) pts).
Proof.
  revert x_arr y_arr. induction pts as [| pt pts IH]; intros x_arr y_arr.
  - cbn. rewrite !app_nil_r. reflexivity.
  - cbn [map split_xy point_json getindex lookup list_lookup answer_bind].
    rewrite IH, <- !app_assoc. reflexivity.
Qed.

Lemma all_nums_map (f : num * num -> num) (pts : list (num * num)) :
  all_nums (map (fun pt => JNum (f pt)) pts) = Ok (map f pts).
Proof.
  induction pts as [| pt pts IH]; [reflexivity |].
  cbn [map all_nums as_num answer_bind]. rewrite IH. reflexivity.
Qed.

(** On a document with the four properties it reads, two dates in the
    [%Y-%m-%d] form and a non-empty ring of [[x, y]] points in
    [geometry.coordinates[0][0]], [parse_jsons] returns the [fid] as it
    stands in the document, the two dates parsed, and the images under the
    transformer of the corner of the smallest [x] and [y] and of the
    corner of the largest [x] and [y] of the ring. *)
Theorem parse_jsons_result (w : world) (filename : string)
    (fields feature geom : gmap string (json num))
    (others more_rings more_polygons : list (json num))
    (props : gmap string (json num))
    (first last : string) (fid climate : json num)
    (start_date end_date : datetime) (pt : num * num)
    (pts : list (num * num)) past :
  props !! "first_date_7" = Some (JStr first) ->
  props !! "last_date_7" = Some (JStr last) ->
  props !! "fid" = Some fid ->
  props !! "main_clim" = Some climate ->
  strptime_ymd first = Ok start_date ->
  strptime_ymd last = Ok end_date ->
  feature !! "geometry" = Some (JObj geom) ->
  geom !! "coordinates"
  = Some (JArr (JArr (JArr (map point_json (pt :: pts)) :: more_rings)
                :: more_polygons)) ->
  w (JsonLoad filename) past
  = Ok (legacy_document fields feature others props) ->
  let xs := map fst (pt :: pts) in
  let ys := map snd (pt :: pts) in
  let minx := fold_left min_step (map fst pts) (fst pt) in
  let maxx := fold_left max_step (map fst pts) (fst pt) in
  let miny := fold_left min_step (map snd pts) (snd pt) in
  let maxy := fold_left max_step (map snd pts) (snd pt) in
  py_min xs = Ok minx /\ py_max xs = Ok maxx
  /\ py_min ys = Ok miny /\ py_max ys = Ok maxy
  /\ run w (parse_jsons filename) past
     = (Returned
          (fid, start_date, end_date,
           fst (transform_3395_4326 minx miny),
           snd (transform_3395_4326 minx miny),
           fst (transform_3395_4326 maxx maxy),
           snd (transform_3395_4326 maxx maxy)),
        past ++ [Asked (JsonLoad filename)]).
Proof.
  intros Hfirst Hlast Hfid Hclim Hs He Hgeom Hcoords Hload xs ys
    minx maxx miny maxy.
  repeat (split; [reflexivity |]).
  unfold parse_jsons. cbn [bind call run]. rewrite Hload. cbn [bind lift].
  assert (Hdata :
    parse_jsons_data (legacy_document fields feature others props)
    = Ok (fid, start_date, end_date,
          fst (transform_3395_4326 minx miny),
          snd (transform_3395_4326 minx miny),
          fst (transform_3395_4326 maxx maxy),
          snd (transform_3395_4326 maxx maxy))).
  { unfold parse_jsons_data. rewrite !property_legacy_document.
    rewrite Hfirst, Hlast, Hfid, Hclim. cbn [answer_bind as_str].
    rewrite Hs, He. cbn [answer_bind].
    assert (Hc : coordinates (legacy_document fields feature others props)
                 = Ok (JArr (map point_json (pt :: pts)))).
    { unfold coordinates, legacy_document. cbn [getitem answer_bind].
      rewrite lookup_insert_eq.
      cbn [getindex lookup list_lookup answer_bind getitem].
      rewrite lookup_insert_ne by discriminate. rewrite Hgeom.
      cbn [answer_bind getitem]. rewrite Hcoords. reflexivity. }
    rewrite Hc. cbn [answer_bind items_of]. rewrite split_xy_points.
    cbn [answer_bind app]. rewrite !all_nums_map. cbn [answer_bind].
    cbn [map py_min py_max answer_bind]. fold minx maxx miny maxy.
    destruct (transform_3395_4326 minx miny), (transform_3395_4326 maxx maxy).
    reflexivity. }
  rewrite Hdata. reflexivity.
Qed.

(** What [parse_jsons] fails with, in the order it reads the document: a
    document without [features] gives [KeyError('features')], an empty
    [features] list an [IndexError], a date that is not a string a
    [TypeError], a date string of ASCII characters that does not parse a
    [ValueError], and an empty coordinate ring the [ValueError] of [min]
    of an empty list. *)
Theorem parse_jsons_failures
    (fields feature geom : gmap string (json num))
    (others more_rings more_polygons : list (json num))
    (props : gmap string (json num)) (first last : string)
    (fid climate : json num) (start_date end_date : datetime) :
  (fields !! "features" = None ->
   parse_jsons_data (JObj fields) = Raise (KeyError "features"))
  /\ (fields !! "features" = Some (JArr []) ->
      parse_jsons_data (JObj fields) = Raise IndexError)
  /\ (props !! "last_date_7" = Some (JStr last) ->
      props !! "fid" = Some fid ->
      props !! "main_clim" = Some climate ->
      let document := legacy_document fields feature others props in
      (forall v, props !! "first_date_7" = Some v ->
                 (forall s, v <> JStr s) ->
                 parse_jsons_data document = Raise TypeError)
      /\ (props !! "first_date_7" = Some (JStr first) ->
          is_ascii first = true ->
          forall e, strptime_ymd first = Raise e ->
                    parse_jsons_data document = Raise ValueError)
      /\ (props !! "first_date_7" = Some (JStr first) ->
          strptime_ymd first = Ok start_date ->
          strptime_ymd last = Ok end_date ->
          feature !! "geometry" = Some (JObj geom) ->
          geom !! "coordinates"
          = Some (JArr (JArr (JArr [] :: more_rings) :: more_polygons)) ->
          parse_jsons_data document = Raise ValueError)).
Proof.
  split; [| split].
  - intros Hf. unfold parse_jsons_data, property. cbn [getitem].
    rewrite Hf. reflexivity.
  - intros Hf. unfold parse_jsons_data, property. cbn [getitem].
    rewrite Hf. reflexivity.
  - intros Hlast Hfid Hclim document. unfold document. split; [| split].
    + intros v Hv Hnot. unfold parse_jsons_data.
      rewrite !property_legacy_document, Hv, Hlast, Hfid, Hclim.
      cbn [answer_bind]. destruct v; try reflexivity.
      exfalso. eapply Hnot. reflexivity.
    + intros Hfirst _ e Hraise. unfold parse_jsons_data.
      rewrite !property_legacy_document, Hfirst, Hlast, Hfid, Hclim.
      cbn [answer_bind as_str]. rewrite Hraise. cbn [answer_bind].
      f_equal. revert Hraise. unfold strptime_ymd, datetime_new.
      repeat match goal with
             | |- context [match ?x with _ => _ end] => destruct x
             end; congruence.
    + intros Hfirst Hs He Hgeom Hcoords. unfold parse_jsons_data.
      rewrite !property_legacy_document, Hfirst, Hlast, Hfid, Hclim.
      cbn [answer_bind as_str]. rewrite Hs, He. cbn [answer_bind].
      unfold coordinates, legacy_document. cbn [getitem answer_bind].
      rewrite lookup_insert_eq.
      cbn [getindex lookup list_lookup answer_bind getitem].
      rewrite lookup_insert_ne by discriminate. rewrite Hgeom.
      cbn [answer_bind getitem]. rewrite Hcoords. reflexivity.
Qed.

(** *** [min] and [max] *)

Section Extents.
Hypothesis py_lt_trans :
  forall x y z : num, py_lt x y = true -> py_lt y z = true -> py_lt x z = true.

Lemma fold_min_spec (rest : list num) (cur : num) :
  let r := fold_left min_step rest cur in
  (r = cur \/ In r rest)
  /\ py_lt cur r = false
  /\ forall y, In y rest -> py_lt y r = false.
Proof.
  revert cur. induction rest as [| y rest IH]; intros cur; cbn zeta.
  - cbn. split; [auto |]. split; [apply py_lt_irrefl | intros ? []].
  - cbn [fold_left]. destruct (IH (min_step cur y)) as (Hin & Hcur & Hrest).
    set (r := fold_left min_step rest (min_step cur y)) in *.
    unfold min_step in Hin, Hcur. destruct (py_lt y cur) eqn:Hyc.
    + split; [destruct Hin as [-> | Hin]; right; [left | right]; auto |].
      split.
      * destruct (py_lt cur r) eqn:Hcr; [| reflexivity].
        rewrite (py_lt_trans y cur r Hyc Hcr) in Hcur. discriminate.
      * intros z [<- | Hz]; [exact Hcur | apply Hrest, Hz].
    + split; [destruct Hin as [-> | Hin]; [left | right; right]; auto |].
      split; [exact Hcur |].
      intros z [<- | Hz]; [| apply Hrest, Hz].
      destruct (py_lt y r) eqn:Hyr; [| reflexivity].
      destruct (py_lt r cur) eqn:Hrc.
      * rewrite (py_lt_trans y r cur Hyr Hrc) in Hyc. discriminate.
      * rewrite (py_lt_total cur r Hcur Hrc) in Hyc. congruence.
Qed.

Lemma fold_max_spec (rest : list num) (cur : num) :
  let r := fold_left max_step rest cur in
  (r = cur \/ In r rest)
  /\ py_lt r cur = false
  /\ forall y, In y rest -> py_lt r y = false.
Proof.
  revert cur. induction rest as [| y rest IH]; intros cur; cbn zeta.
  - cbn. split; [auto |]. split; [apply py_lt_irrefl | intros ? []].
  - cbn [fold_left]. destruct (IH (max_step cur y)) as (Hin & Hcur & Hrest).
    set (r := fold_left max_step rest (max_step cur y)) in *.
    unfold max_step in Hin, Hcur. destruct (py_lt cur y) eqn:Hcy.
    + split; [destruct Hin as [-> | Hin]; right; [left | right]; auto |].
      split.
      * destruct (py_lt r cur) eqn:Hrc; [| reflexivity].
        rewrite (py_lt_trans r cur y Hrc Hcy) in Hcur. discriminate.
      * intros z [<- | Hz]; [exact Hcur | apply Hrest, Hz].
    + split; [destruct Hin as [-> | Hin]; [left | right; right]; auto |].
      split; [exact Hcur |].
      intros z [<- | Hz]; [| apply Hrest, Hz].
      destruct (py_lt r y) eqn:Hry; [| reflexivity].
      destruct (py_lt cur r) eqn:Hcr.
      * rewrite (py_lt_trans cur r y Hcr Hry) in Hcy. discriminate.
      * rewrite (py_lt_total r cur Hcur Hcr) in Hry. congruence.
Qed.

(** For a transitive [<], what [min] returns is an element of the list
    that no element is below, what [max] returns is an element that no
    element is above; both raise [ValueError] on the empty list only.  So
    the two corners [parse_jsons] transforms span every point of the
    ring. *)
Theorem extents_bound (xs : list num) :
  (forall m, py_min xs = Ok m ->
             In m xs /\ forall x, In x xs -> py_lt x m = false)
  /\ (forall m, py_max xs = Ok m ->
                In m xs /\ forall x, In x xs -> py_lt m x = false)
  /\ (xs = [] <-> py_min xs = Raise ValueError)
  /\ (xs = [] <-> py_max xs = Raise ValueError).
Proof.
  destruct xs as [| x rest].
  - repeat split; try discriminate; reflexivity.
  - split; [| split; [| split; split; discriminate]].
    + intros m Hm. injection Hm as <-.
      destruct (fold_min_spec rest x) as (Hin & Hcur & Hrest).
      split; [destruct Hin as [-> | Hin]; [left | right]; auto |].
      intros y [<- | Hy]; [exact Hcur | apply Hrest, Hy].
    + intros m Hm. injection Hm as <-.
      destruct (fold_max_spec rest x) as (Hin & Hcur & Hrest).
      split; [destruct Hin as [-> | Hin]; [left | right]; auto |].
      intros y [<- | Hy]; [exact Hcur | apply Hrest, Hy].
Qed.

End Extents.

(** ** More on [parse_shp] and [main] *)

Lemma strptime_raises s e : strptime_ymd s = Raise e -> e = ValueError.
Proof.
  unfold strptime_ymd, datetime_new.
  repeat match goal with
         | |- context [match ?x with _ => _ end] => destruct x
         end; congruence.
Qed.

Lemma filter_first_match (fid : string) (before after : list fire_row) row :
  Forall (fun r => row_id r <> fid) before -> row_id row = fid ->
  existsb (has_id fid) (before ++ row :: after) = true
  /\ exists rest,
       List.filter (has_id fid) (before ++ row :: after) = row :: rest.
Proof.
  intros Hbefore Hrow.
  assert (Hhas : has_id fid row = true) by (apply String.eqb_eq; exact Hrow).
  induction Hbefore as [| r before Hr _ [IHe [rest IHf]]].
  - cbn. rewrite Hhas. split; [reflexivity | eauto].
  - cbn. assert (Hno : has_id fid r = false) by (apply String.eqb_neq; exact Hr).
    rewrite Hno. cbn. split; [exact IHe | eauto].
Qed.

(** [parse_shp] takes the first row of the shapefile whose id is the id
    asked for, whatever follows it: it returns the id as given, the two
    dates of that row parsed, and the geometry of that row; if one of the
    two dates of that row is a string of ASCII characters that is not a
    [%Y-%m-%d] date, a [ValueError] leaves [parse_shp] (nothing is
    printed, and [sys.exit] is not called). *)
Theorem parse_shp_first_match (w : world) (filename fid : string)
    (before after : list fire_row) (row : fire_row) past :
  w (ReadShapefile filename) past = Ok (before ++ row :: after) ->
  Forall (fun r => row_id r <> fid) before ->
  row_id row = fid ->
  let result := run w (parse_shp filename fid) past in
  snd result = past ++ [Asked (ReadShapefile filename)]
  /\ (forall start_date end_date,
        strptime_ymd (ig_date row) = Ok start_date ->
        strptime_ymd (last_date row) = Ok end_date ->
        fst result
        = Returned (fid, start_date, end_date, row_geometry row))
  /\ ((is_ascii (ig_date row) = true
       /\ exists e, strptime_ymd (ig_date row) = Raise e)
      \/ (is_ascii (last_date row) = true
          /\ exists e, strptime_ymd (last_date row) = Raise e) ->
      fst result = Raised ValueError).
Proof.
  intros Hread Hbefore Hrow result.
  destruct (filter_first_match fid before after row Hbefore Hrow)
    as [Hex [rest Hfilter]].
  assert (Hrun : result =
    match strptime_ymd (ig_date row), strptime_ymd (last_date row) with
    | Ok s, Ok e =>
        (Returned (fid, s, e, row_geometry row),
         past ++ [Asked (ReadShapefile filename)])
    | Ok _, Raise err | Raise err, _ =>
        (Raised err, past ++ [Asked (ReadShapefile filename)])
    end).
  { unfold result, parse_shp. cbn [bind call run]. rewrite Hread.
    cbn [bind]. rewrite Hex. cbn [negb bind]. rewrite Hfilter.
    destruct (strptime_ymd (ig_date row)); cbn [lift bind run];
      [| reflexivity].
    destruct (strptime_ymd (last_date row)); reflexivity. }
  rewrite Hrun. split; [| split].
  - destruct (strptime_ymd (ig_date row)), (strptime_ymd (last_date row));
      reflexivity.
  - intros s e -> ->. reflexivity.
  - intros [[_ [e He]] | [_ [e He]]].
    + rewrite He, (strptime_raises _ _ He). reflexivity.
    + rewrite He, (strptime_raises _ _ He).
      destruct (strptime_ymd (ig_date row)) as [s | e0] eqn:Hs;
        [reflexivity |].
      rewrite (strptime_raises _ _ Hs). reflexivity.
Qed.

Lemma datetime_add_raises d n e : datetime_add d n = Raise e -> e = OverflowError.
Proof.
  unfold datetime_add.
  destruct ((0 <? toordinal d + n) && (toordinal d + n <=? MAXORDINAL));
    congruence.
Qed.

Lemma minus_days_raises d n e : minus_days d n = Raise e -> e = OverflowError.
Proof.
  unfold minus_days, timedelta, datetime_sub.
  destruct (Z.abs n <=? 999999999); cbn [answer_bind];
    [apply datetime_add_raises | congruence].
Qed.

Lemma plus_days_raises d n e : plus_days d n = Raise e -> e = OverflowError.
Proof.
  unfold plus_days, timedelta.
  destruct (Z.abs n <=? 999999999); cbn [answer_bind];
    [apply datetime_add_raises | congruence].
Qed.

(** When the buffer takes the start or the end of the window out of the
    years 1 to 9999, the date arithmetic raises [OverflowError] and [main]
    ends there: the two opening lines are printed, no window line, and no
    provider is asked anything. *)
Theorem main_window_overflow (w : world) (event_id satellite fid : string)
    (start_date end_date : datetime) (footprint : geometry)
    (buffer : Z) past past' :
  run w (parse_shp events_file event_id) past
  = (Returned (fid, start_date, end_date, footprint), past') ->
  (satellite = "sentinel" /\ buffer = delta_days_sentinel config)
  \/ (satellite = "landsat" /\ buffer = delta_days_landsat config) ->
  (exists e, minus_days start_date buffer = Raise e)
  \/ (exists e, plus_days end_date buffer = Raise e) ->
  run w (main event_id satellite) past
  = (Raised OverflowError,
     past' ++ [Said (MsgSearchingFor satellite fid);
               Said (MsgSettings (download_scenes config)
                       (save_footprints config))]).
Proof.
  intros Hparsed Hsat Hover.
  assert (Hshift :
    forall k : datetime -> datetime -> prog value,
      run w (a <- lift (minus_days start_date buffer) ;;
             b <- lift (plus_days end_date buffer) ;; k a b)
        ((past' ++ [Said (MsgSearchingFor satellite fid)])
         ++ [Said (MsgSettings (download_scenes config)
                     (save_footprints config))])
      = (Raised OverflowError,
         past' ++ [Said (MsgSearchingFor satellite fid);
                   Said (MsgSettings (download_scenes config)
                           (save_footprints config))])).
  { intros k. rewrite <- app_assoc. cbn [app].
    destruct Hover as [[e He] | [e He]].
    - rewrite He, (minus_days_raises _ _ _ He). reflexivity.
    - destruct (minus_days start_date buffer) as [a | e0] eqn:Ha.
      + cbn [lift bind]. rewrite He, (plus_days_raises _ _ _ He). reflexivity.
      + rewrite (minus_days_raises _ _ _ Ha). reflexivity. }
  unfold main. fold events_file. rewrite run_bind, Hparsed.
  cbn beta iota. rewrite run_bind, run_print, run_bind, run_print.
  destruct Hsat as [[-> ->] | [-> ->]]; cbn [String.eqb Ascii.eqb Bool.eqb];
    apply Hshift.
Qed.

(** ** Dates written and read back *)

Definition no_dash (s : string) : bool :=
  forallb (fun c => negb (Ascii.eqb c "-")) (chars s).

Definition reads_as (field : string -> option Z) (s : string) (v : Z) : bool :=
  match field s with
  | Some u => u =? v
  | None => false
  end.

Definition pad4_ok (y : Z) : bool :=
  no_dash (pad4 y) && reads_as field_Y (pad4 y) y.

Definition pad2_ok (v : Z) : bool :=
  no_dash (pad2 v)
  && (if (1 <=? v) && (v <=? 12) then reads_as field_m (pad2 v) v else true)
  && (if (1 <=? v) && (v <=? 31) then reads_as field_d (pad2 v) v else true).

Lemma no_dash_spec s : no_dash s = true -> ~ In "-"%char (chars s).
Proof.
  unfold no_dash. intros Hall Hin.
  pose proof (proj1 (forallb_forall _ _) Hall _ Hin) as Hc.
  cbv in Hc. discriminate.
Qed.

Lemma reads_as_spec field s v : reads_as field s v = true -> field s = Some v.
Proof.
  unfold reads_as. destruct (field s) as [u |]; [| discriminate].
  intros Hu. apply Z.eqb_eq in Hu. congruence.
Qed.

Lemma pad4_table y : 0 <= y < 10000 -> pad4_ok y = true.
Proof.
  intros Hy.
  assert (Hall : all_below (Z.to_nat 10000) pad4_ok = true)
    by (vm_compute; reflexivity).
  apply (all_below_spec (Z.to_nat 10000) _ Hall). rewrite Z2Nat.id; lia.
Qed.

Lemma pad2_table v : 0 <= v < 100 -> pad2_ok v = true.
Proof.
  intros Hv.
  assert (Hall : all_below 100 pad2_ok = true) by (vm_compute; reflexivity).
  apply (all_below_spec 100 _ Hall). lia.
Qed.

(** A date with a four-digit year, written with [strftime('%Y-%m-%d')] as
    [get_landsat] does for the search and read with
    [strptime(_, '%Y-%m-%d')] as [parse_shp] does, is the same date again.
    (Below the year 1000 the width [%Y] is written with depends on the
    platform.) *)
Theorem strptime_strftime (d : datetime) :
  valid d = true ->
  1000 <= year d ->
  strptime_ymd (strftime_ymd d) = Ok d.
Proof.
  intros Hvalid Hyear. destruct d as [y m dd]. cbn [year] in Hyear.
  pose proof Hvalid as Hv. unfold valid in Hv. cbn [year month day] in Hv.
  apply valid_ymd_spec in Hv as (Hy & Hm & Hd).
  assert (Hd31 : dd <= 31).
  { unfold days_in_month in Hd. destruct ((m =? 2) && is_leap y); [lia |].
    each_month m Hm; calc_tables; lia. }
  pose proof (pad4_table y ltac:(lia)) as H4.
  pose proof (pad2_table m ltac:(lia)) as H2m.
  pose proof (pad2_table dd ltac:(lia)) as H2d.
  unfold pad4_ok in H4. apply andb_prop in H4 as [Hn4 Hr4].
  unfold pad2_ok in H2m, H2d.
  apply andb_prop in H2m as [H2m _]. apply andb_prop in H2m as [Hnm Hrm].
  apply andb_prop in H2d as [H2d Hrd]. apply andb_prop in H2d as [Hnd _].
  replace ((1 <=? m) && (m <=? 12)) with true in Hrm
    by (symmetry; apply andb_true_intro; split; apply Z.leb_le; lia).
  replace ((1 <=? dd) && (dd <=? 31)) with true in Hrd
    by (symmetry; apply andb_true_intro; split; apply Z.leb_le; lia).
  apply reads_as_spec in Hr4, Hrm, Hrd.
  unfold strptime_ymd, strftime_ymd. cbn [year month day].
  rewrite !append_cons, !append_nil.
  rewrite split_on_app by (apply no_dash_spec, Hn4).
  rewrite split_on_app by (apply no_dash_spec, Hnm).
  rewrite split_on_plain by (apply no_dash_spec, Hnd).
  rewrite Hr4, Hrm, Hrd. unfold datetime_new.
  unfold valid in Hvalid. cbn [year month day] in Hvalid. rewrite Hvalid.
  reflexivity.
Qed.

(** ** More on the footprint helpers *)

Lemma ring_bounds_rectangle_flipped (x0 y0 x1 y1 : num) :
  py_lt x1 x0 = false -> py_lt y1 y0 = false ->
  ring_bounds [(x0, y0); (x0, y1); (x1, y1); (x1, y0); (x0, y0)]
  = Ok (x0, y0, x1, y1).
Proof.
  intros Hx Hy. unfold ring_bounds.
  cbn [map fst snd py_min py_max answer_bind fold_left].
  assert (Hmin : forall a b : num, py_lt b a = false ->
            min_step a b = a /\ min_step b a = a /\ max_step a b = b
            /\ max_step b a = b /\ min_step a a = a /\ max_step a a = a
            /\ min_step b b = b /\ max_step b b = b).
  { intros a b Hba. unfold min_step, max_step.
    rewrite Hba, (py_lt_irrefl a), (py_lt_irrefl b).
    destruct (py_lt a b) eqn:Hab; [repeat split; reflexivity |].
    rewrite (py_lt_total a b Hab Hba). repeat split; reflexivity. }
  destruct (Hmin x0 x1 Hx) as (X1 & X2 & X3 & X4 & X5 & X6 & X7 & X8).
  destruct (Hmin y0 y1 Hy) as (Y1 & Y2 & Y3 & Y4 & Y5 & Y6 & Y7 & Y8).
  repeat (rewrite ?X1, ?X2, ?X3, ?X4, ?X5, ?X6, ?X7, ?X8,
            ?Y1, ?Y2, ?Y3, ?Y4, ?Y5, ?Y6, ?Y7, ?Y8). reflexivity.
Qed.

(** [get_footprint_poly] does not look at the order of its bounds: given
    them inverted ([minlon > maxlon] and [minlat > maxlat]) it still writes
    a closed five-vertex polygon, whose bounds are the arguments put back
    in order, whereas [get_bbox] hands the inverted tuple on as it is. *)
Theorem footprint_poly_inverted_bounds (minlon minlat maxlon maxlat : num) :
  py_lt maxlon minlon = true ->
  py_lt maxlat minlat = true ->
  exists r,
    parse_wkt_polygon (get_footprint_poly minlon minlat maxlon maxlat)
    = Some r
    /\ length r = 5%nat
    /\ ring_closed r
    /\ ring_bounds r = Ok (maxlon, maxlat, minlon, minlat)
    /\ ring_bounds r <> Ok (get_bbox minlon minlat maxlon maxlat).
Proof.
  intros Hlon Hlat.
  destruct (parse_footprint_poly minlon minlat maxlon maxlat)
    as [r [Hparse Hr]].
  exists r. split; [exact Hparse |]. subst r.
  split; [reflexivity |]. split; [eexists; split; reflexivity |].
  assert (Hb : ring_bounds
                 [(maxlon, maxlat); (maxlon, minlat); (minlon, minlat);
                  (minlon, maxlat); (maxlon, maxlat)]
               = Ok (maxlon, maxlat, minlon, minlat)).
  { apply ring_bounds_rectangle_flipped; apply py_lt_asym; assumption. }
  split; [exact Hb |]. rewrite Hb. unfold get_bbox. intros Heq.
  inversion Heq; subst. rewrite py_lt_irrefl in Hlon. discriminate.
Qed.

(** The text [get_footprint_poly] writes determines the four bounds: two
    calls that give the same text were given the same bounds. *)
Theorem footprint_poly_injective
    (minlon minlat maxlon maxlat minlon' minlat' maxlon' maxlat' : num) :
  get_footprint_poly minlon minlat maxlon maxlat
  = get_footprint_poly minlon' minlat' maxlon' maxlat' ->
  (minlon, minlat, maxlon, maxlat) = (minlon', minlat', maxlon', maxlat').
Proof.
  intros Htext.
  destruct (parse_footprint_poly minlon minlat maxlon maxlat)
    as [r [Hparse Hr]].
  destruct (parse_footprint_poly minlon' minlat' maxlon' maxlat')
    as [r' [Hparse' Hr']].
  rewrite Htext, Hparse' in Hparse. injection Hparse as Heq.
  rewrite Hr, Hr' in Heq. inversion Heq. reflexivity.
Qed.

End OpticalScenes.

Arguments Ret {num geometry A} a.
Arguments Throw {num geometry A} e.
Arguments SysExit {num geometry A} arg.
Arguments Do {num geometry A} ev k.
Arguments Ask {num geometry A} r k.

(** ** Python's [int] as a number type *)

Definition int_str (z : Z) : string := NilZero.string_of_int (Z.to_int z).

Definition int_parse (s : string) : option Z :=
  option_map Z.of_int (NilZero.int_of_string s).

Definition plain_char (c : ascii) : Prop :=
  c <> ","%char /\ c <> " "%char /\ c <> ")"%char.

Lemma uint_chars_plain (d : Decimal.uint) c :
  In c (list_ascii_of_string (NilEmpty.string_of_uint d)) -> plain_char c.
Proof.
  induction d as [| d IH | d IH | d IH | d IH | d IH | d IH | d IH | d IH
                  | d IH | d IH]; cbn [NilEmpty.string_of_uint list_ascii_of_string In];
    try (intros [<- | Hin]; [repeat split; discriminate | exact (IH Hin)]).
  intros [].
Qed.

Lemma int_str_plain (z : Z) c :
  In c (list_ascii_of_string (int_str z)) -> plain_char c.
Proof.
  unfold int_str, NilZero.string_of_int, NilZero.string_of_uint.
  destruct (Z.to_int z) as [d | d]; destruct d;
    cbn [list_ascii_of_string In];
    repeat match goal with
           | |- _ \/ _ -> _ => intros [<- | Hin]; [repeat split; discriminate |]; revert Hin
           | |- False -> _ => intros []
           end;
    try (apply uint_chars_plain);
    try (intros Hin; eapply uint_chars_plain with (d := _); exact Hin).
Qed.

Lemma int_parse_str (z : Z) : int_parse (int_str z) = Some z.
Proof.
  unfold int_parse, int_str. rewrite NilZero.isi.
  - cbn [option_map]. rewrite DecimalZ.of_to. reflexivity.
  - destruct z as [| p | p]; cbn; try discriminate.
    intros Hp. injection Hp. apply Unsigned.to_uint_nonnil.
  - destruct z as [| p | p]; cbn; try discriminate.
    intros Hp. injection Hp. apply Unsigned.to_uint_nonnil.
Qed.

Lemma int_lt_irrefl (x : Z) : (x <? x) = false.
Proof. apply Z.ltb_irrefl. Qed.

Lemma int_lt_asym (x y : Z) : (x <? y) = true -> (y <? x) = false.
Proof. intros Hlt. apply Z.ltb_lt in Hlt. apply Z.ltb_ge. lia. Qed.

Lemma int_lt_total (x y : Z) : (x <? y) = false -> (y <? x) = false -> x = y.
Proof. intros H1 H2. apply Z.ltb_ge in H1, H2. lia. Qed.

Lemma int_sub_le_add (x d : Z) : (0 <? d) = true -> (x + d <? x - d) = false.
Proof. intros Hd. apply Z.ltb_lt in Hd. apply Z.ltb_ge. lia. Qed.

#[export] Instance int_number : Number Z := {|
  py_add := Z.add;
  py_sub := Z.sub;
  py_lt := Z.ltb;
  py_zero := 0;
  py_str := int_str;
  py_parse := int_parse;
  py_lt_irrefl := int_lt_irrefl;
  py_lt_asym := int_lt_asym;
  py_lt_total := int_lt_total;
  py_sub_le_add := int_sub_le_add;
  py_str_plain := int_str_plain;
  py_parse_str := int_parse_str
|}.

(** ** A concrete setting: integer coordinates, boxes for geometries *)

Definition box4 : Type := (Z * Z * Z * Z)%type.

Definition box_wkt (b : box4) : string :=
  let '(x0, y0, x1, y1) := b in Footprint.get_footprint_poly x0 y0 x1 y1.

Definition box_geo_interface (b : box4) : json Z :=
  let '(x0, y0, x1, y1) := b in JArr [JNum x0; JNum y0; JNum x1; JNum y1].

Definition swap_axes (x y : Z) : Z * Z := (y, x).

Definition sample_config : @Config Z := {|
  username_sentinel := "user";
  password_sentinel := "secret";
  username_landsat := "user";
  password_landsat := "secret";
  data_dir := "/data";
  max_cloud_cover := 20;
  download_scenes := true;
  save_footprints := true;
  update_json := false;
  delta_days_sentinel := 10;
  delta_days_landsat := 10;
  producttype_sentinel := "S2MSI2A"
|}.

Definition sample_odata : odata := {|
  od_title := "";
  od_date := mk_datetime 2020 6 1;
  od_ingestion_date := mk_datetime 2020 6 1;
  od_url := "";
  od_quicklook_url := "";
  od_footprint := ""
|}.

Definition sample_scene : @scene Z box4 := {|
  display_id := "LC08_L1TP_227072_20200624_20200823_02_T1";
  landsat_product_id := "LC08_L1TP_227072_20200624_20200823_02_T1";
  acquisition_date := mk_datetime 2020 6 24;
  date_product_generated := mk_datetime 2020 8 23;
  data_type := "L1TP";
  spatial_bounds := (1, 2, 3, 4);
  spatial_coverage := (1, 2, 3, 4);
  temporal_coverage := [mk_datetime 2020 6 24; mk_datetime 2020 6 24];
  land_cloud_cover := 3;
  scene_cloud_cover := 5
|}.

Definition sample_row (ig last : string) : @fire_row box4 := {|
  row_id := "42";
  ig_date := ig;
  last_date := last;
  row_geometry := (1, 2, 3, 4)
|}.

(** An answer without an exception for every request: nothing found,
    nothing on disk. *)
Definition quiet_reply (r : @request Z box4) : reply r :=
  match r as r' return reply r' with
  | SentinelQuery _ _ _ _ _ => []
  | SentinelToGeodataframe found => SentinelFrame found
  | SentinelProductOdata _ => sample_odata
  | LandsatSearch _ _ _ _ _ => []
  | PathExists _ => false
  | JsonLoad _ => JNull
  | ReadShapefile _ => []
  | SentinelDownload _ _ => tt
  | SentinelDownloadAll _ _ => tt
  | LandsatLogin _ _ => tt
  | LandsatLogout => tt
  | EarthExplorerLogin _ _ => tt
  | EarthExplorerDownload _ _ => tt
  | EarthExplorerLogout => tt
  | Mkdir _ => tt
  | GdfToFile _ _ _ => tt
  | JsonDump _ _ => tt
  end.

Definition quiet_world : @world Z box4 := fun r _ => Ok (quiet_reply r).

(** Every single-product download is answered by the triggered signal. *)
Definition always_triggered : @world Z box4 := fun r past =>
  match r as r' return answer (reply r') with
  | SentinelDownload _ _ => Raise LTATriggered
  | r' => Ok (quiet_reply r')
  end.

(** The first two downloads are answered by the triggered signal, the
    later ones succeed. *)
Definition triggered_twice : @world Z box4 := fun r past =>
  match r as r' return answer (reply r') with
  | SentinelDownload _ _ =>
      if (attempts past <? 2)%nat then Raise LTATriggered else Ok tt
  | r' => Ok (quiet_reply r')
  end.

(** The shapefile has one event, "42"; the Landsat catalog has one scene. *)
Definition one_event (ig last : string) : @world Z box4 := fun r past =>
  match r as r' return answer (reply r') with
  | ReadShapefile _ => Ok [sample_row ig last]
  | LandsatSearch _ _ _ _ _ => Ok [sample_scene]
  | r' => Ok (quiet_reply r')
  end.

Definition sample_main : string -> string -> @prog Z box4 value :=
  main (fun g : box4 => g) (fun b : box4 => b) box_wkt box_geo_interface
    sample_config.

(** ** The claims at concrete inputs *)

(** C1 fails as stated: with event "42" in the shapefile and the satellite
    "modis", [main] leaves through [sys.exit()] and the exit status is 0,
    not a non-zero one; the same holds for an event id that is not in the
    shapefile. *)
Lemma unknown_satellite_exit_status :
  let by_satellite :=
    run (one_event "2020-06-01" "2020-06-10") (sample_main "42" "modis") [] in
  let by_event :=
    run (one_event "2020-06-01" "2020-06-10") (sample_main "7" "sentinel") [] in
  (fst by_satellite = Exited None
   /\ last (snd by_satellite) = Some (Said MsgWrongSatellite)
   /\ ~ exit_status (fst by_satellite) <> 0)
  /\ (fst by_event = Exited None
      /\ last (snd by_event) = Some (Said MsgInvalidFireID)
      /\ ~ exit_status (fst by_event) <> 0).
Proof.
  vm_compute. repeat split; try reflexivity; intros Hne; apply Hne; reflexivity.
Qed.

Lemma invalid_input_exits_with_status_zero_witness :
  run (one_event "2020-06-01" "2020-06-10") (sample_main "7" "landsat") []
  = (Exited None,
     [Asked (ReadShapefile "/data/Fire_events/selected_events.shp");
      Said MsgInvalidFireID])
  /\ exit_status
       (fst (run (one_event "2020-06-01" "2020-06-10")
               (sample_main "42" "modis") [])) = 0.
Proof.
  pose proof (invalid_input_exits_with_status_zero
                (fun g : box4 => g) (fun b : box4 => b) box_wkt
                box_geo_interface sample_config
                (one_event "2020-06-01" "2020-06-10") [])
    as (_ & Hevent & Hsatellite).
  split.
  - apply (Hevent "7" "landsat" [sample_row "2020-06-01" "2020-06-10"]);
      reflexivity.
  - eapply (Hsatellite "42" "modis"); [discriminate | discriminate |].
    vm_compute. reflexivity.
Defined.

(** C2 fails as stated: [get_sentinel], here on the path where the query
    finds nothing, returns without any session having been closed. *)
Lemma sentinel_returns_without_logout :
  let result :=
    run quiet_world
      (get_sentinel sample_config "42" "polygon((3 4,3 2,1 2,1 4,3 4))"
         (mk_datetime 2020 5 22) (mk_datetime 2020 6 20) "json_file_name"
         "S2MSI2A" "Sentinel-2") [] in
  fst result = Returned VNone /\ existsb is_logout (snd result) = false.
Proof. vm_compute. split; reflexivity. Qed.

Lemma session_release_witness :
  exists before,
    snd (run (one_event "2020-06-01" "2020-06-10")
           (get_landsat box_geo_interface sample_config "42" (1, 2, 3, 4)
              (mk_datetime 2020 5 22) (mk_datetime 2020 6 20)
              "json_file_name" "Landsat-8") [])
    = before ++ [Asked LandsatLogout].
Proof.
  destruct (session_release box_geo_interface sample_config
              (one_event "2020-06-01" "2020-06-10") "42"
              (mk_datetime 2020 5 22) (mk_datetime 2020 6 20)
              "json_file_name" []) as [Hlandsat _].
  destruct (Hlandsat (1, 2, 3, 4) "Landsat-8" VNone
              (snd (run (one_event "2020-06-01" "2020-06-10")
                      (get_landsat box_geo_interface sample_config "42"
                         (1, 2, 3, 4) (mk_datetime 2020 5 22)
                         (mk_datetime 2020 6 20) "json_file_name"
                         "Landsat-8") [])))
    as [before Hbefore]; [vm_compute; reflexivity |].
  exists before. exact Hbefore.
Defined.

(** C3 fails as stated: after three triggered downloads the helper returns
    [None], not the boolean [False]. *)
Lemma exhausted_retries_return_none :
  let result :=
    run always_triggered (download_product "p" "/data/out" 3 120) [] in
  attempts (snd result) = 3%nat
  /\ fst result = Returned VNone
  /\ fst result <> Returned (VBool false).
Proof. vm_compute. repeat split; discriminate. Qed.

Lemma download_product_exhausts_retries_witness :
  run always_triggered (download_product "p" "/data/out" 3 120) []
  = (Returned VNone,
     [Asked (SentinelDownload "p" "/data/out");
      Said (MsgNotAvailable "p" 120); Slept 120;
      Asked (SentinelDownload "p" "/data/out");
      Said (MsgNotAvailable "p" 120); Slept 120;
      Asked (SentinelDownload "p" "/data/out");
      Said (MsgNotAvailable "p" 120); Slept 120;
      Said (MsgDownloadFailed "p" 3)]).
Proof.
  apply (download_product_exhausts_retries always_triggered "p" "/data/out"
           120 []); [unfold sleep_max; lia | reflexivity].
Defined.

Lemma download_product_third_attempt_witness :
  run triggered_twice (download_product "p" "/data/out" 10 120) []
  = (Returned VNone,
     [Asked (SentinelDownload "p" "/data/out");
      Said (MsgNotAvailable "p" 120); Slept 120;
      Asked (SentinelDownload "p" "/data/out");
      Said (MsgNotAvailable "p" 120); Slept 120;
      Asked (SentinelDownload "p" "/data/out");
      Said (MsgDownloadOk "p")]).
Proof.
  apply (download_product_third_attempt triggered_twice "p" "/data/out"
           120 []); [unfold sleep_max; lia | reflexivity | |].
  - intros past' Hlt. unfold triggered_twice.
    apply Nat.ltb_lt in Hlt. rewrite Hlt. reflexivity.
  - intros past' Heq. unfold triggered_twice. rewrite Heq. reflexivity.
Defined.

Lemma adapters_without_scenes_witness :
  (exists new,
     run quiet_world
       (get_sentinel sample_config "42" "polygon((3 4,3 2,1 2,1 4,3 4))"
          (mk_datetime 2020 5 22) (mk_datetime 2020 6 20) "json_file_name"
          "S2MSI2A" "Sentinel-2") []
     = (Returned VNone, [] ++ new)
     /\ In (Said (MsgNoSentinelScenes "42")) new
     /\ Forall (fun ev => is_write ev = false) new)
  /\ (exists new,
        run quiet_world
          (get_landsat box_geo_interface sample_config "42" (1, 2, 3, 4)
             (mk_datetime 2020 5 22) (mk_datetime 2020 6 20)
             "json_file_name" "Landsat-8") []
        = (Returned VNone, [] ++ new)
        /\ In (Said (MsgNoLandsatScenes "42")) new
        /\ Forall (fun ev => is_write ev = false) new).
Proof.
  destruct (adapters_without_scenes box_geo_interface sample_config
              quiet_world "42" (mk_datetime 2020 5 22)
              (mk_datetime 2020 6 20) "json_file_name" [])
    as [Hsentinel Hlandsat].
  split.
  - apply Hsentinel. reflexivity.
  - apply Hlandsat; reflexivity.
Defined.

(** C6 fails as stated: the script takes the two dates of the row as they
    are, so a row whose [ig_date] is after its [last_date] gives a window
    around native dates that are not in order. *)
Lemma window_around_unordered_dates :
  let w := one_event "2020-06-10" "2020-06-01" in
  fst (run w (parse_shp (events_file sample_config) "42") [])
  = Returned ("42", mk_datetime 2020 6 10, mk_datetime 2020 6 1, (1, 2, 3, 4))
  /\ In (Asked (SentinelQuery "polygon((3 4,3 2,1 2,1 4,3 4))"
                  (mk_datetime 2020 5 31, mk_datetime 2020 6 11)
                  (0, 20) "S2MSI2A" "Sentinel-2"))
        (snd (run w (sample_main "42" "sentinel") []))
  /\ ~ (datetime_le (mk_datetime 2020 5 31) (mk_datetime 2020 6 10) = true
        /\ datetime_le (mk_datetime 2020 6 10) (mk_datetime 2020 6 1) = true
        /\ datetime_le (mk_datetime 2020 6 1) (mk_datetime 2020 6 11) = true).
Proof.
  split; [vm_compute; reflexivity |]. split.
  - vm_compute. auto 10.
  - intros (_ & Hmid & _). vm_compute in Hmid. discriminate.
Qed.

Lemma date_window_witness :
  run (one_event "2020-06-01" "2020-06-10") (sample_main "42" "sentinel") []
  = run (one_event "2020-06-01" "2020-06-10")
      (bind
         (get_sentinel sample_config "42" (box_wkt (1, 2, 3, 4))
            (mk_datetime 2020 5 22) (mk_datetime 2020 6 20)
            "json_file_name" "S2MSI2A" "Sentinel-2")
         (fun _ => Ret VNone))
      ([Asked (ReadShapefile "/data/Fire_events/selected_events.shp")]
       ++ [Said (MsgSearchingFor "sentinel" "42");
           Said (MsgSettings true true);
           Said (MsgWindow (mk_datetime 2020 5 22) (mk_datetime 2020 6 20))])
  /\ datetime_le (mk_datetime 2020 5 22) (mk_datetime 2020 6 1) = true
  /\ datetime_le (mk_datetime 2020 6 10) (mk_datetime 2020 6 20) = true.
Proof.
  destruct (date_window (fun g : box4 => g) (fun b : box4 => b) box_wkt
              box_geo_interface sample_config
              (one_event "2020-06-01" "2020-06-10") "42" "42"
              (mk_datetime 2020 6 1) (mk_datetime 2020 6 10) (1, 2, 3, 4) []
              [Asked (ReadShapefile "/data/Fire_events/selected_events.shp")]
              eq_refl) as (Hsentinel & _ & _).
  destruct (Hsentinel (mk_datetime 2020 5 22) (mk_datetime 2020 6 20)
              eq_refl eq_refl) as (Hrun & _ & _ & Hle).
  split; [exact Hrun |]. apply Hle. cbn. lia.
Defined.

(** A stand-in for the writer of the text. *)
Definition first_ring_wkt (g : Footprint.geojson (num := Z)) : string :=
  match Footprint.gj_coordinates g with
  | r :: _ => Footprint.wkt_of_ring r
  | [] => ""
  end.

(** sentinelsat's [geojson_to_wkt] on integer coordinates, as far as it
    decides between a text and an exception: its [check_bounds] raises
    [ValueError] for a longitude above 180 or below -180 and for a
    latitude above 90 or below -90; otherwise the text is the one geomet's
    [wkt.dumps] writes, taken as given ([dumps]). *)
Definition out_of_bounds (v : Z * Z) : bool :=
  (180 <? fst v) || (fst v <? -180) || (90 <? snd v) || (snd v <? -90).

Definition geojson_to_wkt (dumps : Footprint.geojson (num := Z) -> string)
    (g : Footprint.geojson (num := Z)) : answer string :=
  if existsb (existsb out_of_bounds) (Footprint.gj_coordinates g)
  then Raise ValueError
  else Ok (dumps g).

(** C7 fails as stated: at latitude 89 with [delta_lat = 2] two vertices of
    the ring have latitude 91, [geojson_to_wkt] raises [ValueError], and
    [get_footprint_point] produces no polygon at all. *)
Lemma footprint_point_out_of_bounds :
  Footprint.get_footprint_point (geojson_to_wkt first_ring_wkt) 89 0 2 1
  = Raise ValueError.
Proof. reflexivity. Qed.

Lemma footprint_point_ring_witness :
  exists r : Footprint.ring,
    Footprint.get_footprint_point (geojson_to_wkt first_ring_wkt) 30 (-90) 2 1
    = geojson_to_wkt first_ring_wkt (Footprint.GeoJSON "Polygon" [r])
    /\ length r = 5%nat
    /\ Footprint.ring_closed r
    /\ Footprint.ring_bounds r = Ok (-91, 28, -89, 32).
Proof.
  exact (footprint_point_ring (geojson_to_wkt first_ring_wkt) 30 (-90) 2 1
           eq_refl eq_refl).
Defined.

Lemma footprint_poly_matches_bbox_witness :
  Footprint.get_bbox (-91) 28 (-89) 32 = (-91, 28, -89, 32)
  /\ exists r,
       Footprint.parse_wkt_polygon
         (Footprint.get_footprint_poly (-91) 28 (-89) 32) = Some r
       /\ Footprint.rectangle_ring (Footprint.get_bbox (-91) 28 (-89) 32) r
       /\ r = [(-89, 32); (-89, 28); (-91, 28); (-91, 32); (-89, 32)]
       /\ Footprint.ring_bounds r = Ok (Footprint.get_bbox (-91) 28 (-89) 32).
Proof.
  exact (footprint_poly_matches_bbox (-91) 28 (-89) 32 eq_refl eq_refl).
Defined.

Example footprint_poly_text :
  Footprint.get_footprint_poly (-91) 28 (-89) 32
  = "polygon((-89 32,-89 28,-91 28,-91 32,-89 32))".
Proof. reflexivity. Qed.

(** A legacy document with the four fields of the interface and nothing
    else in its properties. *)
Definition legacy_properties : gmap string (json Z) :=
  <["first_date_7" := JStr "2020-06-01"]>
    (<["last_date_7" := JStr "2020-06-10"]> (<["fid" := JNum 7]> ∅)).

Definition legacy_feature : gmap string (json Z) :=
  <["geometry" :=
      JObj (<["coordinates" :=
               JArr [JArr [JArr [JArr [JNum 1; JNum 2];
                                 JArr [JNum 3; JNum 4];
                                 JArr [JNum 1; JNum 4]]]]]> ∅)]> ∅.

Lemma legacy_properties_lookup :
  legacy_properties !! "first_date_7" = Some (JStr "2020-06-01")
  /\ legacy_properties !! "last_date_7" = Some (JStr "2020-06-10")
  /\ legacy_properties !! "fid" = Some (JNum 7)
  /\ legacy_properties !! "main_clim" = None.
Proof.
  unfold legacy_properties. split; [| split; [| split]].
  - apply lookup_insert_eq.
  - rewrite lookup_insert_ne by discriminate. apply lookup_insert_eq.
  - rewrite !lookup_insert_ne by discriminate. apply lookup_insert_eq.
  - rewrite !lookup_insert_ne by discriminate. apply lookup_empty.
Defined.

Lemma parse_jsons_needs_main_clim_witness :
  parse_jsons_data swap_axes
    (legacy_document ∅ legacy_feature [] legacy_properties)
  = Raise (KeyError "main_clim").
Proof.
  destruct legacy_properties_lookup as (Hfirst & Hlast & Hfid & Hclim).
  destruct (parse_jsons_needs_main_clim (geometry := box4) swap_axes
              quiet_world "event.json" ∅ legacy_feature [] legacy_properties []
              (ex_intro _ _ Hfirst) (ex_intro _ _ Hlast) (ex_intro _ _ Hfid)
              Hclim) as (_ & Hdata & _).
  exact Hdata.
Defined.

(** With [main_clim] added, the same document gives the event tuple. *)
Example parse_jsons_with_main_clim :
  parse_jsons_data swap_axes
    (legacy_document ∅ legacy_feature []
       (<["main_clim" := JStr "arid"]> legacy_properties))
  = Ok (JNum 7, mk_datetime 2020 6 1, mk_datetime 2020 6 10, 2, 1, 4, 3).
Proof.
  destruct legacy_properties_lookup as (Hfirst & Hlast & Hfid & _).
  unfold parse_jsons_data. rewrite !property_legacy_document.
  rewrite lookup_insert_eq. rewrite !lookup_insert_ne by discriminate.
  rewrite Hfirst, Hlast, Hfid.
  unfold coordinates, legacy_document, legacy_feature.
  cbn [getitem answer_bind]. rewrite lookup_insert_eq.
  cbn [getindex answer_bind lookup list_lookup getitem].
  rewrite lookup_insert_ne by discriminate. rewrite lookup_insert_eq.
  cbn [getitem answer_bind]. rewrite lookup_insert_eq.
  reflexivity.
Qed.

(** ** More concrete runs *)

Definition config_with (save download update : bool) : @Config Z := {|
  username_sentinel := "user";
  password_sentinel := "secret";
  username_landsat := "user";
  password_landsat := "secret";
  data_dir := "/data";
  max_cloud_cover := 20;
  download_scenes := download;
  save_footprints := save;
  update_json := update;
  delta_days_sentinel := 10;
  delta_days_landsat := 10;
  producttype_sentinel := "S2MSI2A"
|}.

(** A world set up from what is on disk and in the catalogs, and from the
    answer every download gets. *)
Definition staged_world (dirs_there : bool) (found : @products Z)
    (scenes : list (@scene Z box4)) (document : json Z)
    (rows : list (@fire_row box4)) (download : answer unit)
  : @world Z box4 := fun r past =>
  match r as r' return answer (reply r') with
  | SentinelQuery _ _ _ _ _ => Ok found
  | LandsatSearch _ _ _ _ _ => Ok scenes
  | PathExists _ => Ok dirs_there
  | JsonLoad _ => Ok document
  | ReadShapefile _ => Ok rows
  | SentinelDownload _ _ => download
  | EarthExplorerDownload _ _ => download
  | r' => Ok (quiet_reply r')
  end.

Definition two_products : @products Z := [("uuid-1", JNull); ("uuid-2", JNull)].

Definition second_scene : @scene Z box4 := {|
  display_id := "LC08_L1TP_227072_20210219_20210219_02_T1";
  landsat_product_id := "LC08_L1TP_227072_20210219_20210219_02_T1";
  acquisition_date := mk_datetime 2021 2 19;
  date_product_generated := mk_datetime 2021 2 19;
  data_type := "L1TP";
  spatial_bounds := (1, 2, 3, 4);
  spatial_coverage := (1, 2, 3, 4);
  temporal_coverage := [mk_datetime 2021 2 19; mk_datetime 2021 2 19];
  land_cloud_cover := 1;
  scene_cloud_cover := 2
|}.

Lemma download_product_other_exception_witness :
  run (staged_world true [] [] JNull [] (Raise (OSError "connection reset")))
    (download_product "p" "/data/out" 10 120) []
  = (Raised (OSError "connection reset"),
     [Asked (SentinelDownload "p" "/data/out")]).
Proof.
  apply (download_product_other_exception
           (staged_world true [] [] JNull []
              (Raise (OSError "connection reset")))
           "p" "/data/out" 10 120 (OSError "connection reset") []);
    [lia | reflexivity | reflexivity].
Defined.

Lemma download_product_without_retries_witness :
  run quiet_world (download_product "p" "/data/out" 0 120) []
  = (Returned VNone, [Said (MsgDownloadFailed "p" 0)]).
Proof.
  apply (download_product_without_retries quiet_world "p" "/data/out" 0 120 []).
  lia.
Defined.

Lemma download_product_succeeds_after_witness :
  attempts (snd (run triggered_twice (download_product "p" "/data/out" 5 60) []))
  = 3%nat.
Proof.
  refine (proj1 (proj2 (download_product_succeeds_after triggered_twice "p"
                          "/data/out" 5 60 2 [] _ _ _ _ _))).
  - unfold sleep_max. lia.
  - lia.
  - reflexivity.
  - intros past' Hlt. unfold triggered_twice.
    apply Nat.ltb_lt in Hlt. rewrite Hlt. reflexivity.
  - intros past' Heq. unfold triggered_twice. rewrite Heq. reflexivity.
Defined.

Lemma get_sentinel_makes_directories_witness :
  run (staged_world false two_products [] JNull [] (Ok tt))
    (get_sentinel (config_with false false false) "42"
       "polygon((3 4,3 2,1 2,1 4,3 4))" (mk_datetime 2020 5 22)
       (mk_datetime 2020 6 20) "json_file_name" "S2MSI2A" "Sentinel-2") []
  = (Returned VNone,
     [Said (MsgSearchingSentinel "42");
      Asked (SentinelQuery "polygon((3 4,3 2,1 2,1 4,3 4))"
               (mk_datetime 2020 5 22, mk_datetime 2020 6 20) (0, 20)
               "S2MSI2A" "Sentinel-2");
      Said (MsgSentinelFound 2 "42");
      Asked (PathExists "/data/Fire_events/42");
      Asked (Mkdir "/data/Fire_events/42");
      Asked (PathExists "/data/Fire_events/42/Sentinel");
      Asked (Mkdir "/data/Fire_events/42/Sentinel")]).
Proof.
  unshelve epose proof
    (get_sentinel_makes_directories (geometry := box4)
       (config_with false false false)
       (staged_world false two_products [] JNull [] (Ok tt))
       "42" "polygon((3 4,3 2,1 2,1 4,3 4))" (mk_datetime 2020 5 22)
       (mk_datetime 2020 6 20) "json_file_name" "S2MSI2A" "Sentinel-2"
       two_products false false [] _ _ _ _ _ _ _ _) as Hrun.
  all: lazymatch goal with H : _ |- _ => exact H | |- _ => idtac end.
  all: try reflexivity; discriminate.
Defined.

Lemma get_landsat_downloads_every_scene_witness :
  exists trace,
    run (staged_world true [] [sample_scene; second_scene] JNull [] (Ok tt))
      (get_landsat box_geo_interface (config_with false true false) "42"
         (1, 2, 3, 4) (mk_datetime 2020 5 22) (mk_datetime 2020 6 20)
         "json_file_name" "Landsat-8") []
    = (Returned VNone, trace)
    /\ List.filter is_write trace
       = [Asked (EarthExplorerDownload
                   "LC08_L1TP_227072_20200624_20200823_02_T1"
                   "/data/Fire_events/42/Landsat");
          Asked (EarthExplorerDownload
                   "LC08_L1TP_227072_20210219_20210219_02_T1"
                   "/data/Fire_events/42/Landsat")].
Proof.
  unshelve epose proof
    (get_landsat_downloads_every_scene box_geo_interface
       (config_with false true false)
       (staged_world true [] [sample_scene; second_scene] JNull [] (Ok tt))
       "42" (1, 2, 3, 4) (mk_datetime 2020 5 22) (mk_datetime 2020 6 20)
       "json_file_name" "Landsat-8" [sample_scene; second_scene] []
       _ _ _ _ _ _ _ _) as Hrun.
  all: lazymatch goal with
       | H : _ |- _ => eexists; split; [exact H | reflexivity]
       | |- _ => idtac
       end.
  all: try reflexivity; try discriminate.
  repeat split.
Defined.

Lemma get_landsat_failed_download_witness :
  fst (run (staged_world true [] [sample_scene; second_scene] JNull []
              (Raise (OSError "disk full")))
         (get_landsat box_geo_interface (config_with false true false) "42"
            (1, 2, 3, 4) (mk_datetime 2020 5 22) (mk_datetime 2020 6 20)
            "json_file_name" "Landsat-8") [])
  = Raised (OSError "disk full").
Proof.
  unshelve epose proof
    (get_landsat_failed_download box_geo_interface
       (config_with false true false)
       (staged_world true [] [sample_scene; second_scene] JNull []
          (Raise (OSError "disk full")))
       "42" (1, 2, 3, 4) (mk_datetime 2020 5 22) (mk_datetime 2020 6 20)
       "json_file_name" "Landsat-8" sample_scene [second_scene]
       (OSError "disk full") [] _ _ _ _ _ _) as [Hrun _].
  all: lazymatch goal with
       | H : _ |- _ => exact (f_equal fst H)
       | |- _ => idtac
       end.
  all: try reflexivity.
  repeat split.
Defined.

Definition sidecar_fields : gmap string (json Z) :=
  <["features" :=
      JArr [JObj (<["sentinel_senes" := JArr [JStr "stale"]]>
                    (<["type" := JStr "Feature"]> ∅))]]>
    (<["type" := JStr "FeatureCollection"]> ∅).

Lemma sidecar_features :
  sidecar_fields !! "features"
  = Some (JArr [JObj (<["sentinel_senes" := JArr [JStr "stale"]]>
                        (<["type" := JStr "Feature"]> ∅))]).
Proof. apply lookup_insert_eq. Defined.

Lemma set_in_first_feature_frame_witness :
  exists data',
    set_in_first_feature (JObj sidecar_fields) "sentinel_senes" (JArr [])
    = Ok data'
    /\ getitem data' "type" = Ok (JStr "FeatureCollection").
Proof.
  assert (Hset :
    set_in_first_feature (JObj sidecar_fields) "sentinel_senes" (JArr [])
    = Ok (with_scene_list sidecar_fields
            (<["sentinel_senes" := JArr [JStr "stale"]]>
               (<["type" := JStr "Feature"]> ∅)) [] "sentinel_senes" [])).
  { unfold set_in_first_feature. cbn [getitem]. rewrite sidecar_features.
    cbn [answer_bind getindex lookup list_lookup setitem].
    unfold with_scene_list. rewrite insert_insert_eq. reflexivity. }
  eexists. split; [exact Hset |].
  destruct (set_in_first_feature_frame _ _ _ _ Hset)
    as (fields & feature & others & _ & _ & _ & Hkeep & _).
  rewrite (Hkeep "type") by discriminate.
  cbn [getitem]. unfold sidecar_fields.
  rewrite lookup_insert_ne by discriminate. rewrite lookup_insert_eq.
  reflexivity.
Defined.

Lemma get_sentinel_updates_json_witness :
  exists trace,
    run (staged_world true two_products [] (JObj sidecar_fields) [] (Ok tt))
      (get_sentinel (config_with false false true) "42"
         "polygon((3 4,3 2,1 2,1 4,3 4))" (mk_datetime 2020 5 22)
         (mk_datetime 2020 6 20) "event.json" "S2MSI2A" "Sentinel-2") []
    = (Returned VNone, trace)
    /\ last trace
       = Some (Asked
                 (JsonDump "event.json"
                    (with_scene_list sidecar_fields
                       (<["sentinel_senes" := JArr [JStr "stale"]]>
                          (<["type" := JStr "Feature"]> ∅)) []
                       "sentinel_senes"
                       [sentinel_element sample_odata;
                        sentinel_element sample_odata]))).
Proof.
  unshelve epose proof
    (get_sentinel_updates_json (geometry := box4)
       (config_with false false true)
       (staged_world true two_products [] (JObj sidecar_fields) [] (Ok tt))
       "42" "polygon((3 4,3 2,1 2,1 4,3 4))" (mk_datetime 2020 5 22)
       (mk_datetime 2020 6 20) "event.json" "S2MSI2A" "Sentinel-2"
       two_products (fun _ => sample_odata) sidecar_fields
       (<["sentinel_senes" := JArr [JStr "stale"]]>
          (<["type" := JStr "Feature"]> ∅)) [] []
       _ _ _ _ _ _ _ _ _ _) as Hrun.
  all: lazymatch goal with
       | H : _ |- _ => eexists; split; [exact H | reflexivity]
       | |- _ => idtac
       end.
  all: try exact sidecar_features.
  all: try reflexivity; discriminate.
Defined.

Definition legacy_geometry : gmap string (json Z) :=
  <["coordinates" :=
      JArr [JArr [JArr (map point_json [(5, 2); (1, 8); (3, 4)])]]]> ∅.

Definition legacy_feature_with_ring : gmap string (json Z) :=
  <["geometry" := JObj legacy_geometry]> ∅.

Lemma parse_jsons_result_witness :
  run (staged_world true [] []
         (legacy_document ∅ legacy_feature_with_ring []
            (<["main_clim" := JStr "arid"]> legacy_properties)) [] (Ok tt))
    (parse_jsons swap_axes "event.json") []
  = (Returned (JNum 7, mk_datetime 2020 6 1, mk_datetime 2020 6 10, 2, 1, 8, 5),
     [Asked (JsonLoad "event.json")]).
Proof.
  destruct legacy_properties_lookup as (Hfirst & Hlast & Hfid & _).
  unshelve epose proof
    (parse_jsons_result (geometry := box4) swap_axes
       (staged_world true [] []
          (legacy_document ∅ legacy_feature_with_ring []
             (<["main_clim" := JStr "arid"]> legacy_properties)) [] (Ok tt))
       "event.json" ∅ legacy_feature_with_ring legacy_geometry [] [] []
       (<["main_clim" := JStr "arid"]> legacy_properties)
       "2020-06-01" "2020-06-10" (JNum 7) (JStr "arid")
       (mk_datetime 2020 6 1) (mk_datetime 2020 6 10) (5, 2) [(1, 8); (3, 4)] []
       _ _ _ _ _ _ _ _ _) as (_ & _ & _ & _ & Hrun).
  all: lazymatch goal with
       | H : run _ _ _ = _ |- _ => exact H
       | |- _ => idtac
       end.
  - rewrite lookup_insert_ne by discriminate. exact Hfirst.
  - rewrite lookup_insert_ne by discriminate. exact Hlast.
  - rewrite lookup_insert_ne by discriminate. exact Hfid.
  - apply lookup_insert_eq.
  - reflexivity.
  - reflexivity.
  - apply lookup_insert_eq.
  - apply lookup_insert_eq.
  - reflexivity.
Defined.

(** A legacy document whose first date names a thirteenth month. *)
Definition misdated_properties : gmap string (json Z) :=
  <["first_date_7" := JStr "2020-13-01"]>
    (<["main_clim" := JStr "arid"]> legacy_properties).

Lemma parse_jsons_failures_witness :
  is_ascii "2020-13-01" = true
  /\ strptime_ymd "2020-13-01" = Raise ValueError
  /\ parse_jsons_data swap_axes
       (legacy_document ∅ legacy_feature_with_ring [] misdated_properties)
     = Raise ValueError.
Proof.
  split; [reflexivity |]. split; [reflexivity |].
  destruct (parse_jsons_failures swap_axes ∅ legacy_feature_with_ring
              legacy_geometry [] [] [] misdated_properties
              "2020-13-01" "2020-06-10" (JNum 7) (JStr "arid")
              (mk_datetime 2020 6 1) (mk_datetime 2020 6 10))
    as (_ & _ & Hdates).
  destruct (Hdates eq_refl eq_refl eq_refl) as (_ & Hbad & _).
  exact (Hbad eq_refl eq_refl ValueError eq_refl).
Defined.

Lemma int_lt_trans (x y z : Z) :
  py_lt x y = true -> py_lt y z = true -> py_lt x z = true.
Proof.
  cbn. intros Hxy Hyz. apply Z.ltb_lt in Hxy, Hyz. apply Z.ltb_lt. lia.
Defined.

Lemma extents_bound_witness :
  py_min [5; 1; 3] = Ok 1 /\ forall x, In x [5; 1; 3] -> py_lt x 1 = false.
Proof.
  split; [reflexivity |].
  exact (proj2 (proj1 (extents_bound int_lt_trans [5; 1; 3]) 1 eq_refl)).
Defined.

Definition other_row : @fire_row box4 := {|
  row_id := "41";
  ig_date := "2019-01-01";
  last_date := "2019-01-02";
  row_geometry := (0, 0, 1, 1)
|}.

Lemma parse_shp_first_match_witness :
  fst (run (staged_world true [] [] JNull
              [other_row; sample_row "2020-06-01" "2020-06-10";
               sample_row "1999-01-01" "1999-01-02"] (Ok tt))
         (parse_shp "/data/Fire_events/selected_events.shp" "42") [])
  = Returned ("42", mk_datetime 2020 6 1, mk_datetime 2020 6 10, (1, 2, 3, 4))
  /\ fst (run (staged_world true [] [] JNull
                 [other_row; sample_row "2020-13-01" "2020-06-10"] (Ok tt))
            (parse_shp "/data/Fire_events/selected_events.shp" "42") [])
     = Raised ValueError.
Proof.
  split.
  2: {
    unshelve epose proof
      (parse_shp_first_match
         (staged_world true [] [] JNull
            [other_row; sample_row "2020-13-01" "2020-06-10"] (Ok tt))
         "/data/Fire_events/selected_events.shp" "42" [other_row] []
         (sample_row "2020-13-01" "2020-06-10") [] _ _ _) as (_ & _ & Hbad).
    all: lazymatch goal with
         | H : _ |- _ =>
             exact (H (or_introl
                         (conj eq_refl (ex_intro _ ValueError eq_refl))))
         | |- _ => idtac
         end.
    - reflexivity.
    - repeat constructor. discriminate.
    - reflexivity. }
  unshelve epose proof
    (parse_shp_first_match
       (staged_world true [] [] JNull
          [other_row; sample_row "2020-06-01" "2020-06-10";
           sample_row "1999-01-01" "1999-01-02"] (Ok tt))
       "/data/Fire_events/selected_events.shp" "42" [other_row]
       [sample_row "1999-01-01" "1999-01-02"]
       (sample_row "2020-06-01" "2020-06-10") [] _ _ _) as (_ & Hok & _).
  all: lazymatch goal with
       | H : _ |- _ =>
           exact (H (mk_datetime 2020 6 1) (mk_datetime 2020 6 10)
                    eq_refl eq_refl)
       | |- _ => idtac
       end.
  - reflexivity.
  - repeat constructor. discriminate.
  - reflexivity.
Defined.

Lemma main_window_overflow_witness :
  run (one_event "0001-01-05" "0001-01-20") (sample_main "42" "sentinel") []
  = (Raised OverflowError,
     [Asked (ReadShapefile "/data/Fire_events/selected_events.shp");
      Said (MsgSearchingFor "sentinel" "42");
      Said (MsgSettings true true)]).
Proof.
  unshelve epose proof
    (main_window_overflow (fun g : box4 => g) (fun b : box4 => b) box_wkt
       box_geo_interface sample_config
       (one_event "0001-01-05" "0001-01-20") "42" "sentinel" "42"
       (mk_datetime 1 1 5) (mk_datetime 1 1 20) (1, 2, 3, 4) 10 []
       [Asked (ReadShapefile "/data/Fire_events/selected_events.shp")]
       _ _ _) as Hrun.
  all: lazymatch goal with
       | H : _ |- _ => exact H
       | |- _ => idtac
       end.
  - reflexivity.
  - left. split; reflexivity.
  - left. exists OverflowError. reflexivity.
Defined.

Lemma strptime_strftime_witness :
  strftime_ymd (mk_datetime 2020 5 22) = "2020-05-22"
  /\ strptime_ymd (strftime_ymd (mk_datetime 2020 5 22))
     = Ok (mk_datetime 2020 5 22).
Proof.
  split; [reflexivity |].
  apply (strptime_strftime (mk_datetime 2020 5 22)); [reflexivity |].
  cbn. lia.
Defined.

Lemma footprint_poly_inverted_bounds_witness :
  exists r,
    Footprint.parse_wkt_polygon (Footprint.get_footprint_poly 3 4 1 2) = Some r
    /\ length r = 5%nat
    /\ Footprint.ring_closed r
    /\ Footprint.ring_bounds r = Ok (1, 2, 3, 4)
    /\ Footprint.ring_bounds r <> Ok (Footprint.get_bbox 3 4 1 2).
Proof.
  exact (footprint_poly_inverted_bounds 3 4 1 2 eq_refl eq_refl).
Defined.

Lemma footprint_poly_injective_witness : (1, 2, 3, 4) = (1, 2, 3, 4).
Proof.
  exact (footprint_poly_injective 1 2 3 4 1 2 3 4 eq_refl).
Defined.
